(** * Pizza delivery back end: orders, pricing and the inventory ledger

    A shallow embedding of the order and inventory logic of the Express /
    Mongoose back end (models/Inventory.js, models/Pizza.js, the Order model,
    routes/order.js, routes/admin.js, routes/inventory.js,
    utils/razorpayService.js and the limiter of middleware/auth.js), with
    the properties of its specification, and further properties of the code,
    stated and proved over it.

    Conventions of the embedding.
    - A JavaScript [Number] is an exact rational ([Q]): [+], [-], [*], [/]
      are the field operations and comparisons are decided exactly.  The
      rounding of binary64 arithmetic is not part of the model; [Math.round]
      is the integer [floor (x + 1/2)].
    - A clock reading and a stored [Date] are millisecond counts ([Z]);
      every handler receives the clock reading [now] of the request.  A
      date computed from a number that may leave the range of dates is a
      [JS.Date], which may be invalid.
    - A Mongoose collection is the list of its documents in natural order;
      [findOne] is the first document that satisfies the filter.  A document
      read back has the fields that were stored; a nested path of the
      schema reads as an object whether or not anything is stored under it,
      and a leaf that is not stored reads as [undefined] ([None]).
    - Object ids are their hexadecimal strings.
    - The documents of the store satisfy their schemas.  [save] validates
      the document, then runs the [pre('save')] hooks the schema declares,
      in order, then writes; of the schema validators of an order the model
      has the one a document built by a handler can fail, the required
      [orderId].
    - Request bodies are typed: an enumeration the validation chain checks
      with [isIn] is an inductive type, an array of names is a list.
    - Calls that leave the process (payment gateway, mail transport) take
      their outcome as an argument and are recorded in an effect log; the
      keyed hash, the regular expressions and the object-id validator of
      the platform are fields of [Runtime]. *)

From Stdlib Require Import ZArith QArith Qround Qabs.
From Stdlib Require Import String Ascii DecimalString List Bool Lia Lqa.
Import ListNotations.

(* ------------------------------------------------------------------ *)
(** ** JavaScript numbers, strings and the error monad                  *)
(* ------------------------------------------------------------------ *)

Module JS.

(** The type of numbers. *)
Abbreviation number := Q.

(** [x <= y] and [x < y] on numbers. *)
Definition leb (x y : number) : bool := Qle_bool x y.
Definition ltb (x y : number) : bool := negb (Qle_bool y x).

(** [Math.round]: the nearest integer, a half going up. *)
Definition round (x : number) : number := inject_Z (Qfloor (x + (1 # 2))).

(** [Math.abs]. *)
Definition abs (x : number) : number := Qabs x.

(** Truthiness of a string: only the empty string is falsy. *)
Definition truthy (s : string) : bool := negb (String.eqb s EmptyString).

(** [s || d] where [s] may be [undefined]. *)
Definition or_default (s : option string) (d : string) : string :=
  match s with
  | Some v => if truthy v then v else d
  | None => d
  end.

(** ASCII white space, as [trim] removes it. *)
Definition isSpace (c : ascii) : bool :=
  let n := nat_of_ascii c in
  Nat.eqb n 32 || (Nat.leb 9 n && Nat.leb n 13).

Fixpoint trimStart (s : string) : string :=
  match s with
  | EmptyString => EmptyString
  | String c rest => if isSpace c then trimStart rest else s
  end.

(** The string without its trailing white space. *)
Fixpoint trimEnd (s : string) : string :=
  match s with
  | EmptyString => EmptyString
  | String c rest =>
      match trimEnd rest with
      | EmptyString => if isSpace c then EmptyString else String c EmptyString
      | kept => String c kept
      end
  end.

(** [s.trim()] *)
Definition trim (s : string) : string := trimEnd (trimStart s).

Definition isDigit (c : ascii) : bool :=
  let n := nat_of_ascii c in Nat.leb 48 n && Nat.leb n 57.

Fixpoint allDigits (s : string) : bool :=
  match s with
  | EmptyString => true
  | String c rest => isDigit c && allDigits rest
  end.

(** [/^\d{k}$/.test(s)] *)
Definition digits (k : nat) (s : string) : bool :=
  Nat.eqb (String.length s) k && allDigits s.

(** [Math.ceil] *)
Definition ceil (x : number) : Z := Qceiling x.

(** A [Date] object: its time value, in milliseconds, or an Invalid
    Date. *)
Inductive Date := Time (t : Z) | InvalidDate.

(** The largest time value of a [Date]: 100 million days. *)
Definition maxTime : Z := 8640000000000000.

(** [new Date(x)] for a number: the time value is the integer part of [x],
    and the date is invalid when [x] is beyond the range of time values on
    either side. *)
Definition newDate (x : number) : Date :=
  if Qle_bool (Qabs x) (inject_Z maxTime)
  then Time (if Qle_bool 0 x then Qfloor x else Qceiling x)
  else InvalidDate.

(** [parseInt(s) || d], on the integer the text parses to, if any: [NaN]
    and 0 are falsy. *)
Definition int_or (parsed : option Z) (d : Z) : Z :=
  match parsed with
  | Some n => if Z.eqb n 0 then d else n
  | None => d
  end.

End JS.

(** Fallible code: [inl e] is a thrown error, a rejected promise or an early
    [return res.status(...)]. *)
Definition result (E A : Type) : Type := (E + A)%type.

Definition throw {E A} (e : E) : result E A := inl e.
Definition ok {E A} (a : A) : result E A := inr a.

Definition bind {E A B} (c : result E A) (k : A -> result E B)
  : result E B :=
  match c with
  | inl e => inl e
  | inr a => k a
  end.

(** What is thrown to a [catch] or passed to [next]: a plain [Error] with its
    message, or one of the two errors of Mongoose that the error handler
    tells apart, with what the handler reads of them (the messages of
    [err.errors], the field of [err.keyValue]). *)
Inductive Thrown :=
| PlainError (message : string)
| ValidationError (messages : list string)
| DuplicateKey (field : string).

Declare Scope result_scope.
Delimit Scope result_scope with result.
Notation "x <- c ;; k" := (bind c (fun x => k))
  (at level 61, c at next level, right associativity) : result_scope.

(* ------------------------------------------------------------------ *)
(** ** models/Inventory.js                                              *)
(* ------------------------------------------------------------------ *)

Module Inventory.

Local Open Scope Q_scope.
Local Open Scope string_scope.

(** One element of [stockHistory]. *)
Record StockMovement := mkMovement {
  action : string;
  quantity : JS.number;
  previousStock : JS.number;
  newStock : JS.number;
  reason : option string;
  performedBy : option string;
  timestamp : Z;
  orderId : option string
}.

(** The fields of an inventory document that the stock logic reads or
    writes. *)
Record Item := mkItem {
  _id : string;
  name : string;
  category : string;
  currentStock : JS.number;
  minStockLevel : JS.number;
  maxStockLevel : JS.number;
  lastRestocked : Z;
  isActive : bool;
  lowStockAlertSent : bool;
  stockHistory : list StockMovement;
  updatedAt : Z
}.

Definition set_currentStock (v : JS.number) (i : Item) : Item :=
  mkItem (_id i) (name i) (category i) v (minStockLevel i) (maxStockLevel i)
         (lastRestocked i) (isActive i) (lowStockAlertSent i)
         (stockHistory i) (updatedAt i).

Definition set_lastRestocked (t : Z) (i : Item) : Item :=
  mkItem (_id i) (name i) (category i) (currentStock i) (minStockLevel i)
         (maxStockLevel i) t (isActive i) (lowStockAlertSent i)
         (stockHistory i) (updatedAt i).

Definition set_lowStockAlertSent (b : bool) (i : Item) : Item :=
  mkItem (_id i) (name i) (category i) (currentStock i) (minStockLevel i)
         (maxStockLevel i) (lastRestocked i) (isActive i) b
         (stockHistory i) (updatedAt i).

Definition push_stockHistory (m : StockMovement) (i : Item) : Item :=
  mkItem (_id i) (name i) (category i) (currentStock i) (minStockLevel i)
         (maxStockLevel i) (lastRestocked i) (isActive i)
         (lowStockAlertSent i) (stockHistory i ++ [m])%list (updatedAt i).

Definition set_updatedAt (t : Z) (i : Item) : Item :=
  mkItem (_id i) (name i) (category i) (currentStock i) (minStockLevel i)
         (maxStockLevel i) (lastRestocked i) (isActive i)
         (lowStockAlertSent i) (stockHistory i) t.

(** [isLowStock] *)
Definition isLowStock (this : Item) : bool :=
  JS.leb (currentStock this) (minStockLevel this).

(** [isCriticallyLowStock] *)
Definition isCriticallyLowStock (this : Item) : bool :=
  JS.leb (currentStock this) (minStockLevel this / 2).

Inductive StockStatus := critical | low | overstocked | normal.

(** [getStockStatus] *)
Definition getStockStatus (this : Item) : StockStatus :=
  if isCriticallyLowStock this then critical
  else if isLowStock this then low
  else if JS.leb (maxStockLevel this) (currentStock this) then overstocked
  else normal.

(** The [pre('save')] hook: a document whose maximum does not exceed its
    minimum is refused, otherwise [updatedAt] is stamped. *)
Definition preSave (now : Z) (this : Item) : result string Item :=
  if JS.leb (maxStockLevel this) (minStockLevel this)
  then throw "Maximum stock level must be greater than minimum stock level"
  else ok (set_updatedAt now this).

(** [save]: the hook, then the write.  The result is the stored document. *)
Definition save (now : Z) (this : Item) : result string Item :=
  preSave now this.

(** The [switch] of [updateStock]. *)
Definition applyAction (now : Z) (act : string) (qty : JS.number)
           (this : Item) : result string Item :=
  if String.eqb act "restock" then
    ok (set_lowStockAlertSent false
          (set_lastRestocked now
             (set_currentStock (currentStock this + qty) this)))
  else if String.eqb act "consumption" || String.eqb act "wastage" then
    ok (set_currentStock (currentStock this - qty) this)
  else if String.eqb act "adjustment" then
    ok (set_currentStock qty this)
  else throw "Invalid stock action".

(** "Ensure stock doesn't go negative". *)
Definition clampStock (this : Item) : Item :=
  if JS.ltb (currentStock this) 0 then set_currentStock 0 this else this.

(** [updateStock(action, quantity, reason, performedBy, orderId = null)] *)
Definition updateStock (now : Z) (act : string) (qty : JS.number)
           (why who order : option string)
           (this : Item) : result string Item :=
  (let previous := currentStock this in
   moved <- applyAction now act qty this ;;
   let clamped := clampStock moved in
   let logged :=
     push_stockHistory
       (mkMovement act (JS.abs qty) previous (currentStock clamped)
                   why who now order)
       clamped in
   save now logged)%result.

(** [getConsumptionRate]: what the history records as consumed over the
    last 30 days, per day. *)
Definition getConsumptionRate (now : Z) (this : Item) : JS.number :=
  let thirtyDaysAgo := (now - 30 * 24 * 60 * 60 * 1000)%Z in
  let consumptionHistory :=
    filter (fun entry => String.eqb (action entry) "consumption"
                         && (thirtyDaysAgo <=? timestamp entry)%Z)
           (stockHistory this) in
  let totalConsumed :=
    fold_left (fun total entry => total + quantity entry)
              consumptionHistory 0 in
  totalConsumed / 30.

(** [predictStockOutDate]: [None] is [null]. *)
Definition predictStockOutDate (now : Z) (this : Item) : option JS.Date :=
  let consumptionRate := getConsumptionRate now this in
  if JS.leb consumptionRate 0 then None
  else
    let daysUntilStockOut := currentStock this / consumptionRate in
    Some (JS.newDate (inject_Z now
                      + daysUntilStockOut * 24 * 60 * 60 * 1000)).

(** [Inventory.getLowStockItems()] *)
Definition getLowStockItems (coll : list Item) : list Item :=
  filter (fun i => JS.leb (currentStock i) (minStockLevel i) && isActive i)
         coll.

End Inventory.

(* ------------------------------------------------------------------ *)
(** ** models/Pizza.js                                                  *)
(* ------------------------------------------------------------------ *)

Module Pizza.

Record SizeOption := mkSize {
  size : string;
  priceMultiplier : JS.number
}.

Record T := mkPizza {
  _id : string;
  name : string;
  basePrice : JS.number;
  sizes : list SizeOption;
  isAvailable : bool;
  preparationTime : JS.number
}.

(** [calculatePrice(customizations, size = 'medium')]; the customizations
    are not read. *)
Definition calculatePrice (wanted : option string) (this : T) : JS.number :=
  let wanted :=
    match wanted with Some s => s | None => "medium"%string end in
  let totalPrice := basePrice this in
  match find (fun s => String.eqb (size s) wanted) (sizes this) with
  | Some sizeOption => (totalPrice * priceMultiplier sizeOption)%Q
  | None => totalPrice
  end.

End Pizza.

Module PizzaOptions.

(** An entry of one of the five option lists. *)
Record Choice := mkChoice {
  name : string;
  price : JS.number;
  isAvailable : bool
}.

(** The singleton customization document. *)
Record T := mkOptions {
  bases : list Choice;
  sauces : list Choice;
  cheeses : list Choice;
  vegetables : list Choice;
  meats : list Choice
}.

End PizzaOptions.

(* ------------------------------------------------------------------ *)
(** ** The Order model                                                  *)
(* ------------------------------------------------------------------ *)

Module Order.

Local Open Scope string_scope.

Inductive Status :=
| pending | confirmed | preparing | ready | out_for_delivery | delivered
| cancelled.

Definition Status_eqb (a b : Status) : bool :=
  match a, b with
  | pending, pending | confirmed, confirmed | preparing, preparing
  | ready, ready | out_for_delivery, out_for_delivery
  | delivered, delivered | cancelled, cancelled => true
  | _, _ => false
  end.

(** The string a status is stored as. *)
Definition Status_to_string (s : Status) : string :=
  match s with
  | pending => "pending"
  | confirmed => "confirmed"
  | preparing => "preparing"
  | ready => "ready"
  | out_for_delivery => "out-for-delivery"
  | delivered => "delivered"
  | cancelled => "cancelled"
  end.

Inductive PaymentStatus :=
| payment_pending | payment_completed | payment_failed | payment_refunded.

Inductive PaymentMethod := razorpay | cod.

Definition PaymentMethod_eqb (a b : PaymentMethod) : bool :=
  match a, b with
  | razorpay, razorpay | cod, cod => true
  | _, _ => false
  end.

(** A resolved customization: the name and the price captured at order
    time. *)
Record Priced := mkPriced {
  name : string;
  price : JS.number
}.

Record Customizations := mkCustomizations {
  base : option Priced;
  sauce : option Priced;
  cheese : list Priced;
  vegetables : list Priced;
  meats : list Priced
}.

Record Item := mkItem {
  pizza : string;
  quantity : Z;
  size : string;
  customizations : Customizations;
  itemPrice : JS.number;
  totalItemPrice : JS.number
}.

Record Address := mkAddress {
  street : string;
  city : string;
  state : string;
  zipCode : string
}.

Record PaymentDetails := mkPaymentDetails {
  razorpayOrderId : option string;
  razorpayPaymentId : option string;
  razorpaySignature : option string
}.

Record Pricing := mkPricing {
  subtotal : JS.number;
  deliveryFee : JS.number;
  tax : JS.number;
  discount : JS.number;
  total : JS.number
}.

(** One element of [statusHistory]. *)
Record StatusChange := mkChange {
  status : Status;
  timestamp : Z;
  updatedBy : option string;
  notes : string
}.

Record T := mkOrder {
  _id : string;
  orderId : string;
  user : string;
  items : list Item;
  deliveryAddress : Address;
  contactPhone : string;
  orderStatus : Status;
  paymentStatus : PaymentStatus;
  paymentMethod : PaymentMethod;
  paymentDetails : PaymentDetails;
  pricing : Pricing;
  estimatedDeliveryTime : Z;
  actualDeliveryTime : option Z;
  orderNotes : option string;
  statusHistory : list StatusChange;
  updatedAt : Z
}.

Definition set_orderId (v : string) (o : T) : T :=
  mkOrder (_id o) v (user o) (items o) (deliveryAddress o) (contactPhone o)
          (orderStatus o) (paymentStatus o) (paymentMethod o)
          (paymentDetails o) (pricing o) (estimatedDeliveryTime o)
          (actualDeliveryTime o) (orderNotes o) (statusHistory o)
          (updatedAt o).

Definition set_orderStatus (v : Status) (o : T) : T :=
  mkOrder (_id o) (orderId o) (user o) (items o) (deliveryAddress o)
          (contactPhone o) v (paymentStatus o) (paymentMethod o)
          (paymentDetails o) (pricing o) (estimatedDeliveryTime o)
          (actualDeliveryTime o) (orderNotes o) (statusHistory o)
          (updatedAt o).

Definition set_paymentStatus (v : PaymentStatus) (o : T) : T :=
  mkOrder (_id o) (orderId o) (user o) (items o) (deliveryAddress o)
          (contactPhone o) (orderStatus o) v (paymentMethod o)
          (paymentDetails o) (pricing o) (estimatedDeliveryTime o)
          (actualDeliveryTime o) (orderNotes o) (statusHistory o)
          (updatedAt o).

Definition set_paymentDetails (v : PaymentDetails) (o : T) : T :=
  mkOrder (_id o) (orderId o) (user o) (items o) (deliveryAddress o)
          (contactPhone o) (orderStatus o) (paymentStatus o)
          (paymentMethod o) v (pricing o) (estimatedDeliveryTime o)
          (actualDeliveryTime o) (orderNotes o) (statusHistory o)
          (updatedAt o).

Definition set_estimatedDeliveryTime (v : Z) (o : T) : T :=
  mkOrder (_id o) (orderId o) (user o) (items o) (deliveryAddress o)
          (contactPhone o) (orderStatus o) (paymentStatus o)
          (paymentMethod o) (paymentDetails o) (pricing o) v
          (actualDeliveryTime o) (orderNotes o) (statusHistory o)
          (updatedAt o).

Definition set_actualDeliveryTime (v : option Z) (o : T) : T :=
  mkOrder (_id o) (orderId o) (user o) (items o) (deliveryAddress o)
          (contactPhone o) (orderStatus o) (paymentStatus o)
          (paymentMethod o) (paymentDetails o) (pricing o)
          (estimatedDeliveryTime o) v (orderNotes o) (statusHistory o)
          (updatedAt o).

Definition push_statusHistory (c : StatusChange) (o : T) : T :=
  mkOrder (_id o) (orderId o) (user o) (items o) (deliveryAddress o)
          (contactPhone o) (orderStatus o) (paymentStatus o)
          (paymentMethod o) (paymentDetails o) (pricing o)
          (estimatedDeliveryTime o) (actualDeliveryTime o) (orderNotes o)
          (statusHistory o ++ [c])%list (updatedAt o).

Definition set_updatedAt (v : Z) (o : T) : T :=
  mkOrder (_id o) (orderId o) (user o) (items o) (deliveryAddress o)
          (contactPhone o) (orderStatus o) (paymentStatus o)
          (paymentMethod o) (paymentDetails o) (pricing o)
          (estimatedDeliveryTime o) (actualDeliveryTime o) (orderNotes o)
          (statusHistory o) v.

Definition set_razorpayOrderId (v : string) (d : PaymentDetails)
  : PaymentDetails :=
  mkPaymentDetails (Some v) (razorpayPaymentId d) (razorpaySignature d).

Definition set_razorpayPaymentId (v : string) (d : PaymentDetails)
  : PaymentDetails :=
  mkPaymentDetails (razorpayOrderId d) (Some v) (razorpaySignature d).

Definition set_razorpaySignature (v : string) (d : PaymentDetails)
  : PaymentDetails :=
  mkPaymentDetails (razorpayOrderId d) (razorpayPaymentId d) (Some v).

(** *** Documents

    A Mongoose document is the stored fields together with what Mongoose
    tracks about them: whether the document has never been saved, and
    whether [orderStatus] has been given a different value since it was
    loaded or last saved (an assignment of the value the path already has
    does not mark it). *)
Record Doc := mkDoc {
  fields : T;
  isNew : bool;
  orderStatusModified : bool
}.

(** A document as a query returns it. *)
Definition loaded (o : T) : Doc := mkDoc o false false.

(** [isModified('orderStatus')] *)
Definition isModified_orderStatus (d : Doc) : bool := orderStatusModified d.

(** [doc.orderStatus = v] *)
Definition assign_orderStatus (v : Status) (d : Doc) : Doc :=
  mkDoc (set_orderStatus v (fields d)) (isNew d)
        (orderStatusModified d
         || isNew d
         || negb (Status_eqb v (orderStatus (fields d)))).

(** Any other mutation of the fields. *)
Definition update (f : T -> T) (d : Doc) : Doc :=
  mkDoc (f (fields d)) (isNew d) (orderStatusModified d).

(** The clock reading, the value of [Math.random()] and the object id a
    new document receives. *)
Record Env := mkEnv {
  now : Z;
  random : JS.number;
  freshId : string
}.

(** [n.toString()] for an integer. *)
Definition toString (n : Z) : string := NilZero.string_of_int (Z.to_int n).

(** [s.slice(-k)] *)
Definition slice_last (k : nat) (s : string) : string :=
  String.substring (String.length s - k) k s.

(** [s.padStart(k, '0')] *)
Fixpoint zeros (n : nat) : string :=
  match n with
  | O => ""
  | S m => String "0"%char (zeros m)
  end.

Definition padStart0 (k : nat) (s : string) : string :=
  zeros (k - String.length s) ++ s.

(** First [pre('save')] hook: "Generate unique order ID". *)
Definition preSave_orderId (e : Env) (d : Doc) : Doc :=
  let d1 :=
    if JS.truthy (orderId (fields d)) then d
    else
      let timestamp := toString (now e) in
      let randomNum :=
        padStart0 3 (toString (Qfloor (random e * 1000))) in
      update (set_orderId ("PZ" ++ slice_last 6 timestamp ++ randomNum)) d in
  update (set_updatedAt (now e)) d1.

(** Second [pre('save')] hook: "Update status history when status
    changes". *)
Definition preSave_statusHistory (e : Env) (d : Doc) : Doc :=
  if isModified_orderStatus d && negb (isNew d) then
    update (push_statusHistory
              (mkChange (orderStatus (fields d)) (now e) None
                        ("Status updated to "
                           ++ Status_to_string (orderStatus (fields d)))))
           d
  else d.

(** The write of [save]: a new document is inserted, and the unique index on
    [orderId] refuses a second document with the same value; a stored
    document is replaced in place. *)
Fixpoint replace (o : T) (coll : list T) : list T :=
  match coll with
  | [] => []
  | x :: rest =>
      if String.eqb (_id x) (_id o) then o :: rest else x :: replace o rest
  end.

Definition write (d : Doc) (coll : list T) : result Thrown (list T) :=
  if isNew d then
    if existsb (fun x => String.eqb (orderId x) (orderId (fields d))) coll
    then throw (DuplicateKey "orderId")
    else ok (coll ++ [fields d])%list
  else ok (replace (fields d) coll).

(** The validation of [save].  Mongoose registers it as the first
    [pre('save')] hook, so it runs before the two hooks the schema declares.
    [orderId] is a required path (a missing or empty string fails it), and
    it is the path a document can lack: the other paths of a new document
    come from a request that passed the validation chain of its route, and a
    document read from the store satisfied the schema when it was written
    and is assigned checked values only. *)
Definition validate (d : Doc) : result Thrown Doc :=
  if isNew d && negb (JS.truthy (orderId (fields d)))
  then throw (ValidationError ["Path `orderId` is required."])
  else ok d.

(** [doc.save()]: the validation, the two hooks, the write, and the tracking
    reset. *)
Definition save (e : Env) (d : Doc) (coll : list T)
  : result Thrown (Doc * list T) :=
  (checked <- validate d ;;
   let d' := preSave_statusHistory e (preSave_orderId e checked) in
   coll' <- write d' coll ;;
   ok (loaded (fields d'), coll'))%result.

(** [calculateEstimatedDeliveryTime].  It runs before any [populate], so
    [item.pizza] is an object id, [item.pizza.preparationTime] is undefined
    and every item counts for the default 30 minutes. *)
Definition calculateEstimatedDeliveryTime (e : Env) (o : T) : T :=
  let preparationTime :=
    fold_left (fun total (_ : Item) => (total + 30)%Z) (items o) 0%Z in
  let totalTime := (Z.max preparationTime 30 + 30)%Z in
  set_estimatedDeliveryTime (now e + totalTime * 60000)%Z o.

(** [getOrderSummary]: the fields it computes or copies. *)
Record Summary := mkSummary {
  summaryOrderId : string;
  summaryStatus : Status;
  summaryTotal : JS.number;
  itemCount : Z;
  summaryEstimatedDeliveryTime : Z
}.

Definition getOrderSummary (o : T) : Summary :=
  mkSummary (orderId o) (orderStatus o) (total (pricing o))
            (fold_left (fun total item => (total + quantity item)%Z)
                       (items o) 0%Z)
            (estimatedDeliveryTime o).

End Order.

(* ------------------------------------------------------------------ *)
(** ** The platform, responses, effects and the stores                  *)
(* ------------------------------------------------------------------ *)

(** What the Node platform and its libraries supply. *)
Record Runtime := mkRuntime {
  (** [crypto.createHmac('sha256', key).update(msg).digest('hex')] *)
  hmacSha256Hex : string -> string -> string;
  (** [process.env.RAZORPAY_KEY_SECRET] *)
  RAZORPAY_KEY_SECRET : option string;
  (** [new RegExp(pattern, 'i')]: [None] when the pattern is not a regular
      expression, otherwise its match test. *)
  regExpI : string -> option (string -> bool);
  (** The validator behind [isMongoId()]. *)
  isMongoId : string -> bool
}.

Module Http.

(** [res.status(code).json({ success, message, ... })] *)
Record Response := mkResponse {
  code : Z;
  success : bool;
  message : string
}.

End Http.

(** What a handler sends out of the process. *)
Inductive Effect :=
| GatewayCreateOrder (amountPaise : JS.number) (currency receipt : string)
| GatewayRefund (paymentId : option string)
    (amountPaise : option JS.number) (reason : string)
| MailOrderConfirmation (user orderId : string)
| MailOrderStatusUpdate (user orderId : string) (status : Order.Status)
| MailLowStockAlert (items : list string)
| Emit (room event orderId : string).

(** The collections. *)
Record World := mkWorld {
  orders : list Order.T;
  inventory : list Inventory.Item;
  pizzas : list Pizza.T;
  pizzaOptions : list PizzaOptions.T
}.

Definition set_orders (v : list Order.T) (w : World) : World :=
  mkWorld v (inventory w) (pizzas w) (pizzaOptions w).

Definition set_inventory (v : list Inventory.Item) (w : World) : World :=
  mkWorld (orders w) v (pizzas w) (pizzaOptions w).

(** What a request leaves behind. *)
Record Outcome := mkOutcome {
  response : Http.Response;
  world : World;
  effects : list Effect
}.

(** An early [return res.status(code).json({ success: false, message })]. *)
Definition refuse (w : World) (code : Z) (message : string) : Outcome :=
  mkOutcome (Http.mkResponse code false message) w [].

(** [next(error)], through the error handler: a duplicate key and a
    validation error are answered 400, any other error 500 with its
    message. *)
Definition errorHandler (w : World) (fx : list Effect) (err : Thrown)
  : Outcome :=
  match err with
  | DuplicateKey field =>
      let message :=
        if String.eqb field "email" then "Email already exists"
        else if String.eqb field "orderId" then "Order ID already exists"
        else "Duplicate field value entered" in
      mkOutcome (Http.mkResponse 400 false message) w fx
  | ValidationError messages =>
      mkOutcome (Http.mkResponse 400 false (String.concat ", " messages)) w fx
  | PlainError message =>
      mkOutcome
        (Http.mkResponse 500 false
           (if JS.truthy message then message else "Server Error"))
        w fx
  end%string.

(* ------------------------------------------------------------------ *)
(** ** utils/razorpayService.js                                         *)
(* ------------------------------------------------------------------ *)

Module RazorpayService.

Local Open Scope string_scope.

(** [verifyPaymentSignature]: the [success] field of its result.  Without a
    key [createHmac] throws and the [catch] answers [success: false]. *)
Definition verifyPaymentSignature (rt : Runtime)
           (razorpayOrderId razorpayPaymentId razorpaySignature : string)
  : bool :=
  match RAZORPAY_KEY_SECRET rt with
  | None => false
  | Some key =>
      let body := razorpayOrderId ++ "|" ++ razorpayPaymentId in
      let expectedSignature := hmacSha256Hex rt key body in
      String.eqb expectedSignature razorpaySignature
  end.

(** The amount [createOrder] and [refundPayment] send, in paise. *)
Definition paise (amount : JS.number) : JS.number :=
  JS.round (amount * 100)%Q.

(** [refundOptions.amount]: set only for a truthy amount. *)
Definition refundAmount (amount : JS.number) : option JS.number :=
  if Qeq_bool amount 0 then None else Some (paise amount).

End RazorpayService.

(* ------------------------------------------------------------------ *)
(** ** routes/order.js                                                  *)
(* ------------------------------------------------------------------ *)

Module OrderRoutes.

Local Open Scope string_scope.
Local Open Scope Q_scope.

(** *** POST /api/orders/create *)

(** [item.customizations] of a request: the selected names. *)
Record Selection := mkSelection {
  base : option string;
  sauce : option string;
  cheese : list string;
  vegetables : list string;
  meats : list string
}.

Record ItemRequest := mkItemRequest {
  pizza : string;
  quantity : Z;
  size : string;
  customizations : option Selection
}.

Record CreateRequest := mkCreateRequest {
  items : list ItemRequest;
  deliveryAddress : Order.Address;
  contactPhone : string;
  paymentMethod : Order.PaymentMethod;
  orderNotes : option string
}.

Definition sizeNames : list string :=
  ["small"; "medium"; "large"; "extra-large"].

Definition isIn (s : string) (l : list string) : bool :=
  existsb (String.eqb s) l.

(** The validation chain of the route; the payment method is an
    enumeration already. *)
Definition validItem (rt : Runtime) (i : ItemRequest) : bool :=
  isMongoId rt (pizza i)
  && (1 <=? quantity i)%Z && (quantity i <=? 10)%Z
  && isIn (size i) sizeNames.

Definition validCreate (rt : Runtime) (r : CreateRequest) : bool :=
  negb (Nat.eqb (List.length (items r)) 0)
  && forallb (validItem rt) (items r)
  && JS.truthy (JS.trim (Order.street (deliveryAddress r)))
  && JS.truthy (JS.trim (Order.city (deliveryAddress r)))
  && JS.truthy (JS.trim (Order.state (deliveryAddress r)))
  && JS.digits 6 (Order.zipCode (deliveryAddress r))
  && JS.digits 10 (contactPhone r).

(** The sanitizers of the chain: the three address lines are trimmed. *)
Definition sanitizeAddress (a : Order.Address) : Order.Address :=
  Order.mkAddress (JS.trim (Order.street a)) (JS.trim (Order.city a))
                  (JS.trim (Order.state a)) (Order.zipCode a).

(** [choices.find(c => c.name === wanted && c.isAvailable)] *)
Definition findAvailable (wanted : string)
           (choices : list PizzaOptions.Choice) : option PizzaOptions.Choice :=
  find (fun c => String.eqb (PizzaOptions.name c) wanted
                 && PizzaOptions.isAvailable c) choices.

Definition snapshot (c : PizzaOptions.Choice) : Order.Priced :=
  Order.mkPriced (PizzaOptions.name c) (PizzaOptions.price c).

(** "Process base" and "Process sauce": a single selection. *)
Definition processOne (wanted : option string)
           (choices : list PizzaOptions.Choice)
           (customizationCost : JS.number)
  : option Order.Priced * JS.number :=
  match wanted with
  | Some n =>
      if JS.truthy n then
        match findAvailable n choices with
        | Some found =>
            (Some (snapshot found),
             customizationCost + PizzaOptions.price found)
        | None => (None, customizationCost)
        end
      else (None, customizationCost)
  | None => (None, customizationCost)
  end.

(** "Process cheese", "vegetables" and "meats": the [forEach] over the
    selected names. *)
Definition processMany (wanted : list string)
           (choices : list PizzaOptions.Choice)
           (customizationCost : JS.number)
  : list Order.Priced * JS.number :=
  fold_left
    (fun (acc : list Order.Priced * JS.number) n =>
       match findAvailable n choices with
       | Some found =>
           ((fst acc ++ [snapshot found])%list,
            snd acc + PizzaOptions.price found)
       | None => acc
       end)
    wanted ([], customizationCost).

Definition noCustomizations : Order.Customizations :=
  Order.mkCustomizations None None [] [] [].

(** [processedCustomizations] and [customizationCost] of one item. *)
Definition processCustomizations (options : PizzaOptions.T)
           (sel : option Selection) : Order.Customizations * JS.number :=
  match sel with
  | None => (noCustomizations, 0)
  | Some s =>
      let '(b, c1) := processOne (base s) (PizzaOptions.bases options) 0 in
      let '(sc, c2) := processOne (sauce s) (PizzaOptions.sauces options) c1 in
      let '(ch, c3) :=
        processMany (cheese s) (PizzaOptions.cheeses options) c2 in
      let '(vg, c4) :=
        processMany (vegetables s) (PizzaOptions.vegetables options) c3 in
      let '(mt, c5) :=
        processMany (meats s) (PizzaOptions.meats options) c4 in
      (Order.mkCustomizations b sc ch vg mt, c5)
  end.

(** The body of the loop over [items]: the order item, or the response of
    the early return. *)
Definition processItem (w : World) (options : PizzaOptions.T)
           (item : ItemRequest) : result Http.Response Order.Item :=
  match find (fun p => String.eqb (Pizza._id p) (pizza item)) (pizzas w) with
  | None =>
      throw (Http.mkResponse 400 false
               ("Pizza " ++ pizza item ++ " is not available"))
  | Some pz =>
      if negb (Pizza.isAvailable pz) then
        throw (Http.mkResponse 400 false
                 ("Pizza " ++ pizza item ++ " is not available"))
      else
        match find (fun s => String.eqb (Pizza.size s) (size item))
                   (Pizza.sizes pz) with
        | None =>
            throw (Http.mkResponse 400 false
                     ("Size " ++ size item ++ " not available for "
                        ++ Pizza.name pz))
        | Some sizeOption =>
            let itemPrice :=
              Pizza.basePrice pz * Pizza.priceMultiplier sizeOption in
            let '(processedCustomizations, customizationCost) :=
              processCustomizations options (customizations item) in
            let totalItemPrice :=
              (itemPrice + customizationCost) * inject_Z (quantity item) in
            ok (Order.mkItem (Pizza._id pz) (quantity item) (size item)
                             processedCustomizations
                             (itemPrice + customizationCost)
                             totalItemPrice)
        end
  end.

(** The loop: [orderItems] and [subtotal] as they grow. *)
Fixpoint processItems (w : World) (options : PizzaOptions.T)
         (todo : list ItemRequest) (orderItems : list Order.Item)
         (subtotal : JS.number)
  : result Http.Response (list Order.Item * JS.number) :=
  match todo with
  | [] => ok (orderItems, subtotal)
  | item :: rest =>
      (oi <- processItem w options item ;;
       processItems w options rest (orderItems ++ [oi])%list
                    (subtotal + Order.totalItemPrice oi))%result
  end.

(** "Calculate pricing": the delivery fee, the tax and the total; the
    discount is the schema's default. *)
Definition calculatePricing (subtotal : JS.number) : Order.Pricing :=
  let deliveryFee := 50 in
  let taxRate := 5 # 100 in
  let tax := JS.round (subtotal * taxRate) in
  let total := subtotal + deliveryFee + tax in
  Order.mkPricing subtotal deliveryFee tax 0 total.

(** [new Order({ ... })] with the schema's defaults. *)
Definition newOrder (e : Order.Env) (userId : string) (r : CreateRequest)
           (orderItems : list Order.Item) (p : Order.Pricing) : Order.Doc :=
  Order.mkDoc
    (Order.mkOrder (Order.freshId e) "" userId orderItems
                   (sanitizeAddress (deliveryAddress r)) (contactPhone r)
                   Order.pending Order.payment_pending (paymentMethod r)
                   (Order.mkPaymentDetails None None None) p
                   0%Z None (orderNotes r) [] (Order.now e))
    true false.

Definition created (w : World) (fx : list Effect) : Outcome :=
  mkOutcome (Http.mkResponse 201 true "Order created successfully") w fx.

(** The handler up to [order.calculateEstimatedDeliveryTime()]: the
    document it is about to save, or the response of an early return. *)
Definition build (rt : Runtime) (e : Order.Env) (userId : string)
           (r : CreateRequest) (w : World) : result Http.Response Order.Doc :=
  if negb (validCreate rt r)
  then throw (Http.mkResponse 400 false "Validation failed")
  else
    match pizzaOptions w with
    | [] =>
        throw (Http.mkResponse 500 false
                 "Pizza customization options not configured")
    | options :: _ =>
        match processItems w options (items r) [] 0 with
        | inl early => throw early
        | inr (orderItems, subtotal) =>
            ok (Order.update (Order.calculateEstimatedDeliveryTime e)
                  (newOrder e userId r orderItems
                     (calculatePricing subtotal)))
        end
    end.

(** The handler.  [gateway] is what the payment gateway answers to the
    order creation: the id of its order, or nothing when the call fails. *)
Definition create (rt : Runtime) (e : Order.Env) (gateway : option string)
           (userId : string) (r : CreateRequest) (w : World) : Outcome :=
  match build rt e userId r w with
  | inl early => mkOutcome early w []
  | inr order =>
      match Order.save e order (orders w) with
      | inl err => errorHandler w [] err
      | inr (order1, stored) =>
          let w1 := set_orders stored w in
          match paymentMethod r with
          | Order.cod => created w1 []
          | Order.razorpay =>
              let call :=
                GatewayCreateOrder
                  (RazorpayService.paise
                     (Order.total (Order.pricing (Order.fields order1))))
                  "INR" (Order.orderId (Order.fields order1)) in
              match gateway with
              | None =>
                  mkOutcome
                    (Http.mkResponse 500 false
                       "Payment order creation failed")
                    w1 [call]
              | Some gatewayOrderId =>
                  let order2 :=
                    Order.update
                      (fun o =>
                         Order.set_paymentDetails
                           (Order.set_razorpayOrderId gatewayOrderId
                              (Order.paymentDetails o)) o)
                      order1 in
                  match Order.save e order2 stored with
                  | inl _ =>
                      mkOutcome
                        (Http.mkResponse 500 false
                           "Payment order creation failed")
                        w1 [call]
                  | inr (_, stored2) =>
                      created (set_orders stored2 w) [call]
                  end
              end
          end
      end
  end.

(** *** Inventory consumption on confirmation *)

(** [Inventory.findOne({ name: { $regex: re }, isActive: true })] and the
    write back of the document [updateStock] saved. *)
Fixpoint updateFirst (test : Inventory.Item -> bool)
         (f : Inventory.Item -> result string Inventory.Item)
         (coll : list Inventory.Item) : list Inventory.Item :=
  match coll with
  | [] => []
  | x :: rest =>
      if test x then
        match f x with
        | inr x' => x' :: rest
        | inl _ => x :: rest
        end
      else x :: updateFirst test f rest
  end.

(** [new RegExp(itemName, 'i')] for a name that may be [undefined]
    ([None]): the pattern of [undefined] is the empty one, [(?:)], which
    every string matches. *)
Definition nameTest (rt : Runtime) (itemName : option string)
  : option (string -> bool) :=
  match itemName with
  | Some pattern => regExpI rt pattern
  | None => Some (fun _ => true)
  end.

(** [updateInventoryItem(itemName, quantity, orderId)]; its [catch] logs
    and swallows every error. *)
Definition updateInventoryItem (rt : Runtime) (e : Order.Env)
           (itemName : option string) (quantity : Z) (orderId : string)
           (coll : list Inventory.Item) : list Inventory.Item :=
  match nameTest rt itemName with
  | None => coll
  | Some test =>
      updateFirst
        (fun i => test (Inventory.name i) && Inventory.isActive i)
        (Inventory.updateStock (Order.now e) "consumption"
           (inject_Z quantity) (Some ("Used in order " ++ orderId)) None
           (Some orderId))
        coll
  end.

(** The names [updateInventoryForOrder] passes to [updateInventoryItem] for
    one item, in order: base, sauce, cheeses, vegetables, meats.
    [customizations], [customizations.base] and [customizations.sauce] are
    nested paths of the schema: Mongoose reads each as an object, which is
    truthy also when nothing is stored under it, so the three tests never
    skip, and the [name] of a base or sauce that is not stored is
    [undefined] ([None]).  The three arrays are always present. *)
Definition ingredientNames (c : Order.Customizations)
  : list (option string) :=
  [option_map Order.name (Order.base c);
   option_map Order.name (Order.sauce c)]
    ++ map (fun p => Some (Order.name p)) (Order.cheese c)
    ++ map (fun p => Some (Order.name p)) (Order.vegetables c)
    ++ map (fun p => Some (Order.name p)) (Order.meats c).

(** The loop of [updateInventoryForOrder] over the items. *)
Definition consumeForItem (rt : Runtime) (e : Order.Env) (orderId : string)
           (coll : list Inventory.Item) (item : Order.Item)
  : list Inventory.Item :=
  fold_left
    (fun acc n => updateInventoryItem rt e n (Order.quantity item) orderId acc)
    (ingredientNames (Order.customizations item)) coll.

Definition consumeForOrder (rt : Runtime) (e : Order.Env) (o : Order.T)
           (coll : list Inventory.Item) : list Inventory.Item :=
  fold_left (consumeForItem rt e (Order.orderId o)) (Order.items o) coll.

(** [Inventory.getItemsNeedingAlerts()] *)
Definition needsAlert (i : Inventory.Item) : bool :=
  JS.leb (Inventory.currentStock i) (Inventory.minStockLevel i)
  && Inventory.isActive i
  && negb (Inventory.lowStockAlertSent i).

(** [checkAndSendLowStockAlerts]: when the mail goes out the alerted items
    are flagged; when it fails the [catch] leaves them as they are. *)
Definition checkAndSendLowStockAlerts (mailSent : bool)
           (coll : list Inventory.Item)
  : list Inventory.Item * list Effect :=
  let lowStockItems := filter needsAlert coll in
  match lowStockItems with
  | [] => (coll, [])
  | _ =>
      let fx := [MailLowStockAlert (map Inventory.name lowStockItems)] in
      if mailSent then
        (map (fun i =>
                if existsb (fun l => String.eqb (Inventory._id l)
                                                (Inventory._id i))
                           lowStockItems
                then Inventory.set_lowStockAlertSent true i
                else i)
             coll,
         fx)
      else (coll, fx)
  end.

(** [updateInventoryForOrder(order)] *)
Definition updateInventoryForOrder (rt : Runtime) (e : Order.Env)
           (mailSent : bool) (o : Order.T) (coll : list Inventory.Item)
  : list Inventory.Item * list Effect :=
  checkAndSendLowStockAlerts mailSent (consumeForOrder rt e o coll).

(** What both confirmations do after the save: inventory, the confirmation
    mail and the two events. *)
Definition afterConfirmation (rt : Runtime) (e : Order.Env)
           (mailSent : bool) (userId : string) (message : string)
           (o : Order.T) (w : World) : Outcome :=
  let '(stock, fx) := updateInventoryForOrder rt e mailSent o (inventory w) in
  mkOutcome (Http.mkResponse 200 true message)
            (set_inventory stock w)
            (fx ++ [MailOrderConfirmation (Order.user o) (Order.orderId o);
                    Emit ("user-" ++ userId) "orderStatusUpdate"
                         (Order.orderId o);
                    Emit "admin-room" "newOrder" (Order.orderId o)])%list.

(** *** POST /api/orders/verify-payment *)

Record VerifyRequest := mkVerifyRequest {
  v_orderId : string;
  v_razorpayOrderId : string;
  v_razorpayPaymentId : string;
  v_razorpaySignature : string
}.

Definition validVerify (r : VerifyRequest) : bool :=
  JS.truthy (v_orderId r) && JS.truthy (v_razorpayOrderId r)
  && JS.truthy (v_razorpayPaymentId r) && JS.truthy (v_razorpaySignature r).

(** [Order.findOne({ orderId, user, paymentMethod })] *)
Definition findOrder (orderId userId : string)
           (method : option Order.PaymentMethod) (coll : list Order.T)
  : option Order.T :=
  find (fun o =>
          String.eqb (Order.orderId o) orderId
          && String.eqb (Order.user o) userId
          && match method with
             | Some m => Order.PaymentMethod_eqb (Order.paymentMethod o) m
             | None => true
             end)
       coll.

Definition isCompleted (s : Order.PaymentStatus) : bool :=
  match s with
  | Order.payment_completed => true
  | _ => false
  end.

Definition verifyPayment (rt : Runtime) (e : Order.Env) (mailSent : bool)
           (userId : string) (r : VerifyRequest) (w : World) : Outcome :=
  if negb (validVerify r) then refuse w 400 "Validation failed"
  else
    match findOrder (v_orderId r) userId (Some Order.razorpay) (orders w) with
    | None => refuse w 404 "Order not found"
    | Some found =>
        if isCompleted (Order.paymentStatus found)
        then refuse w 400 "Payment already completed"
        else if negb (RazorpayService.verifyPaymentSignature rt
                        (v_razorpayOrderId r) (v_razorpayPaymentId r)
                        (v_razorpaySignature r))
        then refuse w 400 "Payment verification failed"
        else
          let order := Order.loaded found in
          let order :=
            Order.update
              (fun o =>
                 Order.set_paymentDetails
                   (Order.set_razorpaySignature (v_razorpaySignature r)
                      (Order.set_razorpayPaymentId (v_razorpayPaymentId r)
                         (Order.paymentDetails o))) o)
              order in
          let order :=
            Order.update (Order.set_paymentStatus Order.payment_completed)
                         order in
          let order := Order.assign_orderStatus Order.confirmed order in
          match Order.save e order (orders w) with
          | inl err => errorHandler w [] err
          | inr (saved, stored) =>
              afterConfirmation rt e mailSent userId
                "Payment verified and order confirmed"
                (Order.fields saved) (set_orders stored w)
          end
    end.

(** *** POST /api/orders/confirm-cod

    The handler never reads the validation result. *)
Definition confirmCod (rt : Runtime) (e : Order.Env) (mailSent : bool)
           (userId : string) (orderId : string) (w : World) : Outcome :=
  match findOrder orderId userId (Some Order.cod) (orders w) with
  | None => refuse w 404 "Order not found"
  | Some found =>
      if negb (Order.Status_eqb (Order.orderStatus found) Order.pending)
      then refuse w 400 "Order already processed"
      else
        let order :=
          Order.assign_orderStatus Order.confirmed (Order.loaded found) in
        match Order.save e order (orders w) with
        | inl err => errorHandler w [] err
        | inr (saved, stored) =>
            afterConfirmation rt e mailSent userId
              "COD order confirmed successfully"
              (Order.fields saved) (set_orders stored w)
        end
  end.

(** *** PUT /api/orders/:orderId/cancel

    [reason] is the body field after the [trim] sanitizer; the handler never
    reads the validation result.  [refunded] tells whether the gateway
    accepts the refund. *)
Definition cancel (e : Order.Env) (refunded : bool) (userId : string)
           (orderId : string) (reason : option string) (w : World)
  : Outcome :=
  match findOrder orderId userId None (orders w) with
  | None => refuse w 404 "Order not found"
  | Some found =>
      match Order.orderStatus found with
      | Order.delivered | Order.cancelled =>
          refuse w 400 "Order cannot be cancelled"
      | Order.out_for_delivery =>
          refuse w 400
            "Order is out for delivery and cannot be cancelled. Please contact support."
      | _ =>
          let order :=
            Order.assign_orderStatus Order.cancelled (Order.loaded found) in
          let order :=
            Order.update
              (Order.push_statusHistory
                 (Order.mkChange Order.cancelled (Order.now e) None
                    (JS.or_default (option_map JS.trim reason)
                                   "Cancelled by user")))
              order in
          match Order.save e order (orders w) with
          | inl err => errorHandler w [] err
          | inr (saved, stored) =>
              let done fx w' :=
                mkOutcome
                  (Http.mkResponse 200 true "Order cancelled successfully")
                  w'
                  (fx ++ [Emit ("user-" ++ userId) "orderStatusUpdate"
                               (Order.orderId (Order.fields saved))])%list in
              if isCompleted (Order.paymentStatus (Order.fields saved))
                 && Order.PaymentMethod_eqb
                      (Order.paymentMethod (Order.fields saved))
                      Order.razorpay
              then
                let call :=
                  GatewayRefund
                    (Order.razorpayPaymentId
                       (Order.paymentDetails (Order.fields saved)))
                    (RazorpayService.refundAmount
                       (Order.total (Order.pricing (Order.fields saved))))
                    "Order cancelled by user" in
                if refunded then
                  let order2 :=
                    Order.update
                      (Order.set_paymentStatus Order.payment_refunded)
                      saved in
                  match Order.save e order2 stored with
                  | inl _ => done [call] (set_orders stored w)
                  | inr (_, stored2) => done [call] (set_orders stored2 w)
                  end
                else done [call] (set_orders stored w)
              else done [] (set_orders stored w)
          end
      end
  end.

End OrderRoutes.

(* ------------------------------------------------------------------ *)
(** ** routes/admin.js                                                  *)
(* ------------------------------------------------------------------ *)

Module AdminRoutes.

Local Open Scope string_scope.

(** *** PUT /api/admin/orders/:orderId/status *)

Record StatusRequest := mkStatusRequest {
  status : Order.Status;
  notes : option string
}.

(** The validation chain: the status is an enumeration already, the notes,
    when present, are trimmed and at most 200 characters long. *)
Definition validStatusRequest (r : StatusRequest) : bool :=
  match notes r with
  | None => true
  | Some n => Nat.leb (String.length (JS.trim n)) 200
  end.

Definition validTransitions (from : Order.Status) : list Order.Status :=
  match from with
  | Order.pending => [Order.confirmed; Order.cancelled]
  | Order.confirmed => [Order.preparing; Order.cancelled]
  | Order.preparing => [Order.ready; Order.cancelled]
  | Order.ready => [Order.out_for_delivery; Order.cancelled]
  | Order.out_for_delivery => [Order.delivered]
  | Order.delivered => []
  | Order.cancelled => []
  end.

(** [list.includes(s)] *)
Definition includes (l : list Order.Status) (s : Order.Status) : bool :=
  existsb (Order.Status_eqb s) l.

(** The handler; [adminId] is [req.user.id]. *)
Definition updateOrderStatus (e : Order.Env) (adminId : string)
           (orderId : string) (r : StatusRequest) (w : World) : Outcome :=
  if negb (validStatusRequest r) then refuse w 400 "Validation failed"
  else
    match find (fun o => String.eqb (Order.orderId o) orderId) (orders w) with
    | None => refuse w 404 "Order not found"
    | Some found =>
        if negb (includes (validTransitions (Order.orderStatus found))
                          (status r))
        then
          refuse w 400
            ("Cannot change status from "
               ++ Order.Status_to_string (Order.orderStatus found)
               ++ " to " ++ Order.Status_to_string (status r))
        else
          let previousStatus := Order.orderStatus found in
          let order :=
            Order.assign_orderStatus (status r) (Order.loaded found) in
          let order :=
            Order.update
              (Order.push_statusHistory
                 (Order.mkChange (status r) (Order.now e) (Some adminId)
                    (JS.or_default (option_map JS.trim (notes r))
                       ("Status updated from "
                          ++ Order.Status_to_string previousStatus
                          ++ " to " ++ Order.Status_to_string (status r)))))
              order in
          let order :=
            if Order.Status_eqb (status r) Order.delivered
            then Order.update (Order.set_actualDeliveryTime
                                 (Some (Order.now e))) order
            else order in
          match Order.save e order (orders w) with
          | inl err => errorHandler w [] err
          | inr (saved, stored) =>
              mkOutcome
                (Http.mkResponse 200 true "Order status updated successfully")
                (set_orders stored w)
                [MailOrderStatusUpdate (Order.user (Order.fields saved))
                                       (Order.orderId (Order.fields saved))
                                       (status r);
                 Emit ("user-" ++ Order.user (Order.fields saved))
                      "orderStatusUpdate"
                      (Order.orderId (Order.fields saved));
                 Emit "admin-room" "orderStatusChanged"
                      (Order.orderId (Order.fields saved))]
          end
    end.

End AdminRoutes.

(* ------------------------------------------------------------------ *)
(** ** routes/order.js: the read-only routes                            *)
(* ------------------------------------------------------------------ *)

Module OrderQueries.

Local Open Scope string_scope.
Local Open Scope Z_scope.

(** *** The [pagination] object of the listing routes

    [page] and [limit] are the two numbers after [parseInt(...) || d],
    [total] is the count of the matching documents. *)
Record Pagination := mkPagination {
  current : Z;
  total : Z;
  hasNext : bool;
  hasPrev : bool;
  totalItems : Z
}.

Definition pagination (page limit count : Z) : Pagination :=
  let pages := JS.ceil (inject_Z count / inject_Z limit) in
  mkPagination page pages (page <? pages) (1 <? page) count.

(** [find(query).skip(skip).limit(limit)] on the sorted matches, for a
    skip and a limit that are not negative. *)
Definition window {A} (skip limit : Z) (sorted : list A) : list A :=
  firstn (Z.to_nat limit) (skipn (Z.to_nat skip) sorted).

(** The page a listing route answers with, and its [pagination]. *)
Definition listing {A} (page limit : option Z) (defaultLimit : Z)
           (sorted : list A) : list A * Pagination :=
  let page := JS.int_or page 1 in
  let limit := JS.int_or limit defaultLimit in
  let skip := (page - 1) * limit in
  (window skip limit sorted,
   pagination page limit (Z.of_nat (List.length sorted))).

(** *** GET /api/orders/:orderId/track *)

(** The [key]s of [statusSteps], in order. *)
Definition statusSteps : list Order.Status :=
  [Order.pending; Order.confirmed; Order.preparing; Order.ready;
   Order.out_for_delivery; Order.delivered].

(** [array.findIndex(p)] *)
Fixpoint findIndexFrom {A} (p : A -> bool) (index : Z) (l : list A) : Z :=
  match l with
  | [] => -1
  | x :: rest => if p x then index else findIndexFrom p (index + 1) rest
  end.

Definition findIndex {A} (p : A -> bool) (l : list A) : Z :=
  findIndexFrom p 0 l.

(** [array.map((x, index) => f(x, index))] *)
Fixpoint mapFrom {A B} (f : A -> Z -> B) (index : Z) (l : list A) : list B :=
  match l with
  | [] => []
  | x :: rest => f x index :: mapFrom f (index + 1) rest
  end.

(** One element of [trackingSteps], without its constant label and
    description. *)
Record TrackingStep := mkStep {
  key : Order.Status;
  isCompleted : bool;
  isCurrent : bool;
  timestamp : option Z
}.

Definition trackingSteps (order : Order.T) : list TrackingStep :=
  let currentStatusIndex :=
    findIndex (fun step => Order.Status_eqb step (Order.orderStatus order))
              statusSteps in
  mapFrom
    (fun step index =>
       mkStep step (index <=? currentStatusIndex)
              (index =? currentStatusIndex)
              (option_map Order.timestamp
                 (find (fun h => Order.Status_eqb (Order.status h) step)
                       (Order.statusHistory order))))
    0 statusSteps.

(** The handler: the steps, or the response of the early return. *)
Definition track (userId orderId : string) (w : World)
  : result Http.Response (list TrackingStep) :=
  match OrderRoutes.findOrder orderId userId None (orders w) with
  | None => throw (Http.mkResponse 404 false "Order not found")
  | Some order => ok (trackingSteps order)
  end.

End OrderQueries.

(* ------------------------------------------------------------------ *)
(** ** routes/inventory.js                                              *)
(* ------------------------------------------------------------------ *)

Module InventoryRoutes.

Local Open Scope string_scope.

Definition actionNames : list string :=
  ["restock"; "consumption"; "wastage"; "adjustment"].

(** [Inventory.findById(id)], for a well-formed object id. *)
Definition findById (id : string) (coll : list Inventory.Item)
  : option Inventory.Item :=
  find (fun i => String.eqb (Inventory._id i) id) coll.

(** The write of [item.save()]: the stored document with that [_id] is
    replaced. *)
Fixpoint store (i : Inventory.Item) (coll : list Inventory.Item)
  : list Inventory.Item :=
  match coll with
  | [] => []
  | x :: rest =>
      if String.eqb (Inventory._id x) (Inventory._id i) then i :: rest
      else x :: store i rest
  end.

(** *** PUT /api/inventory/bulk/stock-update *)

Module Bulk.

Record Update := mkUpdate {
  itemId : string;
  action : string;
  quantity : JS.number;
  reason : option string
}.

(** An element of [results]. *)
Record Success := mkSuccess {
  doneItemId : string;
  itemName : string;
  doneAction : string;
  doneQuantity : JS.number;
  previousStock : JS.number;
  newStock : JS.number
}.

(** An element of [errors_occurred]. *)
Record Failure := mkFailure {
  failedItemId : string;
  error : string
}.

End Bulk.

Definition validBulk (rt : Runtime) (updates : list Bulk.Update) : bool :=
  negb (Nat.eqb (List.length updates) 0)
  && forallb
       (fun u =>
          isMongoId rt (Bulk.itemId u)
          && OrderRoutes.isIn (Bulk.action u) actionNames
          && JS.leb 0 (Bulk.quantity u))
       updates.

(** The state of the loop: the collection, [results] and
    [errors_occurred]. *)
Definition BulkState : Type :=
  (list Inventory.Item * list Bulk.Success * list Bulk.Failure)%type.

(** The body of the loop, with its [try] and [catch]. *)
Definition bulkStep (now : Z) (adminId : string) (state : BulkState)
           (update : Bulk.Update) : BulkState :=
  let '(coll, results, errors_occurred) := state in
  match findById (Bulk.itemId update) coll with
  | None =>
      (coll, results,
       (errors_occurred
          ++ [Bulk.mkFailure (Bulk.itemId update) "Item not found"])%list)
  | Some item =>
      let previousStock := Inventory.currentStock item in
      match Inventory.updateStock now (Bulk.action update)
              (Bulk.quantity update)
              (Some (JS.or_default (Bulk.reason update) "Bulk update"))
              (Some adminId) None item with
      | inr item' =>
          (store item' coll,
           (results
              ++ [Bulk.mkSuccess (Inventory._id item') (Inventory.name item')
                    (Bulk.action update) (Bulk.quantity update)
                    previousStock (Inventory.currentStock item')])%list,
           errors_occurred)
      | inl updateError =>
          (coll, results,
           (errors_occurred
              ++ [Bulk.mkFailure (Bulk.itemId update) updateError])%list)
      end
  end.

(** The handler: the response with its [data.successful] and
    [data.failed]. *)
Definition bulkStockUpdate (rt : Runtime) (now : Z) (adminId : string)
           (updates : list Bulk.Update) (w : World)
  : Outcome * list Bulk.Success * list Bulk.Failure :=
  if negb (validBulk rt updates)
  then (refuse w 400 "Validation failed", [], [])
  else
    let '(coll, results, errors_occurred) :=
      fold_left (bulkStep now adminId) updates (inventory w, [], []) in
    (mkOutcome
       (Http.mkResponse 200 true
          ("Bulk update completed. "
             ++ Order.toString (Z.of_nat (List.length results))
             ++ " successful, "
             ++ Order.toString (Z.of_nat (List.length errors_occurred))
             ++ " failed."))
       (set_inventory coll w) [],
     results, errors_occurred).

End InventoryRoutes.

(* ------------------------------------------------------------------ *)
(** ** middleware/auth.js: the limiter of sensitive operations          *)
(* ------------------------------------------------------------------ *)

Module Auth.

Local Open Scope Z_scope.

(** A value of [rateLimitStore]. *)
Record Limit := mkLimit {
  attempts : Z;
  resetTime : Z
}.

(** [rateLimitStore]: a [Map] from keys to limits. *)
Definition Store : Type := string -> option Limit.

Definition empty : Store := fun _ => None.

(** [rateLimitStore.set(key, v)] *)
Definition set (key : string) (v : Limit) (s : Store) : Store :=
  fun k => if String.eqb k key then Some v else s k.

(** [rateLimit(maxAttempts, windowMinutes)] on a request with that key at
    time [now]: whether [next()] is called (otherwise the answer is 429),
    and the store it leaves. *)
Definition rateLimit (maxAttempts windowMinutes : Z) (key : string)
           (now : Z) (s : Store) : bool * Store :=
  let windowMs := windowMinutes * 60 * 1000 in
  match s key with
  | None => (true, set key (mkLimit 1 (now + windowMs)) s)
  | Some userLimit =>
      if resetTime userLimit <? now
      then (true, set key (mkLimit 1 (now + windowMs)) s)
      else if maxAttempts <=? attempts userLimit
      then (false, s)
      else (true,
            set key (mkLimit (attempts userLimit + 1) (resetTime userLimit))
                s)
  end.

(** The periodic clean-up: every expired entry is deleted. *)
Definition cleanUp (now : Z) (s : Store) : Store :=
  fun k =>
    match s k with
    | Some value => if resetTime value <? now then None else Some value
    | None => None
    end.

End Auth.

(* ================================================================== *)
(** * Vocabulary of the properties                                      *)
(* ================================================================== *)

(** The terms the properties are stated in, then the sample data the
    scenarios of the specification are run on. *)

Section Terms.

Local Open Scope Q_scope.

(** ** Stored orders and their history *)

(** The document stored under an object id. *)
Definition stored (id : string) (w : World) : option Order.T :=
  find (fun o => String.eqb (Order._id o) id) (orders w).

(** The fields [save] writes: the document after the two hooks. *)
Definition written (e : Order.Env) (d : Order.Doc) : Order.T :=
  Order.fields (Order.preSave_statusHistory e (Order.preSave_orderId e d)).

(** The record the status hook appends. *)
Definition hookRecord (e : Order.Env) (s : Order.Status)
  : Order.StatusChange :=
  Order.mkChange s (Order.now e) None
                 ("Status updated to " ++ Order.Status_to_string s)%string.

(** The record the admin handler pushes. *)
Definition adminRecord (e : Order.Env) (adminId : string)
           (from : Order.Status) (r : AdminRoutes.StatusRequest)
  : Order.StatusChange :=
  Order.mkChange (AdminRoutes.status r) (Order.now e) (Some adminId)
    (JS.or_default (option_map JS.trim (AdminRoutes.notes r))
       ("Status updated from " ++ Order.Status_to_string from
          ++ " to " ++ Order.Status_to_string (AdminRoutes.status r))%string).

(** The record the cancel handler pushes. *)
Definition cancelRecord (e : Order.Env) (reason : option string)
  : Order.StatusChange :=
  Order.mkChange Order.cancelled (Order.now e) None
    (JS.or_default (option_map JS.trim reason) "Cancelled by user"%string).

(** The answer to the cancellation of an order that is on its way. *)
Definition contactSupport : string :=
  "Order is out for delivery and cannot be cancelled. Please contact support."%string.

(** The statuses in which the owner may still cancel. *)
Definition cancellable (s : Order.Status) : bool :=
  match s with
  | Order.pending | Order.confirmed | Order.preparing | Order.ready => true
  | _ => false
  end.

(** The transition table as the specification writes it. *)
Inductive TransitionTable : Order.Status -> Order.Status -> Prop :=
| pending_to_confirmed : TransitionTable Order.pending Order.confirmed
| pending_to_cancelled : TransitionTable Order.pending Order.cancelled
| confirmed_to_preparing : TransitionTable Order.confirmed Order.preparing
| confirmed_to_cancelled : TransitionTable Order.confirmed Order.cancelled
| preparing_to_ready : TransitionTable Order.preparing Order.ready
| preparing_to_cancelled : TransitionTable Order.preparing Order.cancelled
| ready_to_out : TransitionTable Order.ready Order.out_for_delivery
| ready_to_cancelled : TransitionTable Order.ready Order.cancelled
| out_to_delivered : TransitionTable Order.out_for_delivery Order.delivered.

(** A sequence of status updates by an administrator, each on the world
    the one before left. *)
Definition runStatusUpdates (e : Order.Env) (adminId orderId : string)
           (steps : list Order.Status) (w : World) : World :=
  fold_left
    (fun w s =>
       world (AdminRoutes.updateOrderStatus e adminId orderId
                (AdminRoutes.mkStatusRequest s None) w))
    steps w.

(** ** The inventory ledger *)

(** The four actions of a stock adjustment. *)
Definition stockActions : list string :=
  ["restock"; "consumption"; "wastage"; "adjustment"]%string.

(** An inventory document whose thresholds are 20 and 200. *)
Definition thresholds_20_200 (stock : JS.number) (i : Inventory.Item)
  : Inventory.Item :=
  Inventory.mkItem (Inventory._id i) (Inventory.name i)
                   (Inventory.category i) stock 20 200
                   (Inventory.lastRestocked i) (Inventory.isActive i)
                   (Inventory.lowStockAlertSent i)
                   (Inventory.stockHistory i) (Inventory.updatedAt i).

(** The maximum level is above the minimum level. *)
Definition levelsOrdered (i : Inventory.Item) : Prop :=
  Inventory.minStockLevel i < Inventory.maxStockLevel i.

(** The inventory satisfies its schema: no stock is negative and every
    maximum level is above the minimum level. *)
Definition ledgerValid (coll : list Inventory.Item) : Prop :=
  Forall (fun i => (0 <= Inventory.currentStock i)%Q) coll
  /\ Forall levelsOrdered coll.

(** ** Pricing *)

(** The selection names an entry of the list that is marked available. *)
Definition offered (choices : list PizzaOptions.Choice) (n : string) : bool :=
  existsb (fun c => String.eqb (PizzaOptions.name c) n
                    && PizzaOptions.isAvailable c) choices.

(** The captured entry repeats the name and price of an available entry of
    the list. *)
Definition backed (choices : list PizzaOptions.Choice) (p : Order.Priced)
  : Prop :=
  exists c,
    In c choices
    /\ PizzaOptions.isAvailable c = true
    /\ PizzaOptions.name c = Order.name p
    /\ PizzaOptions.price c = Order.price p.

(** The sum of the captured prices. *)
Definition sumPrices (l : list Order.Priced) : JS.number :=
  fold_right (fun p acc => Order.price p + acc) 0 l.

(** An optional value as a list. *)
Definition optionList {A} (x : option A) : list A :=
  match x with
  | Some a => [a]
  | None => []
  end.

(** Every captured entry of a snapshot. *)
Definition entries (c : Order.Customizations) : list Order.Priced :=
  optionList (Order.base c) ++ optionList (Order.sauce c)
    ++ Order.cheese c ++ Order.vegetables c ++ Order.meats c.

(** The names a request item selects; no [customizations] object selects
    nothing. *)
Definition selectionOf (sel : option OrderRoutes.Selection)
  : OrderRoutes.Selection :=
  match sel with
  | Some s => s
  | None => OrderRoutes.mkSelection None None [] [] []
  end.

(** A single selection, kept when the list offers it. *)
Definition keepOne (choices : list PizzaOptions.Choice)
           (wanted : option string) : option string :=
  match wanted with
  | Some n => if offered choices n then Some n else None
  | None => None
  end.

(** The snapshot holds exactly the selections the catalog offers, each with
    the name and price of an available catalog entry. *)
Definition Resolved (options : PizzaOptions.T) (s : OrderRoutes.Selection)
           (c : Order.Customizations) : Prop :=
  (option_map Order.name (Order.base c)
   = keepOne (PizzaOptions.bases options) (OrderRoutes.base s)
   /\ option_map Order.name (Order.sauce c)
      = keepOne (PizzaOptions.sauces options) (OrderRoutes.sauce s)
   /\ map Order.name (Order.cheese c)
      = filter (offered (PizzaOptions.cheeses options)) (OrderRoutes.cheese s)
   /\ map Order.name (Order.vegetables c)
      = filter (offered (PizzaOptions.vegetables options))
               (OrderRoutes.vegetables s)
   /\ map Order.name (Order.meats c)
      = filter (offered (PizzaOptions.meats options)) (OrderRoutes.meats s))
  /\ (Forall (backed (PizzaOptions.bases options))
             (optionList (Order.base c))
      /\ Forall (backed (PizzaOptions.sauces options))
                (optionList (Order.sauce c))
      /\ Forall (backed (PizzaOptions.cheeses options)) (Order.cheese c)
      /\ Forall (backed (PizzaOptions.vegetables options))
                (Order.vegetables c)
      /\ Forall (backed (PizzaOptions.meats options)) (Order.meats c)).

(** The schema requires a name of every base and sauce. *)
Definition namedCatalog (options : PizzaOptions.T) : Prop :=
  forall c,
    In c (PizzaOptions.bases options ++ PizzaOptions.sauces options) ->
    PizzaOptions.name c <> EmptyString.

(** The catalog entries the handler reads for the item. *)
Definition pizzaOf (w : World) (item : OrderRoutes.ItemRequest)
           (pz : Pizza.T) (so : Pizza.SizeOption) : Prop :=
  find (fun p => String.eqb (Pizza._id p) (OrderRoutes.pizza item))
       (pizzas w) = Some pz
  /\ Pizza.isAvailable pz = true
  /\ find (fun s => String.eqb (Pizza.size s) (OrderRoutes.size item))
          (Pizza.sizes pz) = Some so.

(** The sum of the line totals. *)
Definition sumTotals (l : list Order.Item) : JS.number :=
  fold_right (fun i acc => (Order.totalItemPrice i + acc)%Q) 0%Q l.

(** What is known of the order the creation handler builds: it was priced
    from the request by the loop over the items, and it starts pending and
    unpaid, without an order id. *)
Definition BuiltFrom (rt : Runtime) (e : Order.Env) (userId : string)
           (r : OrderRoutes.CreateRequest) (w : World) (d : Order.Doc)
  : Prop :=
  exists (options : PizzaOptions.T) (orderItems : list Order.Item)
         (subtotal : JS.number),
    OrderRoutes.validCreate rt r = true
    /\ hd_error (pizzaOptions w) = Some options
    /\ OrderRoutes.processItems w options (OrderRoutes.items r) [] 0
       = inr (orderItems, subtotal)
    /\ d = Order.update (Order.calculateEstimatedDeliveryTime e)
             (OrderRoutes.newOrder e userId r orderItems
                (OrderRoutes.calculatePricing subtotal)).

(** The answer to a request whose document [save] refuses for its missing
    order id. *)
Definition orderIdRequired : Http.Response :=
  Http.mkResponse 400 false "Path `orderId` is required."%string.

(** ** Consumption of the inventory *)

(** The position of the first element that passes a test. *)
Fixpoint firstIndex {A} (p : A -> bool) (l : list A) : option nat :=
  match l with
  | [] => None
  | x :: rest => if p x then Some O else option_map S (firstIndex p rest)
  end.

(** The list with its [k]-th element changed by [f]. *)
Fixpoint applyAt {A} (k : nat) (f : A -> A) (l : list A) {struct l}
  : list A :=
  match l, k with
  | [], _ => []
  | x :: rest, O => f x :: rest
  | x :: rest, S k' => x :: applyAt k' f rest
  end.

(** What the ledger never changes in an item when it moves stock. *)
Definition shape (i : Inventory.Item) : string * bool * Q * Q :=
  (Inventory.name i, Inventory.isActive i, Inventory.minStockLevel i,
   Inventory.maxStockLevel i).

(** The stock after a consumption of [q]. *)
Definition consumeStock (q s : Q) : Q :=
  if JS.ltb (s - q) 0 then 0 else s - q.

(** The item as [updateInventoryItem] leaves it. *)
Definition consumed (e : Order.Env) (orderId : string) (q : Z)
           (i : Inventory.Item) : Inventory.Item :=
  match Inventory.updateStock (Order.now e) "consumption" (inject_Z q)
          (Some ("Used in order " ++ orderId)%string) None (Some orderId) i
  with
  | inr i' => i'
  | inl _ => i
  end.

(** The position of the item a name is charged to: the first active item
    whose name the pattern made of the name matches; every name matches the
    pattern made of [undefined]. *)
Definition servedAt (rt : Runtime) (coll : list Inventory.Item)
           (n : option string) : option nat :=
  match OrderRoutes.nameTest rt n with
  | None => None
  | Some test =>
      firstIndex (fun i => test (Inventory.name i) && Inventory.isActive i)
                 coll
  end.

(** The stock after a sequence of consumptions. *)
Definition drain (qs : list Q) (s : Q) : Q :=
  fold_left (fun s q => consumeStock q s) qs s.

(** The sum of the quantities. *)
Definition total (qs : list Q) : Q := fold_right Qplus 0 qs.

(** The calls of [updateInventoryItem] an order makes, in order: for every
    item one for its base, one for its sauce and one for each of its
    cheeses, vegetables and meats, with the item's quantity. *)
Definition calls (o : Order.T) : list (option string * Z) :=
  flat_map
    (fun item =>
       map (fun n => (n, Order.quantity item))
           (OrderRoutes.ingredientNames (Order.customizations item)))
    (Order.items o).

(** The name is charged to the item at position [k]. *)
Definition chargedTo (rt : Runtime) (coll0 : list Inventory.Item) (k : nat)
           (n : option string) : bool :=
  match servedAt rt coll0 n with
  | Some j => Nat.eqb j k
  | None => false
  end.

(** The quantities the calls take from position [k]. *)
Definition charges (rt : Runtime) (coll0 : list Inventory.Item) (k : nat)
           (cs : list (option string * Z)) : list Q :=
  map (fun c => inject_Z (snd c))
      (filter (fun c => chargedTo rt coll0 k (fst c)) cs).

(** How many of the calls made for the item are charged to position
    [k]. *)
Definition references (rt : Runtime) (coll0 : list Inventory.Item) (k : nat)
           (item : Order.Item) : nat :=
  List.length
    (filter (chargedTo rt coll0 k)
            (OrderRoutes.ingredientNames (Order.customizations item))).

(** What the order takes from position [k]: for every item, its quantity
    times the number of its calls charged there. *)
Definition demand (rt : Runtime) (coll0 : list Inventory.Item) (o : Order.T)
           (k : nat) : Q :=
  fold_right
    (fun item acc =>
       inject_Z (Order.quantity item)
       * inject_Z (Z.of_nat (references rt coll0 k item)) + acc)
    0 (Order.items o).

(** The inventory [after] is the inventory [before] charged with the order:
    every item keeps its place and its name, and its stock has gone down by
    what the order demands of it, or to 0 when the demand exceeds it. *)
Definition Charged (rt : Runtime) (o : Order.T)
           (before after : list Inventory.Item) : Prop :=
  forall k i,
    nth_error before k = Some i ->
    exists i',
      nth_error after k = Some i'
      /\ Inventory.name i' = Inventory.name i
      /\ ((demand rt before o k <= Inventory.currentStock i)%Q ->
          (Inventory.currentStock i'
           == Inventory.currentStock i - demand rt before o k)%Q)
      /\ ((Inventory.currentStock i < demand rt before o k)%Q ->
          (Inventory.currentStock i' == 0)%Q).

End Terms.

(** ** Sample data *)

Section Samples.

Local Open Scope string_scope.
Local Open Scope Q_scope.

(** An item with 8 units in stock and the levels 20 and 200. *)
Definition sample_item : Inventory.Item :=
  Inventory.mkItem "64b000000000000000000001" "Mozzarella" "cheese"
                   8 20 200 0 true false [] 0.

(** A clock reading, a random number and a fresh object id. *)
Definition sample_env : Order.Env :=
  Order.mkEnv 1730543210123 (1 # 2) "65a000000000000000000001".

(** An order of user [u1] for two medium pizzas at 299. *)
Definition sample_order (s : Order.Status) (m : Order.PaymentMethod)
           (p : Order.PaymentStatus) : Order.T :=
  Order.mkOrder "65a000000000000000000000" "PZ210000123" "u1"
    [Order.mkItem "64a000000000000000000001" 2 "medium"
       (Order.mkCustomizations
          None None [Order.mkPriced "Mozzarella" 40] [] [])
       339 678]
    (Order.mkAddress "1 Main St" "Pune" "MH" "411001") "9999999999"
    s p m (Order.mkPaymentDetails (Some "order_1") None None)
    (Order.mkPricing 678 50 34 0 762) 1730546810000 None None [] 0.

(** A store with one order and one inventory item. *)
Definition sample_world (o : Order.T) : World :=
  mkWorld [o] [sample_item] [] [].

(** A platform whose signature function is a stand-in for the keyed hash and
    whose pattern test matches a name against itself. *)
Definition sample_runtime : Runtime :=
  mkRuntime (fun key msg => key ++ ":" ++ msg) (Some "secret")
            (fun pattern => Some (String.eqb pattern))
            (fun s => Nat.eqb (String.length s) 24).

(** A verification request for the sample order. *)
Definition sample_verify (signature : string) : OrderRoutes.VerifyRequest :=
  OrderRoutes.mkVerifyRequest "PZ210000123" "order_1" "pay_1" signature.

(** The catalog: one pizza in four sizes and the customization options. *)
Definition sample_pizza : Pizza.T :=
  Pizza.mkPizza "64a000000000000000000001" "Margherita" 299
    [Pizza.mkSize "small" (8 # 10); Pizza.mkSize "medium" 1;
     Pizza.mkSize "large" (13 # 10); Pizza.mkSize "extra-large" (16 # 10)]
    true 20.

Definition sample_options : PizzaOptions.T :=
  PizzaOptions.mkOptions
    [PizzaOptions.mkChoice "Thin Crust" 0 true;
     PizzaOptions.mkChoice "Cheese Burst" 99 true]
    [PizzaOptions.mkChoice "Tomato" 0 true;
     PizzaOptions.mkChoice "Pesto" 30 false]
    [PizzaOptions.mkChoice "Mozzarella" 40 true;
     PizzaOptions.mkChoice "Cheddar" 50 false]
    [PizzaOptions.mkChoice "Onion" 20 true]
    [PizzaOptions.mkChoice "Chicken" 80 true].

(** A store without orders. *)
Definition catalog_world : World :=
  mkWorld [] [sample_item] [sample_pizza] [sample_options].

(** Two medium pizzas, with the given selection. *)
Definition sample_request (sel : option OrderRoutes.Selection)
           (m : Order.PaymentMethod) : OrderRoutes.CreateRequest :=
  OrderRoutes.mkCreateRequest
    [OrderRoutes.mkItemRequest "64a000000000000000000001" 2 "medium" sel]
    (Order.mkAddress "1 Main St" "Pune" "MH" "411001") "9999999999" m None.

(** The document of a result, or the sample order when there is none. *)
Definition builtOrder (b : result Http.Response Order.Doc) : Order.T :=
  match b with
  | inr d => Order.fields d
  | inl _ => sample_order Order.pending Order.cod Order.payment_pending
  end.

(** The order the scenario of the specification builds. *)
Definition scenario_order : Order.T :=
  Eval vm_compute in
    builtOrder (OrderRoutes.build sample_runtime sample_env "u1"
                  (sample_request None Order.cod) catalog_world).

(** A selection with an unavailable sauce, an unavailable cheese and an
    unknown cheese. *)
Definition sample_selection : OrderRoutes.Selection :=
  OrderRoutes.mkSelection (Some "Cheese Burst") (Some "Pesto")
                          ["Mozzarella"; "Cheddar"; "Gouda"] []
                          ["Chicken"].

(** The order built with that selection. *)
Definition customized_order : Order.T :=
  Eval vm_compute in
    builtOrder (OrderRoutes.build sample_runtime sample_env "u1"
                  (sample_request (Some sample_selection) Order.cod)
                  catalog_world).

End Samples.

(** ** Requests on the stored orders *)

Section Requests.

(** What no request changes in a stored order. *)
Definition core (o : Order.T)
  : string * string * string * list Order.Item * Order.Address * string
    * Order.PaymentMethod * Order.Pricing * Z * option string :=
  (Order._id o, Order.orderId o, Order.user o, Order.items o,
   Order.deliveryAddress o, Order.contactPhone o, Order.paymentMethod o,
   Order.pricing o, Order.estimatedDeliveryTime o, Order.orderNotes o).

(** The orders have distinct object ids and every one has its order id. *)
Definition wellKeyed (coll : list Order.T) : Prop :=
  NoDup (map Order._id coll)
  /\ Forall (fun o => JS.truthy (Order.orderId o) = true) coll.

(** The status the history ends with; an empty history stands for a pending
    order. *)
Definition lastStatus (o : Order.T) : Order.Status :=
  match rev (Order.statusHistory o) with
  | c :: _ => Order.status c
  | [] => Order.pending
  end.

(** The history ends with the current status of the order. *)
Definition historyAgrees (o : Order.T) : Prop :=
  lastStatus o = Order.orderStatus o.

(** The requests that change a stored order. *)
Inductive Request :=
| AdminStatus (adminId orderId : string) (r : AdminRoutes.StatusRequest)
| Cancel (refunded : bool) (userId orderId : string) (reason : option string)
| VerifyPayment (mailSent : bool) (userId : string)
    (r : OrderRoutes.VerifyRequest)
| ConfirmCod (mailSent : bool) (userId orderId : string).

Definition handle (rt : Runtime) (e : Order.Env) (q : Request) (w : World)
  : Outcome :=
  match q with
  | AdminStatus adminId orderId r =>
      AdminRoutes.updateOrderStatus e adminId orderId r w
  | Cancel refunded userId orderId reason =>
      OrderRoutes.cancel e refunded userId orderId reason w
  | VerifyPayment mailSent userId r =>
      OrderRoutes.verifyPayment rt e mailSent userId r w
  | ConfirmCod mailSent userId orderId =>
      OrderRoutes.confirmCod rt e mailSent userId orderId w
  end.

(** The customer a request acts for. *)
Definition customer (q : Request) : option string :=
  match q with
  | AdminStatus _ _ _ => None
  | Cancel _ userId _ _ => Some userId
  | VerifyPayment _ userId _ => Some userId
  | ConfirmCod _ userId _ => Some userId
  end.

(** A sequence of requests, each at its own time, each on the world the one
    before left. *)
Definition serve (rt : Runtime) (qs : list (Order.Env * Request)) (w : World)
  : World :=
  fold_left (fun w step => world (handle rt (fst step) (snd step) w)) qs w.

(** How an order may differ after a request. *)
Definition Evolves (o o' : Order.T) : Prop :=
  core o' = core o
  /\ (exists later,
         Order.statusHistory o' = (Order.statusHistory o ++ later)%list)
  /\ (historyAgrees o -> historyAgrees o').

End Requests.

Section FurtherTerms.

Local Open Scope Q_scope.

(** What a request may do to the collection of orders: nothing, or replace
    one order by a later state of it. *)
Definition Touches (q : Request) (coll coll' : list Order.T) : Prop :=
  coll' = coll
  \/ exists found o',
       In found coll
       /\ (forall u, customer q = Some u -> Order.user found = u)
       /\ Order._id o' = Order._id found
       /\ Evolves found o'
       /\ coll' = Order.replace o' coll.

(** How many of the status updates of one order, made in turn, are
    accepted. *)
Fixpoint accepted (orderId : string)
         (steps : list (Order.Env * string * AdminRoutes.StatusRequest))
         (w : World) : nat :=
  match steps with
  | [] => O
  | (e, adminId, r) :: rest =>
      let out := AdminRoutes.updateOrderStatus e adminId orderId r w in
      ((if Http.success (response out) then 1 else 0)
       + accepted orderId rest (world out))%nat
  end.

(** The longest path of the transition table that starts in a status. *)
Definition stepsLeft (s : Order.Status) : nat :=
  match s with
  | Order.pending => 5
  | Order.confirmed => 4
  | Order.preparing => 3
  | Order.ready => 2
  | Order.out_for_delivery => 1
  | Order.delivered | Order.cancelled => 0
  end.

(** The order was paid through the gateway. *)
Definition paidOnline (o : Order.T) : bool :=
  OrderRoutes.isCompleted (Order.paymentStatus o)
  && Order.PaymentMethod_eqb (Order.paymentMethod o) Order.razorpay.

(** The effect is a refund call. *)
Definition isRefund (fx : Effect) : bool :=
  match fx with
  | GatewayRefund _ _ _ => true
  | _ => false
  end.

(** The stores that can be reached from a store: by order creations and by
    the requests on stored orders. *)
Inductive Reachable (rt : Runtime) (start : World) : World -> Prop :=
| reach_start : Reachable rt start start
| reach_create (e : Order.Env) (gateway : option string) (userId : string)
    (r : OrderRoutes.CreateRequest) (w : World) :
    Reachable rt start w ->
    Reachable rt start (world (OrderRoutes.create rt e gateway userId r w))
| reach_request (e : Order.Env) (q : Request) (w : World) :
    Reachable rt start w -> Reachable rt start (world (handle rt e q w)).

(** ** The built order *)

(** The prices of the catalog are not negative. *)
Definition sanePrices (w : World) (options : PizzaOptions.T) : Prop :=
  Forall (fun p =>
            0 <= Pizza.basePrice p
            /\ Forall (fun s => 0 <= Pizza.priceMultiplier s) (Pizza.sizes p))
         (pizzas w)
  /\ Forall (fun c => 0 <= PizzaOptions.price c)
            (PizzaOptions.bases options ++ PizzaOptions.sauces options
               ++ PizzaOptions.cheeses options
               ++ PizzaOptions.vegetables options
               ++ PizzaOptions.meats options).

(** The place of a status in the progression of the tracking page. *)
Definition progress (s : Order.Status) : nat :=
  match s with
  | Order.pending => 0
  | Order.confirmed => 1
  | Order.preparing => 2
  | Order.ready => 3
  | Order.out_for_delivery => 4
  | Order.delivered => 5
  | Order.cancelled => 6
  end.

(** ** The stock of an item and its history *)

(** The movements form a chain from [start] to [stock]. *)
Fixpoint chained (start : Q) (h : list Inventory.StockMovement) (stock : Q)
  : Prop :=
  match h with
  | [] => start = stock
  | m :: rest =>
      Inventory.previousStock m = start
      /\ chained (Inventory.newStock m) rest stock
  end.

(** The history of the item is an audit trail of its stock: the movements
    form a chain that ends in the current stock, and none records a negative
    quantity or leaves a negative stock. *)
Definition auditTrail (i : Inventory.Item) : Prop :=
  (exists start,
      chained start (Inventory.stockHistory i) (Inventory.currentStock i))
  /\ Forall (fun m => 0 <= Inventory.quantity m /\ 0 <= Inventory.newStock m)
            (Inventory.stockHistory i).

(** The item is sound: its stock is not negative and its history is an
    audit trail of it. *)
Definition soundItem (i : Inventory.Item) : Prop :=
  0 <= Inventory.currentStock i /\ auditTrail i.

(** The statuses from the emptiest to the fullest. *)
Definition statusRank (s : Inventory.StockStatus) : nat :=
  match s with
  | Inventory.critical => 0
  | Inventory.low => 1
  | Inventory.normal => 2
  | Inventory.overstocked => 3
  end.

(** The message of the [pre('save')] hook of the inventory. *)
Definition tooNarrow : string :=
  "Maximum stock level must be greater than minimum stock level".

(** The stock an action aims at, before the clamp. *)
Definition target (act : string) (qty stock : Q) : Q :=
  if String.eqb act "restock" then stock + qty
  else if String.eqb act "adjustment" then qty
  else stock - qty.

(** ** The limiter *)

(** The answers of the limiter to the requests of one key made in turn at
    the given times: [true] lets the request through. *)
Fixpoint answers (maxAttempts windowMinutes : Z) (key : string)
         (times : list Z) (s : Auth.Store) : list bool :=
  match times with
  | [] => []
  | now :: rest =>
      let step := Auth.rateLimit maxAttempts windowMinutes key now s in
      fst step :: answers maxAttempts windowMinutes key rest (snd step)
  end.

(** The key has no entry that is still running at that time. *)
Definition idle (key : string) (now : Z) (s : Auth.Store) : Prop :=
  match s key with
  | Some l => (Auth.resetTime l < now)%Z
  | None => True
  end.

End FurtherTerms.

(** ** Further sample data *)

Section FurtherSamples.

Local Open Scope string_scope.
Local Open Scope Q_scope.

(** A store with the pending cash-on-delivery order of [u1]. *)
Definition sample_store : World :=
  sample_world (sample_order Order.pending Order.cod Order.payment_pending).

(** The order is confirmed, moved to the kitchen, then cancelled by its
    owner. *)
Definition sample_requests : list (Order.Env * Request) :=
  [(sample_env, ConfirmCod true "u1" "PZ210000123");
   (sample_env,
    AdminStatus "admin1" "PZ210000123"
                (AdminRoutes.mkStatusRequest Order.preparing None));
   (sample_env, Cancel false "u1" "PZ210000123" None)].

(** The sample order after its confirmation. *)
Definition confirmed_order : Order.T :=
  Eval vm_compute in
    hd (sample_order Order.pending Order.cod Order.payment_pending)
       (orders (world (OrderRoutes.confirmCod sample_runtime sample_env true
                         "u1" "PZ210000123" sample_store))).

(** The sample item after an order took two units of it. *)
Definition drained_item : Inventory.Item :=
  Eval vm_compute in consumed sample_env "PZ210000123" 2 sample_item.

(** A bulk update of the sample item and of an item that does not exist. *)
Definition sample_updates : list InventoryRoutes.Bulk.Update :=
  [InventoryRoutes.Bulk.mkUpdate "64b000000000000000000001" "consumption" 3
                                 None;
   InventoryRoutes.Bulk.mkUpdate "64b0000000000000000000ff" "restock" 1
                                 None].

End FurtherSamples.

(* ================================================================== *)
(** * Properties                                                        *)
(* ================================================================== *)

(** ** Comparisons of numbers *)

Lemma JS_leb_iff (x y : JS.number) : JS.leb x y = true <-> (x <= y)%Q.
Proof. apply Qle_bool_iff. Qed.

Lemma JS_leb_false_iff (x y : JS.number) : JS.leb x y = false <-> (y < x)%Q.
Proof.
  unfold JS.leb. split; intro H.
  - apply Qnot_le_lt. intro Hle. apply Qle_bool_iff in Hle. congruence.
  - destruct (Qle_bool x y) eqn:E; [|reflexivity].
    apply Qle_bool_iff in E. exfalso. apply (Qlt_not_le _ _ H E).
Qed.

Lemma JS_ltb_iff (x y : JS.number) : JS.ltb x y = true <-> (x < y)%Q.
Proof.
  unfold JS.ltb. rewrite negb_true_iff. apply JS_leb_false_iff.
Qed.

Lemma JS_ltb_false_iff (x y : JS.number) : JS.ltb x y = false <-> (y <= x)%Q.
Proof.
  unfold JS.ltb. rewrite negb_false_iff. apply Qle_bool_iff.
Qed.

(** ** The inventory ledger *)

Section StockStatus.

Local Open Scope Q_scope.

Variable i : Inventory.Item.

Let stock := Inventory.currentStock i.
Let lo := Inventory.minStockLevel i.
Let hi := Inventory.maxStockLevel i.

Lemma status_critical_iff :
  Inventory.getStockStatus i = Inventory.critical <-> stock <= lo / 2.
Proof.
  unfold Inventory.getStockStatus, Inventory.isCriticallyLowStock,
    Inventory.isLowStock.
  fold stock lo hi.
  destruct (JS.leb stock (lo / 2)) eqn:C.
  - apply JS_leb_iff in C. tauto.
  - apply JS_leb_false_iff in C.
    split; [|intro H; exfalso; apply (Qlt_not_le _ _ C H)].
    destruct (JS.leb stock lo), (JS.leb hi stock); discriminate.
Qed.

Lemma status_low_iff :
  Inventory.getStockStatus i = Inventory.low
  <-> lo / 2 < stock /\ stock <= lo.
Proof.
  unfold Inventory.getStockStatus, Inventory.isCriticallyLowStock,
    Inventory.isLowStock.
  fold stock lo hi.
  destruct (JS.leb stock (lo / 2)) eqn:C.
  - apply JS_leb_iff in C. split; [discriminate|].
    intros [H _]. exfalso. apply (Qlt_not_le _ _ H C).
  - apply JS_leb_false_iff in C.
    destruct (JS.leb stock lo) eqn:L.
    + apply JS_leb_iff in L. tauto.
    + apply JS_leb_false_iff in L.
      split; [destruct (JS.leb hi stock); discriminate|].
      intros [_ H]. exfalso. apply (Qlt_not_le _ _ L H).
Qed.

Lemma status_overstocked_iff :
  Inventory.getStockStatus i = Inventory.overstocked
  <-> lo / 2 < stock /\ lo < stock /\ hi <= stock.
Proof.
  unfold Inventory.getStockStatus, Inventory.isCriticallyLowStock,
    Inventory.isLowStock.
  fold stock lo hi.
  destruct (JS.leb stock (lo / 2)) eqn:C.
  - apply JS_leb_iff in C. split; [discriminate|].
    intros [H _]. exfalso. apply (Qlt_not_le _ _ H C).
  - apply JS_leb_false_iff in C.
    destruct (JS.leb stock lo) eqn:L.
    + apply JS_leb_iff in L. split; [discriminate|].
      intros [_ [H _]]. exfalso. apply (Qlt_not_le _ _ H L).
    + apply JS_leb_false_iff in L.
      destruct (JS.leb hi stock) eqn:H.
      * apply JS_leb_iff in H. tauto.
      * apply JS_leb_false_iff in H. split; [discriminate|].
        intros [_ [_ H']]. exfalso. apply (Qlt_not_le _ _ H H').
Qed.

Lemma status_normal_iff :
  Inventory.getStockStatus i = Inventory.normal
  <-> lo / 2 < stock /\ lo < stock /\ stock < hi.
Proof.
  unfold Inventory.getStockStatus, Inventory.isCriticallyLowStock,
    Inventory.isLowStock.
  fold stock lo hi.
  destruct (JS.leb stock (lo / 2)) eqn:C.
  - apply JS_leb_iff in C. split; [discriminate|].
    intros [H _]. exfalso. apply (Qlt_not_le _ _ H C).
  - apply JS_leb_false_iff in C.
    destruct (JS.leb stock lo) eqn:L.
    + apply JS_leb_iff in L. split; [discriminate|].
      intros [_ [H _]]. exfalso. apply (Qlt_not_le _ _ H L).
    + apply JS_leb_false_iff in L.
      destruct (JS.leb hi stock) eqn:H.
      * apply JS_leb_iff in H. split; [discriminate|].
        intros [_ [_ H']]. exfalso. apply (Qlt_not_le _ _ H' H).
      * apply JS_leb_false_iff in H. tauto.
Qed.

End StockStatus.

(** C7.  The stock status of an item is critical exactly when its stock is
    at most half the minimum level; low exactly when it is above that half
    and at most the minimum; overstocked exactly when it is above the
    minimum (and its half) and at least the maximum; normal exactly when it
    is above the minimum (and its half) and below the maximum.  The half is
    tested first, so critical wins over low.  With the levels 20 and 200, a
    stock of 10 is critical, 20 is low, 250 is overstocked and 100 is
    normal. *)
Theorem stock_status_classification :
  (forall i : Inventory.Item,
      let stock := Inventory.currentStock i in
      let lo := Inventory.minStockLevel i in
      let hi := Inventory.maxStockLevel i in
      (Inventory.getStockStatus i = Inventory.critical
       <-> (stock <= lo / 2)%Q)
      /\ (Inventory.getStockStatus i = Inventory.low
          <-> (lo / 2 < stock)%Q /\ (stock <= lo)%Q)
      /\ (Inventory.getStockStatus i = Inventory.overstocked
          <-> (lo / 2 < stock)%Q /\ (lo < stock)%Q /\ (hi <= stock)%Q)
      /\ (Inventory.getStockStatus i = Inventory.normal
          <-> (lo / 2 < stock)%Q /\ (lo < stock)%Q /\ (stock < hi)%Q))
  /\ (forall i : Inventory.Item,
         Inventory.getStockStatus (thresholds_20_200 10 i)
         = Inventory.critical
         /\ Inventory.getStockStatus (thresholds_20_200 20 i)
            = Inventory.low
         /\ Inventory.getStockStatus (thresholds_20_200 250 i)
            = Inventory.overstocked
         /\ Inventory.getStockStatus (thresholds_20_200 100 i)
            = Inventory.normal).
Proof.
  split.
  - intros i stock lo hi. subst stock lo hi.
    split; [apply status_critical_iff|].
    split; [apply status_low_iff|].
    split; [apply status_overstocked_iff | apply status_normal_iff].
  - intro i. repeat split; reflexivity.
Qed.

Section UpdateStock.

Local Open Scope Q_scope.
Local Open Scope string_scope.

Variables (now : Z) (qty : JS.number).
Variables (why who ord : option string).
Variable i : Inventory.Item.

Hypothesis qty_nonneg : 0 <= qty.
Hypothesis levels_ordered :
  Inventory.minStockLevel i < Inventory.maxStockLevel i.

Let stock := Inventory.currentStock i.

(** The single history record of a call that went from [stock] to [after]. *)
Let entry (act : string) (after : JS.number) : Inventory.StockMovement :=
  Inventory.mkMovement act (JS.abs qty) stock after why who now ord.

Lemma save_accepts (d : Inventory.Item) :
  Inventory.minStockLevel d = Inventory.minStockLevel i ->
  Inventory.maxStockLevel d = Inventory.maxStockLevel i ->
  Inventory.save now d = inr (Inventory.set_updatedAt now d).
Proof.
  intros Hlo Hhi. unfold Inventory.save, Inventory.preSave.
  rewrite Hlo, Hhi.
  destruct (JS.leb (Inventory.maxStockLevel i) (Inventory.minStockLevel i))
    eqn:E; [|reflexivity].
  apply JS_leb_iff in E. exfalso. apply (Qlt_not_le _ _ levels_ordered E).
Qed.

(** What [updateStock] stores once the action has moved the stock to
    [moved]: the clamped value and one more history record. *)
Lemma updateStock_after (act : string) (d : Inventory.Item) :
  Inventory.applyAction now act qty i = inr d ->
  Inventory.minStockLevel d = Inventory.minStockLevel i ->
  Inventory.maxStockLevel d = Inventory.maxStockLevel i ->
  Inventory.stockHistory d = Inventory.stockHistory i ->
  exists r,
    Inventory.updateStock now act qty why who ord i = inr r
    /\ Inventory.currentStock r
       = (if JS.ltb (Inventory.currentStock d) 0 then 0
          else Inventory.currentStock d)
    /\ Inventory.stockHistory r
       = (Inventory.stockHistory i
            ++ [entry act (Inventory.currentStock r)])%list
    /\ Inventory.lowStockAlertSent r = Inventory.lowStockAlertSent d
    /\ Inventory.lastRestocked r = Inventory.lastRestocked d.
Proof.
  intros Hact Hlo Hhi Hhist.
  unfold Inventory.updateStock. rewrite Hact. cbn [bind].
  rewrite save_accepts.
  - eexists. split; [reflexivity|].
    unfold Inventory.clampStock.
    destruct (JS.ltb (Inventory.currentStock d) 0); cbn; rewrite ?Hhist;
      repeat split; reflexivity.
  - unfold Inventory.clampStock.
    destruct (JS.ltb (Inventory.currentStock d) 0); cbn; assumption.
  - unfold Inventory.clampStock.
    destruct (JS.ltb (Inventory.currentStock d) 0); cbn; assumption.
Qed.

Lemma clamp_nonneg (x : JS.number) : 0 <= (if JS.ltb x 0 then 0 else x).
Proof.
  destruct (JS.ltb x 0) eqn:E.
  - apply Qle_refl.
  - apply JS_ltb_false_iff in E. exact E.
Qed.

Lemma clamp_id (x : JS.number) : 0 <= x -> (if JS.ltb x 0 then 0 else x) = x.
Proof.
  intro H. destruct (JS.ltb x 0) eqn:E; [|reflexivity].
  apply JS_ltb_iff in E. exfalso. apply (Qlt_not_le _ _ E H).
Qed.

Lemma clamp_zero (x : JS.number) : x < 0 -> (if JS.ltb x 0 then 0 else x) = 0.
Proof.
  intro H. apply JS_ltb_iff in H. rewrite H. reflexivity.
Qed.

Lemma restock_stored :
  0 <= stock ->
  exists r,
    Inventory.updateStock now "restock" qty why who ord i = inr r
    /\ Inventory.currentStock r = stock + qty
    /\ Inventory.lowStockAlertSent r = false
    /\ Inventory.lastRestocked r = now
    /\ Inventory.stockHistory r
       = (Inventory.stockHistory i ++ [entry "restock" (stock + qty)])%list.
Proof.
  intro Hstock.
  destruct (@updateStock_after "restock"
              (Inventory.set_lowStockAlertSent false
                 (Inventory.set_lastRestocked now
                    (Inventory.set_currentStock (stock + qty) i))))
    as (r & Hr & Hcur & Hhist & Hflag & Hlast); try reflexivity.
  cbn in Hcur, Hflag, Hlast.
  rewrite clamp_id in Hcur by (subst stock; lra).
  exists r. rewrite Hhist, Hcur. repeat split; assumption.
Qed.

Lemma removal_stored (act : string) :
  act = "consumption" \/ act = "wastage" ->
  exists r,
    Inventory.updateStock now act qty why who ord i = inr r
    /\ 0 <= Inventory.currentStock r
    /\ (qty <= stock -> Inventory.currentStock r = stock - qty)
    /\ (stock < qty -> Inventory.currentStock r = 0)
    /\ Inventory.stockHistory r
       = (Inventory.stockHistory i
            ++ [entry act (Inventory.currentStock r)])%list.
Proof.
  intro Hact.
  destruct (@updateStock_after act
              (Inventory.set_currentStock (stock - qty) i))
    as (r & Hr & Hcur & Hhist & _); try reflexivity.
  { destruct Hact; subst act; reflexivity. }
  cbn in Hcur.
  exists r. split; [exact Hr|]. rewrite Hcur.
  split; [apply clamp_nonneg|].
  split; [intro H; apply clamp_id; lra|].
  split; [intro H; apply clamp_zero; lra|].
  rewrite <- Hcur. exact Hhist.
Qed.

Lemma adjustment_stored :
  exists r,
    Inventory.updateStock now "adjustment" qty why who ord i = inr r
    /\ Inventory.currentStock r = qty
    /\ Inventory.stockHistory r
       = (Inventory.stockHistory i ++ [entry "adjustment" qty])%list.
Proof.
  destruct (@updateStock_after "adjustment"
              (Inventory.set_currentStock qty i))
    as (r & Hr & Hcur & Hhist & _); try reflexivity.
  cbn in Hcur. rewrite clamp_id in Hcur by exact qty_nonneg.
  exists r. rewrite Hhist, Hcur. repeat split; assumption.
Qed.

End UpdateStock.

(** C4.  For an inventory item that satisfies its schema (stock not
    negative, maximum level above the minimum level) and a quantity that is
    not negative: a restock stores the stock plus the quantity, clears
    [lowStockAlertSent] and stamps [lastRestocked]; a consumption or a
    wastage stores the stock minus the quantity, or 0 when that would be
    negative; an adjustment stores the quantity itself; whatever the action,
    the stored stock is not negative and the history has grown by exactly
    one record, which carries the stock before and the stock stored. *)
Theorem updateStock_bookkeeping :
  forall (now : Z) (qty : JS.number) (why who ord : option string)
         (i : Inventory.Item),
    (0 <= qty)%Q ->
    (0 <= Inventory.currentStock i)%Q ->
    (Inventory.minStockLevel i < Inventory.maxStockLevel i)%Q ->
    let stock := Inventory.currentStock i in
    let run act := Inventory.updateStock now act qty why who ord i in
    (exists r,
        run "restock"%string = inr r
        /\ Inventory.currentStock r = (stock + qty)%Q
        /\ Inventory.lowStockAlertSent r = false
        /\ Inventory.lastRestocked r = now)
    /\ (forall act,
           act = "consumption"%string \/ act = "wastage"%string ->
           exists r,
             run act = inr r
             /\ ((qty <= stock)%Q ->
                 Inventory.currentStock r = (stock - qty)%Q)
             /\ ((stock < qty)%Q -> Inventory.currentStock r = 0%Q))
    /\ (exists r,
           run "adjustment"%string = inr r
           /\ Inventory.currentStock r = qty)
    /\ (forall act,
           In act stockActions ->
           exists r,
             run act = inr r
             /\ (0 <= Inventory.currentStock r)%Q
             /\ Inventory.stockHistory r
                = Inventory.stockHistory i
                    ++ [Inventory.mkMovement act (JS.abs qty) stock
                          (Inventory.currentStock r) why who now ord]).
Proof.
  intros now qty why who ord i Hqty Hstock Hlevels stock run.
  subst stock run. cbv beta.
  pose proof (@restock_stored now qty why who ord i Hqty Hlevels Hstock)
    as (r1 & Hr1 & Hc1 & Hf1 & Hl1 & Hh1).
  pose proof (@adjustment_stored now qty why who ord i Hqty Hlevels)
    as (r3 & Hr3 & Hc3 & Hh3).
  split; [exists r1; auto|].
  split.
  { intros act Hact.
    destruct (@removal_stored now qty why who ord i Hlevels act Hact)
      as (r & Hr & _ & Hle & Hlt & _).
    exists r. auto. }
  split; [exists r3; auto|].
  intros act Hin.
  destruct Hin as [<- | [<- | [<- | [<- | []]]]].
  - exists r1. rewrite Hh1, Hc1. repeat split; auto.
    apply Qle_trans with (Inventory.currentStock i); [exact Hstock|].
    rewrite <- (Qplus_0_r (Inventory.currentStock i)) at 1.
    apply Qplus_le_r. exact Hqty.
  - destruct (@removal_stored now qty why who ord i Hlevels
                "consumption"%string (or_introl eq_refl))
      as (r & Hr & Hpos & _ & _ & Hh).
    exists r. auto.
  - destruct (@removal_stored now qty why who ord i Hlevels
                "wastage"%string (or_intror eq_refl))
      as (r & Hr & Hpos & _ & _ & Hh).
    exists r. auto.
  - exists r3. rewrite Hh3, Hc3. repeat split; auto.
Qed.

Lemma updateStock_bookkeeping_witness :
  exists r,
    Inventory.updateStock 1000 "consumption" 5 None None None sample_item
    = inr r
    /\ ((5 <= 8)%Q -> Inventory.currentStock r = (8 - 5)%Q)
    /\ ((8 < 5)%Q -> Inventory.currentStock r = 0%Q).
Proof.
  refine (proj1 (proj2 (@updateStock_bookkeeping 1000 5 None None None
                          sample_item _ _ _)) "consumption"%string _).
  - discriminate.
  - discriminate.
  - reflexivity.
  - left. reflexivity.
Defined.

(** Two consumptions of 5 units, one after the other, on a stock of 8: the
    first leaves 3, the second leaves 0, and the history records 8 -> 3 and
    3 -> 0. *)
Example two_consumptions_in_turn :
  match
    bind (Inventory.updateStock 1000 "consumption" 5 None None None
                                sample_item)
         (Inventory.updateStock 2000 "consumption" 5 None None None)
  with
  | inr i =>
      (Inventory.currentStock i,
       map (fun m => (Inventory.previousStock m, Inventory.newStock m))
           (Inventory.stockHistory i))
      = (0%Q, [(8%Q, 3%Q); (3%Q, 0%Q)])
  | inl _ => False
  end.
Proof. reflexivity. Qed.

(** ** Saving an order *)

Section Saving.

Variable e : Order.Env.

Lemma save_existing (d : Order.Doc) (coll : list Order.T) :
  Order.isNew d = false ->
  Order.save e d coll
  = inr (Order.loaded (written e d), Order.replace (written e d) coll).
Proof.
  intro Hold. unfold Order.save, Order.validate, Order.write, written.
  rewrite Hold. cbn [andb bind ok].
  assert (Order.isNew
            (Order.preSave_statusHistory e (Order.preSave_orderId e d))
          = false) as ->; [|reflexivity].
  unfold Order.preSave_statusHistory, Order.preSave_orderId.
  destruct (JS.truthy (Order.orderId (Order.fields d)));
    destruct d as [f n m]; cbn in *; subst n;
    rewrite ?andb_true_r; destruct m; reflexivity.
Qed.

(** A new document without an order id is refused before any hook has
    run. *)
Lemma save_new_without_id (d : Order.Doc) (coll : list Order.T) :
  Order.isNew d = true ->
  Order.orderId (Order.fields d) = EmptyString ->
  Order.save e d coll
  = inl (ValidationError ["Path `orderId` is required."%string]).
Proof.
  intros Hnew Hid. unfold Order.save, Order.validate.
  rewrite Hnew, Hid. reflexivity.
Qed.

(** The hooks leave everything but [orderId], [updatedAt] and the history
    alone. *)
Lemma written_fields (d : Order.Doc) :
  let o := Order.fields d in
  let o' := written e d in
  Order._id o' = Order._id o
  /\ Order.user o' = Order.user o
  /\ Order.items o' = Order.items o
  /\ Order.orderStatus o' = Order.orderStatus o
  /\ Order.paymentStatus o' = Order.paymentStatus o
  /\ Order.paymentMethod o' = Order.paymentMethod o
  /\ Order.paymentDetails o' = Order.paymentDetails o
  /\ Order.pricing o' = Order.pricing o
  /\ Order.actualDeliveryTime o' = Order.actualDeliveryTime o
  /\ Order.statusHistory o'
     = (Order.statusHistory o
          ++ (if Order.orderStatusModified d && negb (Order.isNew d)
              then [hookRecord e (Order.orderStatus o)] else []))%list.
Proof.
  unfold written, Order.preSave_statusHistory, Order.preSave_orderId,
    Order.isModified_orderStatus, hookRecord.
  destruct d as [f n m]. cbn.
  destruct (JS.truthy (Order.orderId f)); cbn;
    destruct (m && negb n); cbn; rewrite ?app_nil_r;
    repeat split; reflexivity.
Qed.

End Saving.

(** Rewrites the [save] of a stored document in the goal to what it writes,
    names the written fields [o'] and records what is known of them. *)
Ltac saved_as o' H :=
  match goal with
  | |- context [Order.save ?e ?d ?coll] =>
      rewrite (@save_existing e d coll) by reflexivity;
      pose proof (written_fields e d) as H;
      set (o' := written e d) in *;
      cbv zeta in H;
      cbn [Order.fields Order.update Order.assign_orderStatus Order.loaded
           Order.isNew Order.orderStatusModified Order._id Order.user
           Order.items Order.orderStatus Order.paymentStatus
           Order.paymentMethod Order.paymentDetails Order.pricing
           Order.actualDeliveryTime Order.statusHistory
           Order.set_orderStatus Order.set_paymentStatus
           Order.set_paymentDetails Order.set_actualDeliveryTime
           Order.push_statusHistory negb orb andb] in H
  end.

Lemma replace_In (o' : Order.T) (coll : list Order.T) (x : Order.T) :
  In x (Order.replace o' coll) -> x = o' \/ In x coll.
Proof.
  induction coll as [|y rest IH]; cbn; [tauto|].
  destruct (String.eqb (Order._id y) (Order._id o')); cbn.
  - intros [<- | H]; auto.
  - intros [<- | H]; auto. destruct (IH H); auto.
Qed.

(** After [replace], the document stored under the id is the new one. *)
Lemma find_replace (o o' : Order.T) (coll : list Order.T) :
  In o coll ->
  Order._id o' = Order._id o ->
  find (fun x => String.eqb (Order._id x) (Order._id o))
       (Order.replace o' coll) = Some o'.
Proof.
  intros Hin Hid. induction coll as [|y rest IH]; [destruct Hin|].
  cbn. rewrite Hid.
  destruct (String.eqb (Order._id y) (Order._id o)) eqn:E.
  - cbn. rewrite Hid, String.eqb_refl. reflexivity.
  - cbn. rewrite E. apply IH.
    destruct Hin as [-> | H]; [|exact H].
    rewrite String.eqb_refl in E. discriminate.
Qed.

Lemma find_In {A} (p : A -> bool) (l : list A) (x : A) :
  find p l = Some x -> In x l /\ p x = true.
Proof. apply find_some. Qed.

(** ** The status state machine *)

Lemma Status_eqb_eq (a b : Order.Status) :
  Order.Status_eqb a b = true <-> a = b.
Proof. destruct a, b; cbn; split; congruence. Qed.

(** The table of the handler is the table of the specification. *)
Lemma validTransitions_table (from to : Order.Status) :
  AdminRoutes.includes (AdminRoutes.validTransitions from) to = true
  <-> TransitionTable from to.
Proof.
  split.
  - destruct from, to; cbn; intro H; try discriminate; constructor.
  - intro H. destruct H; reflexivity.
Qed.

(** No transition of the table stays where it is. *)
Lemma table_moves (from to : Order.Status) :
  TransitionTable from to -> Order.Status_eqb to from = false.
Proof. intro H. destruct H; reflexivity. Qed.

Section AdminStatusUpdate.

Variable e : Order.Env.
Variables adminId orderId : string.
Variable r : AdminRoutes.StatusRequest.
Variable w : World.
Variable o : Order.T.

Hypothesis request_valid : AdminRoutes.validStatusRequest r = true.
Hypothesis order_found :
  find (fun x => String.eqb (Order.orderId x) orderId) (orders w) = Some o.

Let out := AdminRoutes.updateOrderStatus e adminId orderId r w.
Let from := Order.orderStatus o.
Let to := AdminRoutes.status r.

Lemma admin_rejects :
  ~ TransitionTable from to ->
  out = refuse w 400
          ("Cannot change status from " ++ Order.Status_to_string from
             ++ " to " ++ Order.Status_to_string to)%string.
Proof.
  intro Hno. unfold out, AdminRoutes.updateOrderStatus.
  rewrite request_valid, order_found. cbn [negb].
  destruct (AdminRoutes.includes
              (AdminRoutes.validTransitions (Order.orderStatus o))
              (AdminRoutes.status r)) eqn:E; [|reflexivity].
  apply validTransitions_table in E. contradiction.
Qed.

Lemma admin_accepts :
  TransitionTable from to ->
  exists o',
    Http.success (response out) = true
    /\ stored (Order._id o) (world out) = Some o'
    /\ Order.orderStatus o' = to
    /\ Order.statusHistory o'
       = (Order.statusHistory o
            ++ [adminRecord e adminId from r; hookRecord e to])%list
    /\ Order.actualDeliveryTime o'
       = (if Order.Status_eqb to Order.delivered
          then Some (Order.now e) else Order.actualDeliveryTime o).
Proof.
  intro Hyes. unfold out, AdminRoutes.updateOrderStatus.
  rewrite request_valid, order_found. cbn [negb].
  pose proof (proj2 (validTransitions_table from to) Hyes) as E.
  unfold from, to in E. rewrite E. cbn [negb].
  pose proof (table_moves _ _ Hyes) as Hmove. unfold from, to in Hmove.
  destruct (Order.Status_eqb (AdminRoutes.status r) Order.delivered) eqn:D;
    saved_as o' Hw;
    destruct Hw as (Hid & _ & _ & Hs & _ & _ & _ & _ & Ha & Hh);
    exists o'; cbn [response world set_orders orders Http.success];
    rewrite Hmove in Hh; cbn in Hh; rewrite <- app_assoc in Hh;
    (split; [reflexivity|]);
    (split;
     [unfold stored; cbn [orders]; apply find_replace;
      [apply (find_In _ _ _ order_found) | exact Hid] |]);
    unfold to, from; rewrite D, Hs, Ha, Hh; repeat split; reflexivity.
Qed.

End AdminStatusUpdate.

(** C2.  For a stored order and a well-formed status request of an
    administrator, the request succeeds exactly when the transition from the
    order's status to the requested one is in the table
    pending -> confirmed | cancelled, confirmed -> preparing | cancelled,
    preparing -> ready | cancelled, ready -> out-for-delivery | cancelled,
    out-for-delivery -> delivered (delivered and cancelled have no
    successor).  Any other transition is answered 400 "Cannot change status
    from ... to ..." and nothing changes.  An accepted transition stores the
    new status, appends to the history the handler's record (status, time,
    administrator, notes), and stamps [actualDeliveryTime] when the new
    status is delivered. *)
Theorem admin_status_transitions :
  forall (e : Order.Env) (adminId orderId : string)
         (r : AdminRoutes.StatusRequest) (w : World) (o : Order.T),
    AdminRoutes.validStatusRequest r = true ->
    find (fun x => String.eqb (Order.orderId x) orderId) (orders w) = Some o ->
    let out := AdminRoutes.updateOrderStatus e adminId orderId r w in
    let from := Order.orderStatus o in
    let to := AdminRoutes.status r in
    (Http.success (response out) = true <-> TransitionTable from to)
    /\ (~ TransitionTable from to ->
        out = refuse w 400
                ("Cannot change status from " ++ Order.Status_to_string from
                   ++ " to " ++ Order.Status_to_string to)%string
        /\ world out = w)
    /\ (TransitionTable from to ->
        exists o' later,
          stored (Order._id o) (world out) = Some o'
          /\ Order.orderStatus o' = to
          /\ Order.statusHistory o'
             = Order.statusHistory o
                 ++ adminRecord e adminId from r :: later
          /\ (to = Order.delivered ->
              Order.actualDeliveryTime o' = Some (Order.now e))).
Proof.
  intros e adminId orderId r w o Hvalid Hfound out from to.
  assert (Hdec : TransitionTable from to \/ ~ TransitionTable from to).
  { destruct (AdminRoutes.includes (AdminRoutes.validTransitions from) to)
      eqn:E.
    - left. apply validTransitions_table. exact E.
    - right. intro H. apply validTransitions_table in H. congruence. }
  split; [|split].
  - split.
    + intro Hok. destruct Hdec as [H | H]; [exact H|].
      pose proof (admin_rejects e adminId orderId r w o Hvalid Hfound H)
        as Hout.
      fold out in Hout. rewrite Hout in Hok. discriminate.
    + intro H.
      destruct (admin_accepts e adminId orderId r w o Hvalid Hfound H)
        as (o' & Hok & _).
      exact Hok.
  - intro H.
    pose proof (admin_rejects e adminId orderId r w o Hvalid Hfound H) as Hout.
    fold out in Hout. split; [exact Hout|]. rewrite Hout. reflexivity.
  - intro H.
    destruct (admin_accepts e adminId orderId r w o Hvalid Hfound H)
      as (o' & _ & Hst & Hs & Hh & Ha).
    exists o', [hookRecord e to]. fold out from to in Hst, Hs, Hh, Ha.
    repeat split; try assumption.
    intro Hdel. rewrite Ha, Hdel. reflexivity.
Qed.

Lemma admin_status_transitions_witness :
  AdminRoutes.updateOrderStatus sample_env "admin1"%string
    "PZ210000123"%string
    (AdminRoutes.mkStatusRequest Order.preparing None)
    (sample_world
       (sample_order Order.pending Order.cod Order.payment_pending))
  = refuse (sample_world
              (sample_order Order.pending Order.cod Order.payment_pending))
           400 "Cannot change status from pending to preparing"%string
  /\ world
       (AdminRoutes.updateOrderStatus sample_env "admin1"%string
          "PZ210000123"%string
          (AdminRoutes.mkStatusRequest Order.preparing None)
          (sample_world
             (sample_order Order.pending Order.cod Order.payment_pending)))
     = sample_world
         (sample_order Order.pending Order.cod Order.payment_pending).
Proof.
  refine (proj1 (proj2
            (@admin_status_transitions sample_env "admin1"%string
               "PZ210000123"%string
               (AdminRoutes.mkStatusRequest Order.preparing None)
               (sample_world
                  (sample_order Order.pending Order.cod
                                Order.payment_pending))
               (sample_order Order.pending Order.cod Order.payment_pending)
               _ _)) _).
  - reflexivity.
  - reflexivity.
  - intro H. inversion H.
Defined.

(** The whole course of an order, from pending to delivered: every step is
    accepted, every step leaves the handler's record and the hook's record
    in the history, and the last one stamps the delivery time. *)
Example status_updates_end_to_end :
  option_map
    (fun o => (Order.orderStatus o, Order.actualDeliveryTime o,
               map Order.status (Order.statusHistory o)))
    (stored "65a000000000000000000000"%string
       (runStatusUpdates sample_env "admin1"%string "PZ210000123"%string
          [Order.confirmed; Order.preparing; Order.ready;
           Order.out_for_delivery; Order.delivered]
          (sample_world
             (sample_order Order.pending Order.cod Order.payment_pending))))
  = Some (Order.delivered, Some 1730543210123%Z,
          [Order.confirmed; Order.confirmed; Order.preparing;
           Order.preparing; Order.ready; Order.ready;
           Order.out_for_delivery; Order.out_for_delivery;
           Order.delivered; Order.delivered]).
Proof. reflexivity. Qed.

(** ** Cancellation by the user *)

Lemma replace_keeps (o o' : Order.T) (coll : list Order.T) :
  In o coll ->
  Order._id o' = Order._id o ->
  In o' (Order.replace o' coll).
Proof.
  intros Hin Hid. induction coll as [|y rest IH]; [destruct Hin|].
  cbn. destruct (String.eqb (Order._id y) (Order._id o')) eqn:E.
  - left. reflexivity.
  - right. apply IH. destruct Hin as [-> | H]; [|exact H].
    rewrite Hid, String.eqb_refl in E. discriminate.
Qed.

Section Cancel.

Variable e : Order.Env.
Variable refunded : bool.
Variables userId orderId : string.
Variable reason : option string.
Variable w : World.
Variable o : Order.T.

Hypothesis order_found :
  OrderRoutes.findOrder orderId userId None (orders w) = Some o.

Let out := OrderRoutes.cancel e refunded userId orderId reason w.

Lemma cancel_refused_when_over :
  Order.orderStatus o = Order.delivered
  \/ Order.orderStatus o = Order.cancelled ->
  out = refuse w 400 "Order cannot be cancelled"%string.
Proof.
  intro H. unfold out, OrderRoutes.cancel. rewrite order_found.
  destruct H as [-> | ->]; reflexivity.
Qed.

Lemma cancel_refused_on_the_road :
  Order.orderStatus o = Order.out_for_delivery ->
  out = refuse w 400 contactSupport.
Proof.
  intro H. unfold out, OrderRoutes.cancel. rewrite order_found, H.
  reflexivity.
Qed.

Lemma cancel_accepted :
  cancellable (Order.orderStatus o) = true ->
  exists o',
    Http.code (response out) = 200%Z
    /\ Http.success (response out) = true
    /\ Http.message (response out) = "Order cancelled successfully"%string
    /\ stored (Order._id o) (world out) = Some o'
    /\ Order.orderStatus o' = Order.cancelled
    /\ Order.statusHistory o'
       = (Order.statusHistory o
            ++ [cancelRecord e reason; hookRecord e Order.cancelled])%list.
Proof.
  intro Hc. unfold out, OrderRoutes.cancel. rewrite order_found.
  pose proof (proj1 (find_In _ _ _ order_found)) as Hin.
  assert (Hmove : Order.Status_eqb Order.cancelled (Order.orderStatus o)
                  = false)
    by (destruct (Order.orderStatus o); try discriminate; reflexivity).
  assert (Hgo :
    forall A (x y z : A),
      match Order.orderStatus o with
      | Order.delivered | Order.cancelled => x
      | Order.out_for_delivery => y
      | _ => z
      end = z)
    by (intros; destruct (Order.orderStatus o); try discriminate;
        reflexivity).
  rewrite Hgo. clear Hgo.
  saved_as o1 H1.
  destruct H1 as (Hid1 & _ & _ & Hs1 & _ & _ & _ & _ & _ & Hh1).
  rewrite Hmove in Hh1. cbn in Hh1. rewrite <- app_assoc in Hh1.
  cbn [Order.fields Order.loaded].
  destruct (OrderRoutes.isCompleted (Order.paymentStatus o1)
            && Order.PaymentMethod_eqb (Order.paymentMethod o1)
                                       Order.razorpay).
  2:{ exists o1. cbn. repeat split; try assumption.
      apply find_replace; assumption. }
  destruct refunded.
  2:{ exists o1. cbn. repeat split; try assumption.
      apply find_replace; assumption. }
  saved_as o2 H2.
  destruct H2 as (Hid2 & _ & _ & Hs2 & _ & _ & _ & _ & _ & Hh2).
  rewrite app_nil_r in Hh2.
  exists o2. cbn. repeat split.
  - unfold stored. cbn. rewrite <- Hid1. apply find_replace.
    + apply (replace_keeps o); assumption.
    + exact Hid2.
  - congruence.
  - rewrite Hh2, Hh1. reflexivity.
Qed.

End Cancel.

(** C9.  A cancellation by the owner of a stored order is answered 400
    "Order cannot be cancelled" when the order is delivered or cancelled;
    when it is out for delivery it is answered 400 with the contact-support
    message, which is not that generic message, and nothing changes; in
    every other status (pending, confirmed, preparing, ready) it succeeds
    and the stored order is cancelled. *)
Theorem user_cancellation :
  forall (e : Order.Env) (refunded : bool) (userId orderId : string)
         (reason : option string) (w : World) (o : Order.T),
    OrderRoutes.findOrder orderId userId None (orders w) = Some o ->
    let out := OrderRoutes.cancel e refunded userId orderId reason w in
    (Order.orderStatus o = Order.delivered
     \/ Order.orderStatus o = Order.cancelled ->
     out = refuse w 400 "Order cannot be cancelled"%string)
    /\ (Order.orderStatus o = Order.out_for_delivery ->
        out = refuse w 400 contactSupport
        /\ contactSupport <> "Order cannot be cancelled"%string
        /\ world out = w
        /\ stored (Order._id o) (world out) = stored (Order._id o) w)
    /\ (Order.orderStatus o <> Order.delivered ->
        Order.orderStatus o <> Order.cancelled ->
        Order.orderStatus o <> Order.out_for_delivery ->
        exists o',
          Http.code (response out) = 200%Z
          /\ Http.success (response out) = true
          /\ stored (Order._id o) (world out) = Some o'
          /\ Order.orderStatus o' = Order.cancelled).
Proof.
  intros e refunded userId orderId reason w o Hfound out.
  split; [|split].
  - apply cancel_refused_when_over. exact Hfound.
  - intro H.
    pose proof (cancel_refused_on_the_road e refunded userId orderId reason
                  w o Hfound H) as Hout.
    fold out in Hout. rewrite Hout.
    repeat split; try reflexivity. discriminate.
  - intros H1 H2 H3.
    assert (Hc : cancellable (Order.orderStatus o) = true)
      by (destruct (Order.orderStatus o); try reflexivity; contradiction).
    destruct (cancel_accepted e refunded userId orderId reason w o Hfound Hc)
      as (o' & Hcode & Hok & _ & Hst & Hs & _).
    exists o'. auto.
Qed.

Lemma user_cancellation_witness :
  OrderRoutes.cancel sample_env true "u1"%string "PZ210000123"%string None
    (sample_world
       (sample_order Order.out_for_delivery Order.razorpay
                     Order.payment_completed))
  = refuse (sample_world
              (sample_order Order.out_for_delivery Order.razorpay
                            Order.payment_completed))
           400 contactSupport
  /\ contactSupport <> "Order cannot be cancelled"%string
  /\ world
       (OrderRoutes.cancel sample_env true "u1"%string "PZ210000123"%string
          None
          (sample_world
             (sample_order Order.out_for_delivery Order.razorpay
                           Order.payment_completed)))
     = sample_world
         (sample_order Order.out_for_delivery Order.razorpay
                       Order.payment_completed)
  /\ stored "65a000000000000000000000"%string
       (world
          (OrderRoutes.cancel sample_env true "u1"%string
             "PZ210000123"%string None
             (sample_world
                (sample_order Order.out_for_delivery Order.razorpay
                              Order.payment_completed))))
     = stored "65a000000000000000000000"%string
         (sample_world
            (sample_order Order.out_for_delivery Order.razorpay
                          Order.payment_completed)).
Proof.
  refine (proj1 (proj2
            (user_cancellation sample_env true "u1"%string
               "PZ210000123"%string None
               (sample_world
                  (sample_order Order.out_for_delivery Order.razorpay
                                Order.payment_completed))
               (sample_order Order.out_for_delivery Order.razorpay
                             Order.payment_completed)
               _)) _).
  - reflexivity.
  - reflexivity.
Defined.

(** ** Payment verification and cash-on-delivery confirmation *)

(** What a confirmation leaves: the orders as saved, the inventory as
    consumed, and the response. *)
Lemma afterConfirmation_world rt e mailSent userId message o w :
  let out := OrderRoutes.afterConfirmation rt e mailSent userId message o w in
  orders (world out) = orders w
  /\ inventory (world out)
     = fst (OrderRoutes.updateInventoryForOrder rt e mailSent o (inventory w))
  /\ response out = Http.mkResponse 200 true message.
Proof.
  unfold OrderRoutes.afterConfirmation.
  destruct (OrderRoutes.updateInventoryForOrder rt e mailSent o (inventory w))
    as [stock fx].
  cbn. repeat split.
Qed.

Lemma signature_mismatch rt (oid pid sig : string) :
  (forall key,
      RAZORPAY_KEY_SECRET rt = Some key ->
      sig <> hmacSha256Hex rt key (oid ++ "|" ++ pid)%string) ->
  RazorpayService.verifyPaymentSignature rt oid pid sig = false.
Proof.
  intro H. unfold RazorpayService.verifyPaymentSignature.
  destruct (RAZORPAY_KEY_SECRET rt) as [key|]; [|reflexivity].
  apply String.eqb_neq. intro E. apply (H key eq_refl). symmetry. exact E.
Qed.

Section VerifyPayment.

Variable rt : Runtime.
Variable e : Order.Env.
Variable mailSent : bool.
Variable userId : string.
Variable r : OrderRoutes.VerifyRequest.
Variable w : World.
Variable o : Order.T.

Hypothesis request_valid : OrderRoutes.validVerify r = true.
Hypothesis order_found :
  OrderRoutes.findOrder (OrderRoutes.v_orderId r) userId
                        (Some Order.razorpay) (orders w) = Some o.

Let out := OrderRoutes.verifyPayment rt e mailSent userId r w.
Let signed :=
  RazorpayService.verifyPaymentSignature rt
    (OrderRoutes.v_razorpayOrderId r) (OrderRoutes.v_razorpayPaymentId r)
    (OrderRoutes.v_razorpaySignature r).

Lemma verify_already_completed :
  Order.paymentStatus o = Order.payment_completed ->
  out = refuse w 400 "Payment already completed"%string.
Proof.
  intro H. unfold out, OrderRoutes.verifyPayment.
  rewrite request_valid, order_found, H. reflexivity.
Qed.

Lemma verify_bad_signature :
  Order.paymentStatus o <> Order.payment_completed ->
  signed = false ->
  out = refuse w 400 "Payment verification failed"%string.
Proof.
  intros H S. unfold out, OrderRoutes.verifyPayment.
  rewrite request_valid, order_found. cbn [negb].
  fold signed. rewrite S.
  destruct (Order.paymentStatus o); try reflexivity. contradiction.
Qed.

Lemma verify_confirms :
  Order.paymentStatus o <> Order.payment_completed ->
  signed = true ->
  exists o',
    response out
    = Http.mkResponse 200 true "Payment verified and order confirmed"%string
    /\ stored (Order._id o) (world out) = Some o'
    /\ inventory (world out)
       = fst (OrderRoutes.updateInventoryForOrder rt e mailSent o'
                                                  (inventory w))
    /\ Order.paymentStatus o' = Order.payment_completed
    /\ Order.orderStatus o' = Order.confirmed
    /\ Order.items o' = Order.items o
    /\ Order.statusHistory o'
       = (Order.statusHistory o
            ++ (if Order.Status_eqb Order.confirmed (Order.orderStatus o)
                then [] else [hookRecord e Order.confirmed]))%list.
Proof.
  intros H S. unfold out, OrderRoutes.verifyPayment.
  rewrite request_valid, order_found. cbn [negb].
  fold signed. rewrite S. cbn [negb].
  assert (OrderRoutes.isCompleted (Order.paymentStatus o) = false) as ->
    by (destruct (Order.paymentStatus o); try reflexivity; contradiction).
  saved_as o' Hw.
  destruct Hw as (Hid & _ & Hi & Hs & Hp & _ & _ & _ & _ & Hh).
  exists o'.
  match goal with
  | |- context [OrderRoutes.afterConfirmation ?a ?b ?c ?d ?m ?x ?y] =>
      destruct (afterConfirmation_world a b c d m x y) as (Ho & Hinv & Hr)
  end.
  cbn [Order.fields Order.loaded] in *.
  rewrite Hr, Hinv. unfold stored. rewrite Ho. cbn [orders set_orders].
  repeat split; try assumption.
  - apply find_replace; [apply (find_In _ _ _ order_found) | exact Hid].
  - rewrite Hh.
    destruct (Order.Status_eqb Order.confirmed (Order.orderStatus o));
      reflexivity.
Qed.

End VerifyPayment.

Section ConfirmCod.

Variable rt : Runtime.
Variable e : Order.Env.
Variable mailSent : bool.
Variables userId orderId : string.
Variable w : World.
Variable o : Order.T.

Hypothesis order_found :
  OrderRoutes.findOrder orderId userId (Some Order.cod) (orders w) = Some o.

Let out := OrderRoutes.confirmCod rt e mailSent userId orderId w.

Lemma cod_already_processed :
  Order.orderStatus o <> Order.pending ->
  out = refuse w 400 "Order already processed"%string.
Proof.
  intro H. unfold out, OrderRoutes.confirmCod. rewrite order_found.
  destruct (Order.orderStatus o); try reflexivity. contradiction.
Qed.

Lemma cod_confirms :
  Order.orderStatus o = Order.pending ->
  exists o',
    response out
    = Http.mkResponse 200 true "COD order confirmed successfully"%string
    /\ stored (Order._id o) (world out) = Some o'
    /\ inventory (world out)
       = fst (OrderRoutes.updateInventoryForOrder rt e mailSent o'
                                                  (inventory w))
    /\ Order.paymentStatus o' = Order.paymentStatus o
    /\ Order.orderStatus o' = Order.confirmed
    /\ Order.items o' = Order.items o
    /\ Order.statusHistory o'
       = (Order.statusHistory o ++ [hookRecord e Order.confirmed])%list.
Proof.
  intro H. unfold out, OrderRoutes.confirmCod.
  rewrite order_found, H. cbn [negb Order.Status_eqb].
  saved_as o' Hw.
  destruct Hw as (Hid & _ & Hi & Hs & Hp & _ & _ & _ & _ & Hh).
  exists o'.
  match goal with
  | |- context [OrderRoutes.afterConfirmation ?a ?b ?c ?d ?m ?x ?y] =>
      destruct (afterConfirmation_world a b c d m x y) as (Ho & Hinv & Hr)
  end.
  cbn [Order.fields Order.loaded] in *.
  rewrite Hr, Hinv. unfold stored. rewrite Ho. cbn [orders set_orders].
  rewrite H in Hh. cbn in Hh.
  repeat split; try assumption.
  apply find_replace; [apply (find_In _ _ _ order_found) | exact Hid].
Qed.

End ConfirmCod.

(** C3.  For a valid payment-verification request on a stored gateway
    order: when the order's payment is already completed the request is
    answered 400 "Payment already completed" and nothing is done, neither to
    the orders nor to the inventory, and nothing is sent; when the signature
    is not the keyed hash of [gatewayOrderId|gatewayPaymentId] under the
    gateway secret the request fails with status 400, again with nothing
    changed and nothing sent, and the answer is "Payment verification
    failed" unless the payment was already completed. *)
Theorem verify_payment_guards :
  forall (rt : Runtime) (e : Order.Env) (mailSent : bool) (userId : string)
         (r : OrderRoutes.VerifyRequest) (w : World) (o : Order.T),
    OrderRoutes.validVerify r = true ->
    OrderRoutes.findOrder (OrderRoutes.v_orderId r) userId
                          (Some Order.razorpay) (orders w) = Some o ->
    let out := OrderRoutes.verifyPayment rt e mailSent userId r w in
    (Order.paymentStatus o = Order.payment_completed ->
     response out
     = Http.mkResponse 400 false "Payment already completed"%string
     /\ world out = w
     /\ inventory (world out) = inventory w
     /\ effects out = [])
    /\ ((forall key,
            RAZORPAY_KEY_SECRET rt = Some key ->
            OrderRoutes.v_razorpaySignature r
            <> hmacSha256Hex rt key
                 (OrderRoutes.v_razorpayOrderId r ++ "|"
                    ++ OrderRoutes.v_razorpayPaymentId r)%string) ->
        Http.code (response out) = 400%Z
        /\ Http.success (response out) = false
        /\ world out = w
        /\ stored (Order._id o) (world out) = stored (Order._id o) w
        /\ effects out = []
        /\ (Order.paymentStatus o <> Order.payment_completed ->
            Http.message (response out)
            = "Payment verification failed"%string)).
Proof.
  intros rt e mailSent userId r w o Hvalid Hfound out.
  split.
  - intro Hdone.
    pose proof (verify_already_completed rt e mailSent userId r w o
                  Hvalid Hfound Hdone) as Hout.
    fold out in Hout. rewrite Hout. repeat split.
  - intro Hsig. apply signature_mismatch in Hsig.
    assert (Hcases :
      Order.paymentStatus o = Order.payment_completed
      \/ Order.paymentStatus o <> Order.payment_completed)
      by (destruct (Order.paymentStatus o); auto; right; discriminate).
    destruct Hcases as [Hdone | Hopen].
    + pose proof (verify_already_completed rt e mailSent userId r w o
                    Hvalid Hfound Hdone) as Hout.
      fold out in Hout. rewrite Hout. repeat split. contradiction.
    + pose proof (verify_bad_signature rt e mailSent userId r w o
                    Hvalid Hfound Hopen Hsig) as Hout.
      fold out in Hout. rewrite Hout. repeat split.
Qed.

Lemma verify_payment_guards_witness :
  response
    (OrderRoutes.verifyPayment sample_runtime sample_env true "u1"%string
       (sample_verify "secret:order_1|pay_1")
       (sample_world
          (sample_order Order.confirmed Order.razorpay
                        Order.payment_completed)))
  = Http.mkResponse 400 false "Payment already completed"%string
  /\ world
       (OrderRoutes.verifyPayment sample_runtime sample_env true "u1"%string
          (sample_verify "secret:order_1|pay_1")
          (sample_world
             (sample_order Order.confirmed Order.razorpay
                           Order.payment_completed)))
     = sample_world
         (sample_order Order.confirmed Order.razorpay
                       Order.payment_completed)
  /\ inventory
       (world
          (OrderRoutes.verifyPayment sample_runtime sample_env true
             "u1"%string (sample_verify "secret:order_1|pay_1")
             (sample_world
                (sample_order Order.confirmed Order.razorpay
                              Order.payment_completed))))
     = [sample_item]
  /\ effects
       (OrderRoutes.verifyPayment sample_runtime sample_env true "u1"%string
          (sample_verify "secret:order_1|pay_1")
          (sample_world
             (sample_order Order.confirmed Order.razorpay
                           Order.payment_completed)))
     = [].
Proof.
  refine (proj1
            (verify_payment_guards sample_runtime sample_env true "u1"%string
               (sample_verify "secret:order_1|pay_1")
               (sample_world
                  (sample_order Order.confirmed Order.razorpay
                                Order.payment_completed))
               (sample_order Order.confirmed Order.razorpay
                             Order.payment_completed)
               _ _) _).
  - reflexivity.
  - reflexivity.
  - reflexivity.
Defined.

(** ** Growth of the status history *)

(** C10, as stated, fails: a gateway order that an administrator has
    already confirmed and whose payment is then verified keeps its status,
    so the hook appends nothing and the history does not grow. *)
Lemma verified_payment_of_confirmed_order_adds_no_history :
  Http.success
    (response
       (OrderRoutes.verifyPayment sample_runtime sample_env true "u1"%string
          (sample_verify "secret:order_1|pay_1")
          (sample_world
             (sample_order Order.confirmed Order.razorpay
                           Order.payment_pending))))
  = true
  /\ option_map
       (fun o' => (Order.paymentStatus o', Order.orderStatus o',
                   List.length (Order.statusHistory o')))
       (stored "65a000000000000000000000"%string
          (world
             (OrderRoutes.verifyPayment sample_runtime sample_env true
                "u1"%string (sample_verify "secret:order_1|pay_1")
                (sample_world
                   (sample_order Order.confirmed Order.razorpay
                                 Order.payment_pending)))))
     = Some (Order.payment_completed, Order.confirmed,
             List.length
               (Order.statusHistory
                  (sample_order Order.confirmed Order.razorpay
                                Order.payment_pending))).
Proof. split; reflexivity. Qed.

(** C10, amended.  A successful status update by an administrator and a
    successful cancellation by the owner each append two records to the
    history of the stored order: the one the handler pushes, then the one
    the [pre('save')] hook pushes because the status changed.  A successful
    cash-on-delivery confirmation appends the hook's record alone.  A
    successful payment verification appends the hook's record alone when
    the order was not yet confirmed, and nothing when it already was. *)
Theorem status_history_growth :
  forall (e : Order.Env) (w : World) (o : Order.T),
    (forall adminId orderId r,
        AdminRoutes.validStatusRequest r = true ->
        find (fun x => String.eqb (Order.orderId x) orderId) (orders w)
        = Some o ->
        TransitionTable (Order.orderStatus o) (AdminRoutes.status r) ->
        exists o',
          stored (Order._id o)
                 (world (AdminRoutes.updateOrderStatus e adminId orderId r w))
          = Some o'
          /\ Order.statusHistory o'
             = Order.statusHistory o
                 ++ [adminRecord e adminId (Order.orderStatus o) r;
                     hookRecord e (AdminRoutes.status r)])
    /\ (forall refunded userId orderId reason,
           OrderRoutes.findOrder orderId userId None (orders w) = Some o ->
           cancellable (Order.orderStatus o) = true ->
           exists o',
             stored (Order._id o)
                    (world (OrderRoutes.cancel e refunded userId orderId
                                               reason w))
             = Some o'
             /\ Order.statusHistory o'
                = Order.statusHistory o
                    ++ [cancelRecord e reason;
                        hookRecord e Order.cancelled])
    /\ (forall rt mailSent userId orderId,
           OrderRoutes.findOrder orderId userId (Some Order.cod) (orders w)
           = Some o ->
           Order.orderStatus o = Order.pending ->
           exists o',
             stored (Order._id o)
                    (world (OrderRoutes.confirmCod rt e mailSent userId
                                                   orderId w))
             = Some o'
             /\ Order.statusHistory o'
                = Order.statusHistory o ++ [hookRecord e Order.confirmed])
    /\ (forall rt mailSent userId r,
           OrderRoutes.validVerify r = true ->
           OrderRoutes.findOrder (OrderRoutes.v_orderId r) userId
                                 (Some Order.razorpay) (orders w) = Some o ->
           Order.paymentStatus o <> Order.payment_completed ->
           RazorpayService.verifyPaymentSignature rt
             (OrderRoutes.v_razorpayOrderId r)
             (OrderRoutes.v_razorpayPaymentId r)
             (OrderRoutes.v_razorpaySignature r) = true ->
           exists o',
             stored (Order._id o)
                    (world (OrderRoutes.verifyPayment rt e mailSent userId
                                                      r w))
             = Some o'
             /\ (Order.orderStatus o <> Order.confirmed ->
                 Order.statusHistory o'
                 = Order.statusHistory o ++ [hookRecord e Order.confirmed])
             /\ (Order.orderStatus o = Order.confirmed ->
                 Order.statusHistory o' = Order.statusHistory o)).
Proof.
  intros e w o. split; [|split; [|split]].
  - intros adminId orderId r Hvalid Hfound Hstep.
    destruct (admin_accepts e adminId orderId r w o Hvalid Hfound Hstep)
      as (o' & _ & Hst & _ & Hh & _).
    exists o'. auto.
  - intros refunded userId orderId reason Hfound Hc.
    destruct (cancel_accepted e refunded userId orderId reason w o Hfound Hc)
      as (o' & _ & _ & _ & Hst & _ & Hh).
    exists o'. auto.
  - intros rt mailSent userId orderId Hfound Hp.
    destruct (cod_confirms rt e mailSent userId orderId w o Hfound Hp)
      as (o' & _ & Hst & _ & _ & _ & _ & Hh).
    exists o'. auto.
  - intros rt mailSent userId r Hvalid Hfound Hopen Hsig.
    destruct (verify_confirms rt e mailSent userId r w o Hvalid Hfound
                Hopen Hsig)
      as (o' & _ & Hst & _ & _ & _ & _ & Hh).
    exists o'. split; [exact Hst|]. split; intro Hs.
    + rewrite Hh.
      destruct (Order.Status_eqb Order.confirmed (Order.orderStatus o))
        eqn:E; [|reflexivity].
      apply Status_eqb_eq in E. congruence.
    + rewrite Hh, Hs. cbn. apply app_nil_r.
Qed.

Lemma status_history_growth_witness :
  exists o',
    stored "65a000000000000000000000"%string
      (world
         (OrderRoutes.confirmCod sample_runtime sample_env true "u1"%string
            "PZ210000123"%string
            (sample_world
               (sample_order Order.pending Order.cod
                             Order.payment_pending))))
    = Some o'
    /\ Order.statusHistory o' = [] ++ [hookRecord sample_env Order.confirmed].
Proof.
  refine (proj1 (proj2 (proj2
            (status_history_growth sample_env
               (sample_world
                  (sample_order Order.pending Order.cod
                                Order.payment_pending))
               (sample_order Order.pending Order.cod
                             Order.payment_pending))))
            sample_runtime true "u1"%string "PZ210000123"%string _ _).
  - reflexivity.
  - reflexivity.
Defined.

(** ** Pricing of an order item *)

Section Resolution.

Local Open Scope Q_scope.

Lemma sumPrices_app (l1 l2 : list Order.Priced) :
  sumPrices (l1 ++ l2) == sumPrices l1 + sumPrices l2.
Proof.
  induction l1 as [|p l1 IH].
  - change (sumPrices l2 == 0 + sumPrices l2). lra.
  - change (Order.price p + sumPrices (l1 ++ l2)
            == Order.price p + sumPrices l1 + sumPrices l2).
    lra.
Qed.

Variable choices : list PizzaOptions.Choice.

Lemma findAvailable_some (n : string) (c : PizzaOptions.Choice) :
  OrderRoutes.findAvailable n choices = Some c ->
  offered choices n = true
  /\ Order.name (OrderRoutes.snapshot c) = n
  /\ backed choices (OrderRoutes.snapshot c).
Proof.
  intro H. apply find_some in H. destruct H as [Hin Hp].
  apply andb_prop in Hp. destruct Hp as [Hn Ha].
  apply String.eqb_eq in Hn.
  split; [|split].
  - unfold offered. apply existsb_exists. exists c.
    rewrite Hn, String.eqb_refl, Ha. auto.
  - exact Hn.
  - exists c. auto.
Qed.

Lemma findAvailable_none (n : string) :
  OrderRoutes.findAvailable n choices = None -> offered choices n = false.
Proof.
  intro H. unfold offered.
  destruct (existsb _ choices) eqn:E; [|reflexivity].
  apply existsb_exists in E. destruct E as [c [Hin Hp]].
  pose proof (find_none _ _ H c Hin) as Hc. cbv beta in Hc. congruence.
Qed.

(** The [forEach] keeps, in order, the selections that are offered, and
    adds their prices to the running cost. *)
Lemma processMany_spec (wanted : list string) (cost : JS.number) :
  let out := OrderRoutes.processMany wanted choices cost in
  map Order.name (fst out) = filter (offered choices) wanted
  /\ Forall (backed choices) (fst out)
  /\ snd out == cost + sumPrices (fst out).
Proof.
  unfold OrderRoutes.processMany.
  set (step := fun (acc : list Order.Priced * JS.number) (n : string) =>
                 match OrderRoutes.findAvailable n choices with
                 | Some found =>
                     ((fst acc ++ [OrderRoutes.snapshot found])%list,
                      snd acc + PizzaOptions.price found)
                 | None => acc
                 end).
  assert (G : forall (done : list Order.Priced) (c : JS.number),
    exists more,
      fst (fold_left step wanted (done, c)) = (done ++ more)%list
      /\ map Order.name more = filter (offered choices) wanted
      /\ Forall (backed choices) more
      /\ snd (fold_left step wanted (done, c)) == c + sumPrices more).
  { induction wanted as [|n rest IH]; intros done c.
    - exists []. cbn [fold_left fst snd filter map].
      rewrite app_nil_r.
      repeat split; [constructor | change (sumPrices []) with 0; lra].
    - cbn [fold_left filter]. unfold step at 2 4. cbn [fst snd].
      destruct (OrderRoutes.findAvailable n choices) as [found|] eqn:F.
      + destruct (findAvailable_some _ _ F) as (Hoff & Hname & Hback).
        destruct (IH (done ++ [OrderRoutes.snapshot found])%list
                     (c + PizzaOptions.price found))
          as (more & Hfst & Hnames & Hall & Hcost).
        exists (OrderRoutes.snapshot found :: more).
        rewrite Hoff, Hfst, Hcost, <- app_assoc.
        split; [reflexivity|].
        split; [cbn [map]; rewrite Hname, Hnames; reflexivity|].
        split; [constructor; assumption|].
        change (sumPrices (OrderRoutes.snapshot found :: more))
          with (PizzaOptions.price found + sumPrices more).
        lra.
      + rewrite (findAvailable_none _ F). apply IH. }
  destruct (G [] cost) as (more & Hfst & Hnames & Hall & Hcost).
  cbn [app] in Hfst. cbv zeta. rewrite Hfst. auto.
Qed.

(** A single selection is kept when it is offered. *)
Lemma processOne_spec (wanted : option string) (cost : JS.number) :
  (forall c, In c choices -> PizzaOptions.name c <> EmptyString) ->
  let out := OrderRoutes.processOne wanted choices cost in
  option_map Order.name (fst out)
  = match wanted with
    | Some n => if offered choices n then Some n else None
    | None => None
    end
  /\ Forall (backed choices) (optionList (fst out))
  /\ snd out == cost + sumPrices (optionList (fst out)).
Proof.
  intro Hnames. unfold OrderRoutes.processOne.
  destruct wanted as [n|]; cbn.
  2:{ repeat split; [constructor | lra]. }
  destruct (JS.truthy n) eqn:T.
  - destruct (OrderRoutes.findAvailable n choices) as [found|] eqn:F.
    + destruct (findAvailable_some _ _ F) as (Hoff & Hname & Hback).
      rewrite Hoff. cbn.
      split; [f_equal; exact Hname|].
      split; [constructor; [exact Hback | constructor] | lra].
    + rewrite (findAvailable_none _ F). cbn.
      repeat split; [constructor | lra].
  - unfold JS.truthy in T. apply negb_false_iff in T.
    apply String.eqb_eq in T. subst n.
    assert (offered choices EmptyString = false) as ->.
    { unfold offered. destruct (existsb _ choices) eqn:E; [|reflexivity].
      apply existsb_exists in E. destruct E as [c [Hin Hp]].
      apply andb_prop in Hp. destruct Hp as [Hn _].
      apply String.eqb_eq in Hn. exfalso. exact (Hnames c Hin Hn). }
    cbn. repeat split; [constructor | lra].
Qed.

End Resolution.

(** ** Order creation *)

Lemma errorHandler_world (w : World) (fx : list Effect) (err : Thrown) :
  world (errorHandler w fx err) = w.
Proof.
  destruct err as [m | ms | f]; cbn;
    [| | destruct (String.eqb f "email"), (String.eqb f "orderId")];
    reflexivity.
Qed.

Lemma processItem_early w options item early :
  OrderRoutes.processItem w options item = inl early ->
  Http.success early = false /\ Http.code early = 400%Z.
Proof.
  unfold OrderRoutes.processItem.
  destruct (find _ (pizzas w)) as [pz|]; [|intros [= <-]; split; reflexivity].
  destruct (negb _); [intros [= <-]; split; reflexivity|].
  destruct (find _ (Pizza.sizes pz)); [|intros [= <-]; split; reflexivity].
  destruct (OrderRoutes.processCustomizations _ _). discriminate.
Qed.

Lemma processItems_early w options todo acc sub early :
  OrderRoutes.processItems w options todo acc sub = inl early ->
  Http.success early = false /\ Http.code early = 400%Z.
Proof.
  revert acc sub. induction todo as [|item rest IH]; intros acc sub;
    [discriminate|].
  cbn [OrderRoutes.processItems]. unfold bind.
  destruct (OrderRoutes.processItem w options item) as [x|oi] eqn:E.
  - intros [= <-]. apply (processItem_early _ _ _ _ E).
  - apply IH.
Qed.

(** What the handler has done when it has built its document. *)
Lemma build_spec rt e userId r w d :
  OrderRoutes.build rt e userId r w = inr d -> BuiltFrom rt e userId r w d.
Proof.
  unfold OrderRoutes.build, BuiltFrom.
  destruct (OrderRoutes.validCreate rt r) eqn:V; cbn [negb]; [|discriminate].
  destruct (pizzaOptions w) as [|opts others] eqn:P; [discriminate|].
  destruct (OrderRoutes.processItems w opts (OrderRoutes.items r) [] 0)
    as [early | [orderItems subtotal]] eqn:L; [discriminate|].
  intros [= <-]. exists opts, orderItems, subtotal. auto.
Qed.

(** An early return of the handler is a refusal. *)
Lemma build_early rt e userId r w early :
  OrderRoutes.build rt e userId r w = inl early ->
  Http.success early = false
  /\ (Http.code early = 400%Z \/ Http.code early = 500%Z).
Proof.
  unfold OrderRoutes.build.
  destruct (OrderRoutes.validCreate rt r); cbn [negb];
    [|intros [= <-]; split; [reflexivity | left; reflexivity]].
  destruct (pizzaOptions w) as [|opts others];
    [intros [= <-]; split; [reflexivity | right; reflexivity]|].
  destruct (OrderRoutes.processItems w opts (OrderRoutes.items r) [] 0)
    as [x | [orderItems subtotal]] eqn:L; [|discriminate].
  intros [= <-]. destruct (processItems_early _ _ _ _ _ _ L) as [H1 H2].
  split; [exact H1 | left; exact H2].
Qed.

(** The document the handler builds is new and has no order id: the id is
    the work of a [pre('save')] hook. *)
Lemma built_without_id rt e userId r w d :
  OrderRoutes.build rt e userId r w = inr d ->
  Order.isNew d = true /\ Order.orderId (Order.fields d) = EmptyString.
Proof.
  intro H. destruct (build_spec _ _ _ _ _ _ H) as (o & i & s & _ & _ & _ & ->).
  split; reflexivity.
Qed.

(** The whole handler: the early return of its first part, or the refusal of
    the document by [save]. *)
Lemma create_refused rt e gateway userId r w :
  OrderRoutes.create rt e gateway userId r w
  = match OrderRoutes.build rt e userId r w with
    | inl early => mkOutcome early w []
    | inr _ => mkOutcome orderIdRequired w []
    end.
Proof.
  unfold OrderRoutes.create.
  destruct (OrderRoutes.build rt e userId r w) as [early|d] eqn:B;
    [reflexivity|].
  destruct (built_without_id _ _ _ _ _ _ B) as [Hnew Hid].
  rewrite (save_new_without_id e d (orders w) Hnew Hid). reflexivity.
Qed.

(** The loop prices the request items one by one, in order, and adds every
    line total to the subtotal. *)
Lemma processItems_spec w options todo :
  forall acc sub orderItems subtotal,
    OrderRoutes.processItems w options todo acc sub
    = inr (orderItems, subtotal) ->
    exists priced,
      orderItems = acc ++ priced
      /\ Forall2 (fun req oi => OrderRoutes.processItem w options req = inr oi)
                 todo priced
      /\ (subtotal == sub + sumTotals priced)%Q.
Proof.
  induction todo as [|item rest IH]; intros acc sub orderItems subtotal H.
  - cbn in H. injection H as <- <-. exists [].
    rewrite app_nil_r. repeat split; [constructor|].
    change (sumTotals []) with 0%Q. lra.
  - cbn [OrderRoutes.processItems] in H.
    destruct (OrderRoutes.processItem w options item) as [early|oi] eqn:P;
      cbn [bind] in H; [discriminate|].
    destruct (IH _ _ _ _ H) as (priced & Hitems & Hall & Hsum).
    exists (oi :: priced).
    rewrite Hitems, <- app_assoc.
    repeat split; [constructor; assumption|].
    change (sumTotals (oi :: priced))
      with (Order.totalItemPrice oi + sumTotals priced)%Q.
    lra.
Qed.

(** The items and the pricing of a built document. *)
Lemma built_items rt e userId r w d :
  OrderRoutes.build rt e userId r w = inr d ->
  exists options subtotal,
    hd_error (pizzaOptions w) = Some options
    /\ Forall2 (fun req oi => OrderRoutes.processItem w options req = inr oi)
               (OrderRoutes.items r) (Order.items (Order.fields d))
    /\ (subtotal == sumTotals (Order.items (Order.fields d)))%Q
    /\ Order.pricing (Order.fields d) = OrderRoutes.calculatePricing subtotal.
Proof.
  intro H.
  destruct (build_spec _ _ _ _ _ _ H)
    as (options & orderItems & subtotal & _ & Hopt & Hitems & ->).
  exists options, subtotal.
  apply processItems_spec in Hitems.
  destruct Hitems as (priced & -> & Hall & Hsum). cbn [app].
  cbn [Order.fields Order.update OrderRoutes.newOrder Order.items
       Order.pricing Order.calculateEstimatedDeliveryTime
       Order.set_estimatedDeliveryTime].
  repeat split; [exact Hopt | exact Hall | lra].
Qed.

(** C1.  Every order the creation handler builds from a request carries a
    pricing snapshot whose subtotal is the sum of the line totals of its
    items, whose tax is the subtotal times 0.05 rounded to the nearest
    integer, whose delivery fee is 50, whose discount is 0, and whose total
    is subtotal + tax + delivery fee - discount.  One item of base price
    299, multiplier 1, no customization and quantity 2 gives subtotal 598,
    tax 30, delivery fee 50 and total 678. *)
Theorem order_pricing_snapshot :
  (forall (rt : Runtime) (e : Order.Env) (userId : string)
          (r : OrderRoutes.CreateRequest) (w : World) (d : Order.Doc),
      OrderRoutes.build rt e userId r w = inr d ->
      let o := Order.fields d in
      let p := Order.pricing o in
      (Order.subtotal p == sumTotals (Order.items o))%Q
      /\ Order.tax p = JS.round (Order.subtotal p * (5 # 100))%Q
      /\ Order.deliveryFee p = 50%Q
      /\ Order.discount p = 0%Q
      /\ (Order.total p
          == Order.subtotal p + Order.tax p + Order.deliveryFee p
             - Order.discount p)%Q)
  /\ (OrderRoutes.build sample_runtime sample_env "u1"%string
        (sample_request None Order.cod) catalog_world
      = inr (Order.mkDoc scenario_order true false)
      /\ map (fun i => (Order.quantity i, Order.itemPrice i))
             (Order.items scenario_order) = [(2%Z, 299%Q)]
      /\ Order.pricing scenario_order
         = Order.mkPricing 598 50 30 0 678).
Proof.
  split.
  - intros rt e userId r w d Hd o p.
    destruct (built_items rt e userId r w d Hd)
      as (options & subtotal & _ & _ & Hsum & Hpricing).
    subst p o. rewrite Hpricing.
    unfold OrderRoutes.calculatePricing.
    cbn [Order.subtotal Order.tax Order.deliveryFee Order.discount
         Order.total].
    repeat split; try reflexivity; lra.
  - repeat split; reflexivity.
Qed.

Lemma order_pricing_snapshot_witness :
  (Order.subtotal (Order.pricing scenario_order)
   == sumTotals (Order.items scenario_order))%Q
  /\ Order.tax (Order.pricing scenario_order)
     = JS.round (Order.subtotal (Order.pricing scenario_order) * (5 # 100))%Q
  /\ Order.deliveryFee (Order.pricing scenario_order) = 50%Q
  /\ Order.discount (Order.pricing scenario_order) = 0%Q
  /\ (Order.total (Order.pricing scenario_order)
      == Order.subtotal (Order.pricing scenario_order)
         + Order.tax (Order.pricing scenario_order)
         + Order.deliveryFee (Order.pricing scenario_order)
         - Order.discount (Order.pricing scenario_order))%Q.
Proof.
  refine (proj1 order_pricing_snapshot sample_runtime sample_env
            "u1"%string (sample_request None Order.cod) catalog_world
            (Order.mkDoc scenario_order true false) _).
  reflexivity.
Defined.

Section UnitPrice.

Local Open Scope Q_scope.

Variable options : PizzaOptions.T.
Hypothesis named : namedCatalog options.

Lemma processCustomizations_spec (sel : option OrderRoutes.Selection) :
  let out := OrderRoutes.processCustomizations options sel in
  Resolved options (selectionOf sel) (fst out)
  /\ snd out == sumPrices (entries (fst out)).
Proof.
  unfold OrderRoutes.processCustomizations.
  destruct sel as [s|].
  2:{ cbn. unfold Resolved. cbn. repeat split; try constructor. }
  assert (Hb : forall c, In c (PizzaOptions.bases options) ->
                         PizzaOptions.name c <> EmptyString)
    by (intros c H; apply named; apply in_or_app; auto).
  assert (Hs : forall c, In c (PizzaOptions.sauces options) ->
                         PizzaOptions.name c <> EmptyString)
    by (intros c H; apply named; apply in_or_app; auto).
  pose proof (processOne_spec (PizzaOptions.bases options)
                (OrderRoutes.base s) 0 Hb) as H1.
  destruct (OrderRoutes.processOne (OrderRoutes.base s)
              (PizzaOptions.bases options) 0) as [b c1].
  pose proof (processOne_spec (PizzaOptions.sauces options)
                (OrderRoutes.sauce s) c1 Hs) as H2.
  destruct (OrderRoutes.processOne (OrderRoutes.sauce s)
              (PizzaOptions.sauces options) c1) as [sc c2].
  pose proof (processMany_spec (PizzaOptions.cheeses options)
                (OrderRoutes.cheese s) c2) as H3.
  destruct (OrderRoutes.processMany (OrderRoutes.cheese s)
              (PizzaOptions.cheeses options) c2) as [ch c3].
  pose proof (processMany_spec (PizzaOptions.vegetables options)
                (OrderRoutes.vegetables s) c3) as H4.
  destruct (OrderRoutes.processMany (OrderRoutes.vegetables s)
              (PizzaOptions.vegetables options) c3) as [vg c4].
  pose proof (processMany_spec (PizzaOptions.meats options)
                (OrderRoutes.meats s) c4) as H5.
  destruct (OrderRoutes.processMany (OrderRoutes.meats s)
              (PizzaOptions.meats options) c4) as [mt c5].
  cbv zeta in *. cbn [fst snd] in *.
  destruct H1 as (N1 & B1 & C1), H2 as (N2 & B2 & C2),
           H3 as (N3 & B3 & C3), H4 as (N4 & B4 & C4),
           H5 as (N5 & B5 & C5).
  split.
  - unfold Resolved, selectionOf, keepOne.
    cbn [Order.base Order.sauce Order.cheese Order.vegetables Order.meats].
    repeat split; assumption.
  - unfold entries.
    cbn [Order.base Order.sauce Order.cheese Order.vegetables Order.meats].
    rewrite !sumPrices_app. lra.
Qed.

Variable w : World.
Variable item : OrderRoutes.ItemRequest.

Lemma processItem_priced (oi : Order.Item) :
  OrderRoutes.processItem w options item = inr oi ->
  exists pz so,
    pizzaOf w item pz so
    /\ Order.quantity oi = OrderRoutes.quantity item
    /\ Order.itemPrice oi
       == Pizza.basePrice pz * Pizza.priceMultiplier so
          + sumPrices (entries (Order.customizations oi))
    /\ Order.totalItemPrice oi
       = Order.itemPrice oi * inject_Z (OrderRoutes.quantity item)
    /\ Resolved options (selectionOf (OrderRoutes.customizations item))
                (Order.customizations oi).
Proof.
  unfold OrderRoutes.processItem, pizzaOf.
  destruct (find _ (pizzas w)) as [pz|] eqn:Hp; [|discriminate].
  destruct (Pizza.isAvailable pz) eqn:Ha; cbn [negb]; [|discriminate].
  destruct (find _ (Pizza.sizes pz)) as [so|] eqn:Hs; [|discriminate].
  pose proof (processCustomizations_spec (OrderRoutes.customizations item))
    as H.
  destruct (OrderRoutes.processCustomizations options
              (OrderRoutes.customizations item)) as [cust cost].
  cbv zeta in H. cbn [fst snd] in H. destruct H as [Hres Hcost].
  intro E. injection E as <-. exists pz, so.
  cbn [Order.quantity Order.itemPrice Order.totalItemPrice
       Order.customizations].
  split; [auto|].
  split; [reflexivity|].
  split; [rewrite Hcost; reflexivity|].
  split; [reflexivity | exact Hres].
Qed.

(** Whatever is selected, an item of an available pizza in one of its sizes
    is priced: no selection makes the handler refuse. *)
Lemma processItem_accepts (pz : Pizza.T) (so : Pizza.SizeOption) :
  pizzaOf w item pz so ->
  exists oi, OrderRoutes.processItem w options item = inr oi.
Proof.
  intros (Hp & Ha & Hs). unfold OrderRoutes.processItem.
  rewrite Hp, Ha, Hs. cbn [negb].
  destruct (OrderRoutes.processCustomizations options
              (OrderRoutes.customizations item)) as [cust cost].
  eexists. reflexivity.
Qed.

End UnitPrice.

(** C8.  The unit price of every order item the creation handler prices is
    the pizza's base price times the multiplier of the requested size plus
    the sum of the captured customization prices; the captured
    customizations are exactly the selections for which the singleton
    catalog has an entry of that name marked available, each with that
    entry's price.  Selections of unknown or unavailable names are absent
    from the snapshot and from the price, and never make the handler refuse
    the item.  The items of the order the handler builds answer the
    request's items one for one, each priced so.  (The catalog's bases and
    sauces have non-empty names, as its schema requires.) *)
Theorem item_unit_price :
  (forall (w : World) (options : PizzaOptions.T)
          (item : OrderRoutes.ItemRequest) (oi : Order.Item),
      namedCatalog options ->
      OrderRoutes.processItem w options item = inr oi ->
      exists pz so,
        pizzaOf w item pz so
        /\ (Order.itemPrice oi
            == Pizza.basePrice pz * Pizza.priceMultiplier so
               + sumPrices (entries (Order.customizations oi)))%Q
        /\ Resolved options (selectionOf (OrderRoutes.customizations item))
                    (Order.customizations oi))
  /\ (forall (w : World) (options : PizzaOptions.T)
             (item : OrderRoutes.ItemRequest) (pz : Pizza.T)
             (so : Pizza.SizeOption),
         pizzaOf w item pz so ->
         exists oi, OrderRoutes.processItem w options item = inr oi)
  /\ (forall (rt : Runtime) (e : Order.Env) (userId : string)
             (r : OrderRoutes.CreateRequest) (w : World) (d : Order.Doc),
         OrderRoutes.build rt e userId r w = inr d ->
         exists options,
           hd_error (pizzaOptions w) = Some options
           /\ Forall2
                (fun req oi =>
                   OrderRoutes.processItem w options req = inr oi)
                (OrderRoutes.items r) (Order.items (Order.fields d))).
Proof.
  split; [|split].
  - intros w options item oi Hnamed Hoi.
    destruct (processItem_priced options Hnamed w item oi Hoi)
      as (pz & so & Hpz & _ & Hprice & _ & Hres).
    exists pz, so. auto.
  - intros w options item pz so H.
    exact (processItem_accepts options w item pz so H).
  - intros rt e userId r w d Hd.
    destruct (built_items rt e userId r w d Hd)
      as (options & subtotal & Hopt & Hall & _).
    exists options. auto.
Qed.

(** The item of the customized order: 299 + 99 + 40 + 80. *)
Example customized_order_item :
  OrderRoutes.processItem catalog_world sample_options
    (OrderRoutes.mkItemRequest "64a000000000000000000001" 2 "medium"
                               (Some sample_selection))
  = inr (hd (Order.mkItem "" 0 "" OrderRoutes.noCustomizations 0 0)
            (Order.items customized_order))
  /\ map (fun i => (Order.itemPrice i, Order.totalItemPrice i,
                    map Order.name (entries (Order.customizations i))))
         (Order.items customized_order)
     = [(518%Q, 1036%Q, ["Cheese Burst"; "Mozzarella"; "Chicken"]%string)].
Proof. split; reflexivity. Qed.

Lemma item_unit_price_witness :
  exists pz so,
    pizzaOf catalog_world
            (OrderRoutes.mkItemRequest "64a000000000000000000001" 2 "medium"
                                       (Some sample_selection))
            pz so
    /\ (518
        == Pizza.basePrice pz * Pizza.priceMultiplier so
           + sumPrices
               [Order.mkPriced "Cheese Burst" 99;
                Order.mkPriced "Mozzarella" 40;
                Order.mkPriced "Chicken" 80])%Q
    /\ Resolved sample_options sample_selection
                (Order.mkCustomizations
                   (Some (Order.mkPriced "Cheese Burst" 99)) None
                   [Order.mkPriced "Mozzarella" 40] []
                   [Order.mkPriced "Chicken" 80]).
Proof.
  refine (proj1 item_unit_price catalog_world sample_options
            (OrderRoutes.mkItemRequest "64a000000000000000000001" 2 "medium"
                                       (Some sample_selection))
            (Order.mkItem "64a000000000000000000001" 2 "medium"
               (Order.mkCustomizations
                  (Some (Order.mkPriced "Cheese Burst" 99)) None
                  [Order.mkPriced "Mozzarella" 40] []
                  [Order.mkPriced "Chicken" 80])
               518 1036)
            _ _).
  - intros c Hc.
    repeat (destruct Hc as [<- | Hc]; [discriminate|]).
    destruct Hc.
  - reflexivity.
Defined.

(** ** Failure of the payment gateway at creation *)



(** The creation of the scenario with the gateway as payment method, run:
    the answer is 400 for the missing order id, and the store has no
    order. *)
Example gateway_order_is_not_stored :
  response
    (OrderRoutes.create sample_runtime sample_env None "u1"%string
       (sample_request None Order.razorpay) catalog_world)
  = orderIdRequired
  /\ orders
       (world
          (OrderRoutes.create sample_runtime sample_env None "u1"%string
             (sample_request None Order.razorpay) catalog_world))
     = [].
Proof. split; reflexivity. Qed.

(** ** Consumption of the inventory by an order *)

Section Consumption.

Local Open Scope Q_scope.

Lemma nth_applyAt {A} (f : A -> A) (l : list A) :
  forall k j,
    nth_error (applyAt k f l) j
    = if Nat.eqb j k then option_map f (nth_error l j) else nth_error l j.
Proof.
  induction l as [|x rest IH]; intros k j.
  - cbn. destruct j, (Nat.eqb _ k); reflexivity.
  - destruct k as [|k], j as [|j]; cbn; try reflexivity. apply IH.
Qed.

Lemma map_applyAt {A B} (g : A -> B) (f : A -> A) (l : list A) :
  (forall x, g (f x) = g x) ->
  forall k, map g (applyAt k f l) = map g l.
Proof.
  intros Hf. induction l as [|x rest IH]; intros [|k]; cbn;
    rewrite ?Hf, ?IH; reflexivity.
Qed.

Lemma firstIndex_shape (test : string -> bool) (l l' : list Inventory.Item) :
  map shape l = map shape l' ->
  firstIndex (fun i => test (Inventory.name i) && Inventory.isActive i) l
  = firstIndex (fun i => test (Inventory.name i) && Inventory.isActive i) l'.
Proof.
  revert l'. induction l as [|x rest IH]; intros [|y rest'] H;
    try discriminate; [reflexivity|].
  cbn in H. injection H as Hn Ha _ _ Hrest. cbn.
  rewrite Hn, Ha, (IH _ Hrest). reflexivity.
Qed.

Variable rt : Runtime.
Variable e : Order.Env.
Variable orderId : string.

Lemma updateStock_shape (now : Z) (act : string) (q : Q)
      (why who ord : option string) (i r : Inventory.Item) :
  Inventory.updateStock now act q why who ord i = inr r ->
  shape r = shape i.
Proof.
  unfold Inventory.updateStock.
  destruct (Inventory.applyAction now act q i) as [err|d] eqn:A;
    cbn [bind]; [discriminate|].
  assert (Hd : shape d = shape i).
  { unfold Inventory.applyAction in A.
    destruct (String.eqb act "restock");
      [injection A as <-; reflexivity|].
    destruct (String.eqb act "consumption" || String.eqb act "wastage");
      [injection A as <-; reflexivity|].
    destruct (String.eqb act "adjustment");
      [injection A as <-; reflexivity | discriminate]. }
  unfold Inventory.save, Inventory.preSave.
  match goal with
  | |- (if ?c then _ else _) = _ -> _ => destruct c; [discriminate|]
  end.
  intro E. injection E as <-. rewrite <- Hd.
  unfold Inventory.clampStock.
  destruct (JS.ltb (Inventory.currentStock d) 0); reflexivity.
Qed.

Lemma consumed_shape (q : Z) (i : Inventory.Item) :
  shape (consumed e orderId q i) = shape i.
Proof.
  unfold consumed.
  destruct (Inventory.updateStock _ _ _ _ _ _ i) as [err|r] eqn:U;
    [reflexivity|].
  exact (updateStock_shape _ _ _ _ _ _ _ _ U).
Qed.

Lemma consumed_stock (q : Z) (i : Inventory.Item) :
  Inventory.minStockLevel i < Inventory.maxStockLevel i ->
  Inventory.currentStock (consumed e orderId q i)
  = consumeStock (inject_Z q) (Inventory.currentStock i).
Proof.
  intro Hwf. unfold consumed.
  destruct (updateStock_after (Order.now e) (inject_Z q)
              (Some ("Used in order " ++ orderId)%string) None (Some orderId)
              i Hwf "consumption"%string
              (Inventory.set_currentStock
                 (Inventory.currentStock i - inject_Z q) i)
              eq_refl eq_refl eq_refl eq_refl)
    as (r & Hr & Hcur & _).
  rewrite Hr. exact Hcur.
Qed.

Lemma updateFirst_applyAt (test : Inventory.Item -> bool)
      (f : Inventory.Item -> result string Inventory.Item)
      (coll : list Inventory.Item) :
  OrderRoutes.updateFirst test f coll
  = match firstIndex test coll with
    | Some k =>
        applyAt k (fun x => match f x with inr x' => x' | inl _ => x end) coll
    | None => coll
    end.
Proof.
  induction coll as [|x rest IH]; [reflexivity|].
  cbn. destruct (test x); [destruct (f x); reflexivity|].
  rewrite IH. destruct (firstIndex test rest); reflexivity.
Qed.

Lemma updateInventoryItem_applyAt (n : option string) (q : Z)
      (coll : list Inventory.Item) :
  OrderRoutes.updateInventoryItem rt e n q orderId coll
  = match servedAt rt coll n with
    | Some k => applyAt k (consumed e orderId q) coll
    | None => coll
    end.
Proof.
  unfold OrderRoutes.updateInventoryItem, servedAt.
  destruct (OrderRoutes.nameTest rt n) as [test|]; [|reflexivity].
  apply updateFirst_applyAt.
Qed.

Lemma updateInventoryItem_shape (n : option string) (q : Z)
      (coll : list Inventory.Item) :
  map shape (OrderRoutes.updateInventoryItem rt e n q orderId coll)
  = map shape coll.
Proof.
  rewrite updateInventoryItem_applyAt.
  destruct (servedAt rt coll n); [|reflexivity].
  apply map_applyAt. apply consumed_shape.
Qed.

Lemma servedAt_shape (coll coll' : list Inventory.Item)
      (n : option string) :
  map shape coll = map shape coll' -> servedAt rt coll n = servedAt rt coll' n.
Proof.
  intro H. unfold servedAt.
  destruct (OrderRoutes.nameTest rt n); [|reflexivity].
  apply firstIndex_shape. exact H.
Qed.

End Consumption.

Section Drain.

Local Open Scope Q_scope.

Lemma total_nonneg (qs : list Q) :
  Forall (fun q => 0 <= q) qs -> 0 <= total qs.
Proof.
  induction 1 as [|q qs Hq _ IH].
  - apply Qle_refl.
  - change (total (q :: qs)) with (q + total qs). lra.
Qed.

(** Consumptions of non-negative quantities take their total from the
    stock, and leave 0 when the total exceeds it. *)
Lemma drain_total (qs : list Q) :
  Forall (fun q => 0 <= q) qs ->
  forall s,
    0 <= s ->
    0 <= drain qs s
    /\ (total qs <= s -> drain qs s == s - total qs)
    /\ (s < total qs -> drain qs s == 0).
Proof.
  induction 1 as [|q qs Hq Hqs IH]; intros s Hs.
  - change (drain [] s) with s. change (total []) with 0.
    repeat split; intros; lra.
  - change (drain (q :: qs) s) with (drain qs (consumeStock q s)).
    change (total (q :: qs)) with (q + total qs).
    pose proof (total_nonneg _ Hqs) as Ht.
    unfold consumeStock.
    destruct (JS.ltb (s - q) 0) eqn:E.
    + apply JS_ltb_iff in E.
      destruct (IH 0 (Qle_refl 0)) as (H0 & H1 & H2).
      split; [exact H0|]. split; intro H; [lra|].
      destruct (Qlt_le_dec 0 (total qs)) as [Hpos | Hzero].
      * exact (H2 Hpos).
      * rewrite (H1 Hzero). lra.
    + apply JS_ltb_false_iff in E.
      destruct (IH (s - q) E) as (H0 & H1 & H2).
      split; [exact H0|]. split; intro H.
      * rewrite H1 by lra. lra.
      * apply H2. lra.
Qed.

End Drain.

Section ConsumptionByOrder.

Local Open Scope Q_scope.

Variable rt : Runtime.
Variable e : Order.Env.

Lemma fold_left_map {A B C} (f : A -> C -> A) (g : B -> C) (l : list B) :
  forall a, fold_left f (map g l) a = fold_left (fun a x => f a (g x)) l a.
Proof. induction l as [|x l IH]; intro a; cbn; [reflexivity | apply IH]. Qed.

Lemma consumeForOrder_calls (o : Order.T) (coll : list Inventory.Item) :
  OrderRoutes.consumeForOrder rt e o coll
  = fold_left
      (fun acc c =>
         OrderRoutes.updateInventoryItem rt e (fst c) (snd c)
                                         (Order.orderId o) acc)
      (calls o) coll.
Proof.
  unfold OrderRoutes.consumeForOrder, calls.
  generalize (Order.orderId o) as oid. intro oid.
  revert coll. induction (Order.items o) as [|item rest IH]; intro coll.
  - reflexivity.
  - cbn [fold_left flat_map]. rewrite fold_left_app, IH. f_equal.
    unfold OrderRoutes.consumeForItem. rewrite fold_left_map. reflexivity.
Qed.

Variable coll0 : list Inventory.Item.

Lemma levelsOrdered_shape (l l' : list Inventory.Item) :
  map shape l = map shape l' ->
  Forall levelsOrdered l' -> Forall levelsOrdered l.
Proof.
  revert l'. induction l as [|x l IH]; intros [|y l'] H Hall;
    try discriminate; constructor.
  - cbn in H. injection H as _ _ Hlo Hhi _.
    inversion Hall as [|? ? Hy _]. unfold levelsOrdered in *.
    rewrite Hlo, Hhi. exact Hy.
  - cbn in H. injection H as _ _ _ _ Hrest.
    inversion Hall. eapply IH; eassumption.
Qed.

Hypothesis levels : Forall levelsOrdered coll0.

Lemma fold_calls_stock (oid : string) (cs : list (option string * Z)) :
  forall coll,
    map shape coll = map shape coll0 ->
    let coll' :=
      fold_left
        (fun acc c =>
           OrderRoutes.updateInventoryItem rt e (fst c) (snd c) oid acc)
        cs coll in
    map shape coll' = map shape coll0
    /\ forall k,
        option_map Inventory.currentStock (nth_error coll' k)
        = option_map (drain (charges rt coll0 k cs))
                     (option_map Inventory.currentStock (nth_error coll k)).
Proof.
  induction cs as [|[n q] cs IH]; intros coll Hshape.
  - cbn. split; [exact Hshape|].
    intro k. destruct (nth_error coll k); reflexivity.
  - cbn [fold_left fst snd].
    pose proof (updateInventoryItem_shape rt e oid n q coll) as Hstep.
    destruct (IH _ (eq_trans Hstep Hshape)) as [Hs Hk].
    cbv zeta. split; [exact Hs|].
    intro k. rewrite Hk. clear Hk Hs IH.
    rewrite updateInventoryItem_applyAt.
    unfold charges. cbn [filter fst snd]. unfold chargedTo at 2.
    rewrite <- (servedAt_shape rt coll coll0 n Hshape).
    destruct (servedAt rt coll n) as [j|]; [|reflexivity].
    rewrite nth_applyAt, Nat.eqb_sym.
    destruct (Nat.eqb j k) eqn:J; [|reflexivity].
    cbn [map]. destruct (nth_error coll k) as [x|] eqn:X; [|reflexivity].
    cbn [option_map]. f_equal.
    rewrite consumed_stock; [reflexivity|].
    pose proof (levelsOrdered_shape _ _ Hshape levels) as Hall.
    rewrite Forall_forall in Hall. apply Hall.
    eapply nth_error_In. exact X.
Qed.

Lemma total_app (l1 l2 : list Q) : total (l1 ++ l2) == total l1 + total l2.
Proof.
  induction l1 as [|q l1 IH].
  - change (total l2 == 0 + total l2). lra.
  - change (q + total (l1 ++ l2) == q + total l1 + total l2). lra.
Qed.

Lemma total_repeat (q : Z) (names : list (option string)) (k : nat) :
  total (charges rt coll0 k (map (fun n => (n, q)) names))
  == inject_Z q
     * inject_Z (Z.of_nat (List.length
                             (filter (chargedTo rt coll0 k) names))).
Proof.
  unfold charges. induction names as [|n names IH].
  - cbn [map filter List.length]. change (total []) with 0.
    change (inject_Z (Z.of_nat 0)) with 0. ring.
  - cbn [map filter fst snd]. destruct (chargedTo rt coll0 k n).
    + cbn [map List.length snd].
      change (inject_Z q
              + total (map (fun c : option string * Z => inject_Z (snd c))
                         (filter (fun c => chargedTo rt coll0 k (fst c))
                                 (map (fun n => (n, q)) names)))
              == inject_Z q
                 * inject_Z (Z.of_nat (S (List.length
                                            (filter (chargedTo rt coll0 k) names))))).
      rewrite IH, Nat2Z.inj_succ. unfold Z.succ. rewrite inject_Z_plus.
      ring.
    + exact IH.
Qed.

Lemma total_charges (o : Order.T) (k : nat) :
  total (charges rt coll0 k (calls o)) == demand rt coll0 o k.
Proof.
  unfold calls, demand.
  induction (Order.items o) as [|item rest IH].
  - cbn. lra.
  - cbn [flat_map fold_right]. unfold charges in *.
    rewrite filter_app, map_app, total_app, IH.
    pose proof (total_repeat (Order.quantity item)
                  (OrderRoutes.ingredientNames (Order.customizations item))
                  k) as H.
    unfold charges in H. rewrite H. unfold references. reflexivity.
Qed.

Lemma charges_nonneg (o : Order.T) (k : nat) :
  Forall (fun i => (0 <= Order.quantity i)%Z) (Order.items o) ->
  Forall (fun q => 0 <= q) (charges rt coll0 k (calls o)).
Proof.
  intro H. unfold charges, calls.
  apply Forall_map. apply Forall_forall. intros [n q] Hin.
  apply filter_In in Hin. destruct Hin as [Hin _].
  apply in_flat_map in Hin. destruct Hin as (item & Hitem & Hn).
  apply in_map_iff in Hn. destruct Hn as (n' & E & _).
  injection E as _ <-. cbn [snd].
  rewrite Forall_forall in H. specialize (H item Hitem).
  unfold Qle. cbn. lia.
Qed.

(** The stock of every item after the order has been charged. *)
Lemma consumeForOrder_stock (o : Order.T) (k : nat) (i : Inventory.Item) :
  Forall (fun it => (0 <= Order.quantity it)%Z) (Order.items o) ->
  nth_error coll0 k = Some i ->
  0 <= Inventory.currentStock i ->
  exists i',
    nth_error (OrderRoutes.consumeForOrder rt e o coll0) k = Some i'
    /\ Inventory.name i' = Inventory.name i
    /\ 0 <= Inventory.currentStock i'
    /\ (demand rt coll0 o k <= Inventory.currentStock i ->
        Inventory.currentStock i'
        == Inventory.currentStock i - demand rt coll0 o k)
    /\ (Inventory.currentStock i < demand rt coll0 o k ->
        Inventory.currentStock i' == 0).
Proof.
  intros Hq Hi Hstock.
  rewrite consumeForOrder_calls.
  destruct (fold_calls_stock (Order.orderId o) (calls o) coll0 eq_refl)
    as [Hshape Hk].
  specialize (Hk k). rewrite Hi in Hk. cbn [option_map] in Hk.
  pose proof (f_equal (fun l => nth_error l k) Hshape) as Hn.
  cbv beta in Hn. rewrite !nth_error_map, Hi in Hn.
  destruct (nth_error (fold_left _ (calls o) coll0) k) as [i'|];
    [|discriminate].
  cbn [option_map] in Hk, Hn. injection Hk as Hk. injection Hn as Hname _ _ _.
  exists i'. split; [reflexivity|]. split; [exact Hname|].
  rewrite Hk.
  destruct (drain_total _ (charges_nonneg o k Hq) _ Hstock)
    as (H0 & H1 & H2).
  rewrite <- (total_charges o k). auto.
Qed.

End ConsumptionByOrder.

(** The alert pass flags items and leaves names and stocks alone. *)
Lemma alerts_keep_stock (mailSent : bool) (coll : list Inventory.Item)
      (k : nat) :
  option_map (fun i => (Inventory.name i, Inventory.currentStock i))
             (nth_error (fst (OrderRoutes.checkAndSendLowStockAlerts
                                mailSent coll)) k)
  = option_map (fun i => (Inventory.name i, Inventory.currentStock i))
               (nth_error coll k).
Proof.
  unfold OrderRoutes.checkAndSendLowStockAlerts.
  destruct (filter OrderRoutes.needsAlert coll) as [|l ls];
    [reflexivity|].
  destruct mailSent; [|reflexivity].
  cbn [fst]. rewrite nth_error_map.
  destruct (nth_error coll k) as [i|]; [|reflexivity].
  cbn [option_map].
  destruct (existsb _ (l :: ls)); reflexivity.
Qed.

Lemma updateInventoryForOrder_charged rt e mailSent o coll :
  ledgerValid coll ->
  Forall (fun it => (0 <= Order.quantity it)%Z) (Order.items o) ->
  Charged rt o coll
          (fst (OrderRoutes.updateInventoryForOrder rt e mailSent o coll)).
Proof.
  intros [Hstock Hlevels] Hq k i Hi.
  assert (Hs : (0 <= Inventory.currentStock i)%Q).
  { rewrite Forall_forall in Hstock. apply Hstock.
    eapply nth_error_In. exact Hi. }
  destruct (consumeForOrder_stock rt e coll Hlevels o k i Hq Hi Hs)
    as (i1 & H1 & Hname & _ & Hle & Hlt).
  unfold OrderRoutes.updateInventoryForOrder.
  pose proof (alerts_keep_stock mailSent
                (OrderRoutes.consumeForOrder rt e o coll) k) as Ha.
  rewrite H1 in Ha.
  destruct (nth_error (fst (OrderRoutes.checkAndSendLowStockAlerts _ _)) k)
    as [i'|]; [|discriminate].
  cbn [option_map] in Ha. injection Ha as Hn Hc.
  exists i'. rewrite Hn, Hc. auto.
Qed.

(** The demand depends on the order through its items only. *)
Lemma items_quantity_of_order (o o' : Order.T) rt coll k :
  Order.items o' = Order.items o -> demand rt coll o' k = demand rt coll o k.
Proof. intro H. unfold demand. rewrite H. reflexivity. Qed.

Lemma Charged_items rt (o o' : Order.T) before after :
  Order.items o' = Order.items o ->
  Charged rt o' before after -> Charged rt o before after.
Proof.
  intros H C k i Hi. destruct (C k i Hi) as (i' & H1 & H2 & H3 & H4).
  exists i'. rewrite <- (items_quantity_of_order o o' rt before k H). auto.
Qed.




(** ** What the requests keep of the stored orders *)

Lemma written_core (e : Order.Env) (d : Order.Doc) :
  JS.truthy (Order.orderId (Order.fields d)) = true ->
  core (written e d) = core (Order.fields d).
Proof.
  intro H. unfold written, Order.preSave_statusHistory, Order.preSave_orderId.
  rewrite H.
  destruct d as [o n m]. cbn [Order.fields] in *.
  unfold Order.isModified_orderStatus, Order.update.
  cbn [Order.fields Order.isNew Order.orderStatusModified].
  destruct (m && negb n); reflexivity.
Qed.

Lemma replace_replace (o1 o2 : Order.T) (coll : list Order.T) :
  Order._id o2 = Order._id o1 ->
  Order.replace o2 (Order.replace o1 coll) = Order.replace o2 coll.
Proof.
  intro H. induction coll as [|x rest IH]; [reflexivity|].
  cbn [Order.replace]. rewrite H.
  destruct (String.eqb (Order._id x) (Order._id o1)) eqn:E.
  - cbn [Order.replace]. rewrite H, String.eqb_refl. reflexivity.
  - cbn [Order.replace]. rewrite H, E. f_equal. exact IH.
Qed.

Lemma replace_Forall2 (R : Order.T -> Order.T -> Prop)
      (found o' : Order.T) (coll : list Order.T) :
  (forall x, R x x) ->
  NoDup (map Order._id coll) ->
  In found coll ->
  Order._id o' = Order._id found ->
  R found o' ->
  Forall2 R coll (Order.replace o' coll).
Proof.
  intros Hrefl Hnd Hin Hid HR.
  assert (Hsame : forall l, Forall2 R l l)
    by (induction l; constructor; auto).
  induction coll as [|x rest IH]; [constructor|].
  cbn [Order.replace]. rewrite Hid.
  inversion Hnd as [|? ? Hnot Hnd']; subst.
  destruct Hin as [-> | Hin].
  - rewrite String.eqb_refl. constructor; [exact HR | apply Hsame].
  - destruct (String.eqb (Order._id x) (Order._id found)) eqn:E.
    + apply String.eqb_eq in E. exfalso. apply Hnot. rewrite E.
      apply in_map. exact Hin.
    + constructor; [apply Hrefl|]. apply IH; assumption.
Qed.

Lemma Evolves_refl (o : Order.T) : Evolves o o.
Proof.
  split; [reflexivity|]. split; [exists []; symmetry; apply app_nil_r|auto].
Qed.

Lemma Evolves_trans (a b c : Order.T) :
  Evolves a b -> Evolves b c -> Evolves a c.
Proof.
  intros (C1 & (l1 & H1) & A1) (C2 & (l2 & H2) & A2).
  split; [congruence|]. split; [|auto].
  exists (l1 ++ l2)%list. rewrite H2, H1, app_assoc. reflexivity.
Qed.

Lemma historyAgrees_push (o o' : Order.T) (l : list Order.StatusChange)
      (c : Order.StatusChange) :
  Order.statusHistory o' = (Order.statusHistory o ++ l ++ [c])%list ->
  Order.status c = Order.orderStatus o' ->
  historyAgrees o'.
Proof.
  intros H Hs. unfold historyAgrees, lastStatus.
  rewrite H, app_assoc, rev_app_distr. cbn. exact Hs.
Qed.

Ltac saved_whole o' H Hc :=
  match goal with
  | |- context [Order.save ?e ?d ?coll] =>
      rewrite (@save_existing e d coll) by reflexivity;
      pose proof (written_fields e d) as H;
      pose proof (written_core e d) as Hc;
      set (o' := written e d) in *;
      cbv zeta in H;
      cbn [Order.fields Order.update Order.assign_orderStatus Order.loaded
           Order.isNew Order.orderStatusModified Order._id Order.user
           Order.items Order.orderStatus Order.paymentStatus
           Order.paymentMethod Order.paymentDetails Order.pricing
           Order.actualDeliveryTime Order.statusHistory
           Order.set_orderStatus Order.set_paymentStatus
           Order.set_paymentDetails Order.set_actualDeliveryTime
           Order.push_statusHistory negb orb andb] in H;
      cbn [Order.fields Order.update Order.assign_orderStatus Order.loaded
           Order.orderId
           Order.set_orderStatus Order.set_paymentStatus
           Order.set_paymentDetails Order.set_actualDeliveryTime
           Order.push_statusHistory] in Hc
  end.

Lemma admin_touches e adminId orderId r w :
  Forall (fun o => JS.truthy (Order.orderId o) = true) (orders w) ->
  Touches (AdminStatus adminId orderId r) (orders w)
          (orders (world (AdminRoutes.updateOrderStatus e adminId orderId r
                            w))).
Proof.
  intro Hk. unfold AdminRoutes.updateOrderStatus.
  destruct (AdminRoutes.validStatusRequest r); [|left; reflexivity].
  cbn [negb].
  destruct (find _ (orders w)) as [found|] eqn:F; [|left; reflexivity].
  destruct (AdminRoutes.includes _ _) eqn:I; [|left; reflexivity].
  cbn [negb]. right.
  pose proof (proj1 (find_In _ _ _ F)) as Hin.
  pose proof (proj1 (Forall_forall _ _) Hk _ Hin) as Htr. cbn beta in Htr.
  apply validTransitions_table in I. pose proof (table_moves _ _ I) as Hmove.
  destruct (Order.Status_eqb (AdminRoutes.status r) Order.delivered) eqn:D;
    saved_whole o' Hw Hc;
    destruct Hw as (Hid & _ & _ & Hs & _ & _ & _ & _ & _ & Hh);
    rewrite Hmove in Hh; cbn in Hh; rewrite <- app_assoc in Hh;
    exists found, o'; cbn [world orders set_orders];
    (split; [exact Hin|]); (split; [discriminate|]);
    (split; [exact Hid|]); (split; [|reflexivity]);
    (split; [apply Hc; exact Htr|]);
    (split; [eexists; exact Hh|]);
    intros _; apply (historyAgrees_push found o' [_] _ Hh);
    rewrite Hs; reflexivity.
Qed.

Lemma findOrder_found orderId userId method coll found :
  OrderRoutes.findOrder orderId userId method coll = Some found ->
  In found coll /\ Order.orderId found = orderId
  /\ Order.user found = userId.
Proof.
  intro F. apply find_In in F. destruct F as (Hin & Hp).
  apply andb_prop in Hp. destruct Hp as (Hp & _).
  apply andb_prop in Hp. destruct Hp as (H1 & H2).
  apply String.eqb_eq in H1, H2. auto.
Qed.

Lemma cancel_touches e refunded userId orderId reason w :
  Forall (fun o => JS.truthy (Order.orderId o) = true) (orders w) ->
  Touches (Cancel refunded userId orderId reason) (orders w)
          (orders (world (OrderRoutes.cancel e refunded userId orderId reason
                            w))).
Proof.
  intro Hk. unfold OrderRoutes.cancel.
  destruct (OrderRoutes.findOrder _ _ _ _) as [found|] eqn:F;
    [|left; reflexivity].
  destruct (findOrder_found _ _ _ _ _ F) as (Hin & _ & Hu).
  pose proof (proj1 (Forall_forall _ _) Hk _ Hin) as Htr. cbn beta in Htr.
  destruct (cancellable (Order.orderStatus found)) eqn:C.
  2:{ left. destruct (Order.orderStatus found); try discriminate;
      reflexivity. }
  assert (Hmove : Order.Status_eqb Order.cancelled (Order.orderStatus found)
                  = false)
    by (destruct (Order.orderStatus found); try discriminate; reflexivity).
  assert (Hgo :
    forall A (x y z : A),
      match Order.orderStatus found with
      | Order.delivered | Order.cancelled => x
      | Order.out_for_delivery => y
      | _ => z
      end = z)
    by (intros; destruct (Order.orderStatus found); try discriminate;
        reflexivity).
  rewrite Hgo. clear Hgo. right.
  saved_whole o1 H1 Hc1.
  destruct H1 as (Hid1 & _ & _ & Hs1 & _ & _ & _ & _ & _ & Hh1).
  rewrite Hmove in Hh1. cbn in Hh1. rewrite <- app_assoc in Hh1.
  cbn [Order.fields Order.loaded].
  assert (E1 : Evolves found o1).
  { split; [apply Hc1; exact Htr|]. split; [eexists; exact Hh1|].
    intros _. apply (historyAgrees_push found o1 [_] _ Hh1).
    rewrite Hs1. reflexivity. }
  destruct (OrderRoutes.isCompleted (Order.paymentStatus o1)
            && Order.PaymentMethod_eqb (Order.paymentMethod o1)
                                       Order.razorpay).
  2:{ exists found, o1. cbn [world orders set_orders].
      repeat split; try assumption; try apply E1.
      intros u [= <-]. exact Hu. }
  destruct refunded.
  2:{ exists found, o1. cbn [world orders set_orders].
      repeat split; try assumption; try apply E1.
      intros u [= <-]. exact Hu. }
  saved_whole o2 H2 Hc2.
  destruct H2 as (Hid2 & _ & _ & Hs2 & _ & _ & _ & _ & _ & Hh2).
  rewrite app_nil_r in Hh2.
  exists found, o2. cbn [world orders set_orders].
  split; [exact Hin|]. split; [intros u [= <-]; exact Hu|].
  split; [congruence|]. split.
  - apply (Evolves_trans _ o1); [exact E1|].
    split.
    + apply Hc2. 
      assert (Order.orderId o1 = Order.orderId found) as ->
          by (destruct E1 as (Ec & _); unfold core in Ec; congruence).
      exact Htr.
    + split; [exists []; rewrite app_nil_r; exact Hh2|].
      unfold historyAgrees, lastStatus. rewrite Hh2, Hs2. auto.
  - apply replace_replace. exact Hid2.
Qed.

Lemma verify_touches rt e mailSent userId r w :
  Forall (fun o => JS.truthy (Order.orderId o) = true) (orders w) ->
  Touches (VerifyPayment mailSent userId r) (orders w)
          (orders (world (OrderRoutes.verifyPayment rt e mailSent userId r w))).
Proof.
  intro Hk. unfold OrderRoutes.verifyPayment.
  destruct (OrderRoutes.validVerify r); [|left; reflexivity]. cbn [negb].
  destruct (OrderRoutes.findOrder _ _ _ _) as [found|] eqn:F;
    [|left; reflexivity].
  destruct (findOrder_found _ _ _ _ _ F) as (Hin & _ & Hu).
  pose proof (proj1 (Forall_forall _ _) Hk _ Hin) as Htr. cbn beta in Htr.
  destruct (OrderRoutes.isCompleted _); [left; reflexivity|].
  destruct (RazorpayService.verifyPaymentSignature _ _ _ _);
    [|left; reflexivity].
  cbn [negb]. right.
  saved_whole o' Hw Hc.
  destruct Hw as (Hid & _ & _ & Hs & _ & _ & _ & _ & _ & Hh).
  match goal with
  | |- context [OrderRoutes.afterConfirmation ?a ?b ?c ?d ?m ?x ?y] =>
      destruct (afterConfirmation_world a b c d m x y) as (Ho & _ & _)
  end.
  exists found, o'. rewrite Ho. cbn [orders set_orders].
  split; [exact Hin|]. split; [intros u [= <-]; exact Hu|].
  split; [exact Hid|]. split; [|reflexivity].
  split; [apply Hc; exact Htr|].
  split; [eexists; exact Hh|].
  destruct (Order.Status_eqb Order.confirmed (Order.orderStatus found)) eqn:E.
  - apply Status_eqb_eq in E. cbn in Hh. rewrite app_nil_r in Hh.
    unfold historyAgrees, lastStatus. rewrite Hh, Hs, <- E. auto.
  - intros _. cbn in Hh. apply (historyAgrees_push found o' [] _ Hh).
    rewrite Hs. reflexivity.
Qed.

Lemma cod_touches rt e mailSent userId orderId w :
  Forall (fun o => JS.truthy (Order.orderId o) = true) (orders w) ->
  Touches (ConfirmCod mailSent userId orderId) (orders w)
          (orders (world (OrderRoutes.confirmCod rt e mailSent userId orderId
                            w))).
Proof.
  intro Hk. unfold OrderRoutes.confirmCod.
  destruct (OrderRoutes.findOrder _ _ _ _) as [found|] eqn:F;
    [|left; reflexivity].
  destruct (findOrder_found _ _ _ _ _ F) as (Hin & _ & Hu).
  pose proof (proj1 (Forall_forall _ _) Hk _ Hin) as Htr. cbn beta in Htr.
  destruct (Order.Status_eqb (Order.orderStatus found) Order.pending) eqn:P;
    [|left; reflexivity].
  cbn [negb]. right. apply Status_eqb_eq in P.
  saved_whole o' Hw Hc.
  destruct Hw as (Hid & _ & _ & Hs & _ & _ & _ & _ & _ & Hh).
  rewrite P in Hh. cbn in Hh.
  match goal with
  | |- context [OrderRoutes.afterConfirmation ?a ?b ?c ?d ?m ?x ?y] =>
      destruct (afterConfirmation_world a b c d m x y) as (Ho & _ & _)
  end.
  exists found, o'. rewrite Ho. cbn [orders set_orders].
  split; [exact Hin|]. split; [intros u [= <-]; exact Hu|].
  split; [exact Hid|]. split; [|reflexivity].
  split; [apply Hc; exact Htr|].
  split; [eexists; exact Hh|].
  intros _. apply (historyAgrees_push found o' [] _ Hh).
  rewrite Hs. reflexivity.
Qed.

Lemma handle_touches rt e q w :
  Forall (fun o => JS.truthy (Order.orderId o) = true) (orders w) ->
  Touches q (orders w) (orders (world (handle rt e q w))).
Proof.
  destruct q; cbn [handle];
    [apply admin_touches | apply cancel_touches | apply verify_touches
    | apply cod_touches].
Qed.

Lemma Forall2_same {A} (R : A -> A -> Prop) (l : list A) :
  (forall x, R x x) -> Forall2 R l l.
Proof. intro H. induction l; constructor; auto. Qed.

Lemma Forall2_chain {A} (R : A -> A -> Prop) (l1 l2 l3 : list A) :
  (forall a b c, R a b -> R b c -> R a c) ->
  Forall2 R l1 l2 -> Forall2 R l2 l3 -> Forall2 R l1 l3.
Proof.
  intros Ht H12. revert l3.
  induction H12 as [|a b l1 l2 Hab _ IH]; intros l3 H23;
    inversion H23; subst; constructor; eauto.
Qed.

Lemma Evolves_core (l l' : list Order.T) :
  Forall2 Evolves l l' -> map core l' = map core l.
Proof.
  induction 1 as [|o o' l l' (Hc & _) _ IH]; [reflexivity|].
  cbn [map]. rewrite Hc, IH. reflexivity.
Qed.

Lemma wellKeyed_core (l l' : list Order.T) :
  map core l' = map core l -> wellKeyed l -> wellKeyed l'.
Proof.
  intros Hc (Hnd & Hk). split.
  - replace (map Order._id l')
      with (map (fun c => fst (fst (fst (fst (fst (fst (fst (fst (fst c)))))))))
                (map core l'))
      by (rewrite map_map; reflexivity).
    rewrite Hc, map_map. exact Hnd.
  - apply Forall_forall. intros o' Hin.
    apply (in_map core) in Hin. rewrite Hc in Hin.
    apply in_map_iff in Hin. destruct Hin as (o & Ho & Hin).
    pose proof (proj1 (Forall_forall _ _) Hk _ Hin) as Ht. cbn beta in Ht.
    unfold core in Ho. congruence.
Qed.

Lemma handle_evolves rt e q w :
  wellKeyed (orders w) ->
  Forall2 Evolves (orders w) (orders (world (handle rt e q w))).
Proof.
  intros (Hnd & Hk).
  destruct (handle_touches rt e q w Hk)
    as [-> | (found & o' & Hin & _ & Hid & He & ->)].
  - apply Forall2_same, Evolves_refl.
  - apply (replace_Forall2 Evolves found); auto using Evolves_refl.
Qed.

Lemma serve_evolves rt qs w :
  wellKeyed (orders w) ->
  Forall2 Evolves (orders w) (orders (serve rt qs w)).
Proof.
  revert w. induction qs as [|[e q] qs IH]; intros w Hw.
  - apply Forall2_same, Evolves_refl.
  - cbn [serve fold_left fst snd].
    pose proof (handle_evolves rt e q w Hw) as H1.
    apply (Forall2_chain Evolves _ _ _ Evolves_trans H1).
    apply IH. apply (wellKeyed_core (orders w)); [|exact Hw].
    apply Evolves_core. exact H1.
Qed.

Lemma handle_catalog rt e q w :
  pizzas (world (handle rt e q w)) = pizzas w
  /\ pizzaOptions (world (handle rt e q w)) = pizzaOptions w.
Proof.
  destruct q; cbn [handle].
  - unfold AdminRoutes.updateOrderStatus.
    destruct (AdminRoutes.validStatusRequest _); [|split; reflexivity].
    cbn [negb]. destruct (find _ _); [|split; reflexivity].
    destruct (negb _); [split; reflexivity|].
    destruct (Order.save _ _ _) as [err|[s st]];
      [rewrite errorHandler_world|]; split; reflexivity.
  - unfold OrderRoutes.cancel.
    destruct (OrderRoutes.findOrder _ _ _ _); [|split; reflexivity].
    destruct (Order.orderStatus _); try (split; reflexivity);
      (destruct (Order.save _ _ _) as [err|[s st]];
       [rewrite errorHandler_world; split; reflexivity|]);
      (destruct (_ && _); [|split; reflexivity]);
      (destruct refunded; [|split; reflexivity]);
      destruct (Order.save _ _ _) as [err2|[s2 st2]]; split; reflexivity.
  - unfold OrderRoutes.verifyPayment.
    destruct (negb _); [split; reflexivity|].
    destruct (OrderRoutes.findOrder _ _ _ _); [|split; reflexivity].
    destruct (OrderRoutes.isCompleted _); [split; reflexivity|].
    destruct (negb _); [split; reflexivity|].
    destruct (Order.save _ _ _) as [err|[s st]];
      [rewrite errorHandler_world; split; reflexivity|].
    unfold OrderRoutes.afterConfirmation.
    destruct (OrderRoutes.updateInventoryForOrder _ _ _ _ _).
    split; reflexivity.
  - unfold OrderRoutes.confirmCod.
    destruct (OrderRoutes.findOrder _ _ _ _); [|split; reflexivity].
    destruct (negb _); [split; reflexivity|].
    destruct (Order.save _ _ _) as [err|[s st]];
      [rewrite errorHandler_world; split; reflexivity|].
    unfold OrderRoutes.afterConfirmation.
    destruct (OrderRoutes.updateInventoryForOrder _ _ _ _ _).
    split; reflexivity.
Qed.

Lemma serve_catalog rt qs w :
  pizzas (serve rt qs w) = pizzas w
  /\ pizzaOptions (serve rt qs w) = pizzaOptions w.
Proof.
  revert w. induction qs as [|[e q] qs IH]; intro w; [split; reflexivity|].
  cbn [serve fold_left fst snd].
  destruct (IH (world (handle rt e q w))) as (H1 & H2).
  destruct (handle_catalog rt e q w) as (H3 & H4).
  unfold serve in H1, H2. split; congruence.
Qed.

(** X1.  Whatever sequence of status updates, cancellations, payment
    verifications and cash-on-delivery confirmations is served, every
    stored order keeps its object id, order id, owner, items, address,
    phone, payment method, pricing, delivery estimate and notes, no order
    is added or removed, and the catalog is untouched; the orders are taken
    to have distinct object ids and non-empty order ids. *)
Theorem stored_orders_keep_their_core :
  forall (rt : Runtime) (qs : list (Order.Env * Request)) (w : World),
    wellKeyed (orders w) ->
    map core (orders (serve rt qs w)) = map core (orders w)
    /\ pizzas (serve rt qs w) = pizzas w
    /\ pizzaOptions (serve rt qs w) = pizzaOptions w.
Proof.
  intros rt qs w Hw. split; [|apply serve_catalog].
  apply Evolves_core, serve_evolves, Hw.
Qed.

Lemma stored_orders_keep_their_core_witness :
  map core (orders (serve sample_runtime sample_requests sample_store))
  = map core (orders sample_store)
  /\ pizzas (serve sample_runtime sample_requests sample_store)
     = pizzas sample_store
  /\ pizzaOptions (serve sample_runtime sample_requests sample_store)
     = pizzaOptions sample_store.
Proof.
  apply (stored_orders_keep_their_core sample_runtime sample_requests
           sample_store).
  split; [constructor; [intros [] | constructor] | repeat constructor].
Defined.

(** X2.  Under the same requests the status history of every stored order
    only grows: what it held before is a prefix of what it holds after. *)
Theorem status_history_only_grows :
  forall (rt : Runtime) (qs : list (Order.Env * Request)) (w : World),
    wellKeyed (orders w) ->
    Forall2
      (fun o o' =>
         Order._id o' = Order._id o
         /\ exists later,
              Order.statusHistory o' = Order.statusHistory o ++ later)
      (orders w) (orders (serve rt qs w)).
Proof.
  intros rt qs w Hw.
  eapply Forall2_impl; [|apply serve_evolves, Hw].
  intros o o' (Hc & Hl & _). split; [unfold core in Hc; congruence|exact Hl].
Qed.

Lemma status_history_only_grows_witness :
  Forall2
    (fun o o' =>
       Order._id o' = Order._id o
       /\ exists later,
            Order.statusHistory o' = Order.statusHistory o ++ later)
    (orders sample_store)
    (orders (serve sample_runtime sample_requests sample_store)).
Proof.
  apply (status_history_only_grows sample_runtime sample_requests
           sample_store).
  split; [constructor; [intros [] | constructor] | repeat constructor].
Defined.

(** X3.  If the last record of every order's status history names the
    order's current status (an order without history being pending), this
    is still so after any sequence of such requests. *)
Theorem history_ends_with_current_status :
  forall (rt : Runtime) (qs : list (Order.Env * Request)) (w : World),
    wellKeyed (orders w) ->
    Forall historyAgrees (orders w) ->
    Forall historyAgrees (orders (serve rt qs w)).
Proof.
  intros rt qs w Hw Ha.
  pose proof (serve_evolves rt qs w Hw) as H. revert Ha. clear Hw.
  induction H as [|o o' l l' (_ & _ & Hpres) _ IH]; [constructor|].
  intro Ha. inversion Ha; subst. constructor; auto.
Qed.

Lemma history_ends_with_current_status_witness :
  Forall historyAgrees
         (orders (serve sample_runtime sample_requests sample_store)).
Proof.
  apply (history_ends_with_current_status sample_runtime sample_requests
           sample_store).
  - split; [constructor; [intros [] | constructor] | repeat constructor].
  - repeat constructor.
Defined.

(** X4.  A cancellation, payment verification or cash-on-delivery
    confirmation made for one customer leaves every order of every other
    customer exactly as it was. *)
Theorem customer_requests_spare_other_customers :
  forall (rt : Runtime) (e : Order.Env) (q : Request) (u : string) (w : World),
    NoDup (map Order._id (orders w)) ->
    Forall (fun o => JS.truthy (Order.orderId o) = true) (orders w) ->
    customer q = Some u ->
    Forall2 (fun o o' => Order.user o <> u -> o' = o)
            (orders w) (orders (world (handle rt e q w))).
Proof.
  intros rt e q u w Hnd Hk Hq.
  destruct (handle_touches rt e q w Hk)
    as [-> | (found & o' & Hin & Hu & Hid & _ & ->)].
  - apply Forall2_same. auto.
  - apply (replace_Forall2 _ found); auto.
    intro Hne. exfalso. apply Hne. apply Hu. exact Hq.
Qed.

Lemma customer_requests_spare_other_customers_witness :
  Forall2 (fun o o' => Order.user o <> "u2"%string -> o' = o)
          (orders sample_store)
          (orders (world (handle sample_runtime sample_env
                            (Cancel false "u2" "PZ210000123" None)
                            sample_store))).
Proof.
  apply (customer_requests_spare_other_customers sample_runtime sample_env
           (Cancel false "u2" "PZ210000123" None) "u2" sample_store).
  - constructor; [intros [] | constructor].
  - repeat constructor.
  - reflexivity.
Defined.

(** ** Progress of the status and cancellation *)

Lemma find_orderId_replace (orderId : string) (o o' : Order.T)
      (coll : list Order.T) :
  find (fun x => String.eqb (Order.orderId x) orderId) coll = Some o ->
  Order._id o' = Order._id o ->
  Order.orderId o' = orderId ->
  find (fun x => String.eqb (Order.orderId x) orderId) (Order.replace o' coll)
  = Some o'.
Proof.
  intros F Hid Ho. induction coll as [|x rest IH]; [discriminate|].
  cbn [Order.replace]. rewrite Hid.
  destruct (String.eqb (Order._id x) (Order._id o)) eqn:E.
  - cbn [find]. rewrite Ho, String.eqb_refl. reflexivity.
  - cbn [find] in *.
    destruct (String.eqb (Order.orderId x) orderId).
    + injection F as ->. rewrite String.eqb_refl in E. discriminate.
    + apply IH. exact F.
Qed.

Lemma table_progress (from to : Order.Status) :
  TransitionTable from to -> (stepsLeft to < stepsLeft from)%nat.
Proof. destruct 1; cbn; lia. Qed.

Lemma admin_step e adminId orderId r w o :
  JS.truthy orderId = true ->
  find (fun x => String.eqb (Order.orderId x) orderId) (orders w) = Some o ->
  let out := AdminRoutes.updateOrderStatus e adminId orderId r w in
  (Http.success (response out) = false /\ world out = w)
  \/ (Http.success (response out) = true
      /\ TransitionTable (Order.orderStatus o) (AdminRoutes.status r)
      /\ exists o',
           find (fun x => String.eqb (Order.orderId x) orderId)
                (orders (world out)) = Some o'
           /\ Order.orderStatus o' = AdminRoutes.status r).
Proof.
  intros Ht F. cbv zeta. unfold AdminRoutes.updateOrderStatus.
  destruct (AdminRoutes.validStatusRequest r); [|left; split; reflexivity].
  cbn [negb]. rewrite F.
  destruct (AdminRoutes.includes _ _) eqn:I; [|left; split; reflexivity].
  cbn [negb]. right.
  destruct (find_In _ _ _ F) as (Hin & Hoid). apply String.eqb_eq in Hoid.
  apply validTransitions_table in I.
  destruct (Order.Status_eqb (AdminRoutes.status r) Order.delivered) eqn:D;
    saved_whole o' Hw Hc;
    destruct Hw as (Hid & _ & _ & Hs & _);
    cbn [response world set_orders orders Http.success];
    (split; [reflexivity|]); (split; [exact I|]);
    exists o'; (split; [|exact Hs]);
    (apply (find_orderId_replace orderId o o'); [exact F | exact Hid |]);
    (assert (Hcore : core o' = core o)
       by (apply Hc; rewrite Hoid; exact Ht));
    unfold core in Hcore; congruence.
Qed.

Lemma admin_step_unknown e adminId orderId r w :
  find (fun x => String.eqb (Order.orderId x) orderId) (orders w) = None ->
  let out := AdminRoutes.updateOrderStatus e adminId orderId r w in
  Http.success (response out) = false /\ world out = w.
Proof.
  intro F. cbv zeta. unfold AdminRoutes.updateOrderStatus.
  destruct (AdminRoutes.validStatusRequest r); [|split; reflexivity].
  cbn [negb]. rewrite F. split; reflexivity.
Qed.

(** X5.  Of any sequence of status updates an administrator makes on one
    order, at most as many are accepted as the longest path of the
    transition table from the order's status has steps, hence never more
    than five; for an order id that names no order none is accepted. *)
Theorem admin_updates_are_bounded :
  forall (orderId : string)
         (steps : list (Order.Env * string * AdminRoutes.StatusRequest))
         (w : World),
    JS.truthy orderId = true ->
    (accepted orderId steps w
     <= match find (fun x => String.eqb (Order.orderId x) orderId)
                   (orders w) with
        | Some o => stepsLeft (Order.orderStatus o)
        | None => 0
        end)%nat
    /\ (accepted orderId steps w <= 5)%nat.
Proof.
  intros orderId steps w Ht.
  assert (Hmain :
    (accepted orderId steps w
     <= match find (fun x => String.eqb (Order.orderId x) orderId)
                   (orders w) with
        | Some o => stepsLeft (Order.orderStatus o)
        | None => 0
        end)%nat).
  { revert w. induction steps as [|[[e adminId] r] rest IH]; intro w;
      [cbn; lia|].
    cbn [accepted]. cbv zeta.
    destruct (find _ (orders w)) as [o|] eqn:F.
    - destruct (admin_step e adminId orderId r w o Ht F)
        as [(Hs & Hw) | (Hs & Hm & o' & F' & Hs')]; rewrite Hs.
      + rewrite Hw. specialize (IH w). rewrite F in IH. exact IH.
      + specialize (IH (world (AdminRoutes.updateOrderStatus
                                 e adminId orderId r w))).
        rewrite F' in IH. rewrite Hs' in IH.
        apply table_progress in Hm. lia.
    - destruct (admin_step_unknown e adminId orderId r w F) as (Hs & Hw).
      rewrite Hs, Hw. specialize (IH w). rewrite F in IH. exact IH. }
  split; [exact Hmain|].
  destruct (find _ (orders w)) as [o|]; [|lia].
  destruct (Order.orderStatus o); cbn in Hmain; lia.
Qed.

Lemma admin_updates_are_bounded_witness :
  (accepted "PZ210000123"
     [(sample_env, "admin1"%string,
       AdminRoutes.mkStatusRequest Order.confirmed None);
      (sample_env, "admin1"%string,
       AdminRoutes.mkStatusRequest Order.pending None);
      (sample_env, "admin1"%string,
       AdminRoutes.mkStatusRequest Order.cancelled None);
      (sample_env, "admin1"%string,
       AdminRoutes.mkStatusRequest Order.confirmed None)]
     sample_store
   <= match find (fun x => String.eqb (Order.orderId x) "PZ210000123")
                 (orders sample_store) with
      | Some o => stepsLeft (Order.orderStatus o)
      | None => 0
      end)%nat
  /\ (accepted "PZ210000123"
        [(sample_env, "admin1"%string,
          AdminRoutes.mkStatusRequest Order.confirmed None);
         (sample_env, "admin1"%string,
          AdminRoutes.mkStatusRequest Order.pending None);
         (sample_env, "admin1"%string,
          AdminRoutes.mkStatusRequest Order.cancelled None);
         (sample_env, "admin1"%string,
          AdminRoutes.mkStatusRequest Order.confirmed None)]
        sample_store
      <= 5)%nat.
Proof.
  apply (admin_updates_are_bounded "PZ210000123"
           [(sample_env, "admin1"%string,
             AdminRoutes.mkStatusRequest Order.confirmed None);
            (sample_env, "admin1"%string,
             AdminRoutes.mkStatusRequest Order.pending None);
            (sample_env, "admin1"%string,
             AdminRoutes.mkStatusRequest Order.cancelled None);
            (sample_env, "admin1"%string,
             AdminRoutes.mkStatusRequest Order.confirmed None)]
           sample_store).
  reflexivity.
Defined.

(** X6.  The owner's cancellation of an order succeeds exactly when the
    transition table of the administrator's route allows the move from the
    order's status to cancelled. *)
Theorem cancel_follows_the_transition_table :
  forall (e : Order.Env) (refunded : bool) (userId orderId : string)
         (reason : option string) (w : World) (o : Order.T),
    OrderRoutes.findOrder orderId userId None (orders w) = Some o ->
    (Http.success
       (response (OrderRoutes.cancel e refunded userId orderId reason w))
     = true
     <-> AdminRoutes.includes
           (AdminRoutes.validTransitions (Order.orderStatus o))
           Order.cancelled = true).
Proof.
  intros e refunded userId orderId reason w o F.
  destruct (cancellable (Order.orderStatus o)) eqn:C.
  - destruct (cancel_accepted e refunded userId orderId reason w o F C)
      as (o' & _ & Hs & _).
    split; intros _; [|exact Hs].
    destruct (Order.orderStatus o); try discriminate; reflexivity.
  - assert (Hno : Http.success
       (response (OrderRoutes.cancel e refunded userId orderId reason w))
       = false).
    { destruct (Order.orderStatus o) eqn:S; try discriminate.
      - rewrite (cancel_refused_on_the_road e refunded userId orderId
                   reason w o F S). reflexivity.
      - rewrite (cancel_refused_when_over e refunded userId orderId
                   reason w o F (or_introl S)). reflexivity.
      - rewrite (cancel_refused_when_over e refunded userId orderId
                   reason w o F (or_intror S)). reflexivity. }
    rewrite Hno.
    destruct (Order.orderStatus o); try discriminate; split; discriminate.
Qed.

Lemma cancel_follows_the_transition_table_witness :
  Http.success
    (response (OrderRoutes.cancel sample_env false "u1" "PZ210000123" None
                 sample_store))
  = true
  <-> AdminRoutes.includes
        (AdminRoutes.validTransitions
           (Order.orderStatus
              (sample_order Order.pending Order.cod Order.payment_pending)))
        Order.cancelled = true.
Proof.
  exact (cancel_follows_the_transition_table sample_env false "u1"
           "PZ210000123" None sample_store
           (sample_order Order.pending Order.cod Order.payment_pending)
           eq_refl).
Defined.

(** X7.  A cancellation the owner may still make stores the order as
    cancelled.  It calls the gateway for a refund exactly when the order
    was paid through the gateway, with the stored payment id and the order
    total; the payment status becomes refunded when the gateway accepts and
    is otherwise left as it was, so that a refused refund leaves a
    cancelled order whose payment is completed. *)
Theorem cancellation_refund :
  forall (e : Order.Env) (refunded : bool) (userId orderId : string)
         (reason : option string) (w : World) (o : Order.T),
    OrderRoutes.findOrder orderId userId None (orders w) = Some o ->
    cancellable (Order.orderStatus o) = true ->
    let out := OrderRoutes.cancel e refunded userId orderId reason w in
    exists o',
      stored (Order._id o) (world out) = Some o'
      /\ Order.orderStatus o' = Order.cancelled
      /\ filter isRefund (effects out)
         = (if paidOnline o
            then [GatewayRefund
                    (Order.razorpayPaymentId (Order.paymentDetails o))
                    (RazorpayService.refundAmount
                       (Order.total (Order.pricing o)))
                    "Order cancelled by user"%string]
            else [])
      /\ Order.paymentStatus o'
         = (if paidOnline o && refunded then Order.payment_refunded
            else Order.paymentStatus o).
Proof.
  intros e refunded userId orderId reason w o F C. cbv zeta.
  unfold OrderRoutes.cancel. rewrite F.
  pose proof (proj1 (find_In _ _ _ F)) as Hin.
  assert (Hgo :
    forall A (x y z : A),
      match Order.orderStatus o with
      | Order.delivered | Order.cancelled => x
      | Order.out_for_delivery => y
      | _ => z
      end = z)
    by (intros; destruct (Order.orderStatus o); try discriminate;
        reflexivity).
  rewrite Hgo. clear Hgo.
  saved_as o1 H1.
  destruct H1 as (Hid1 & _ & _ & Hs1 & Hp1 & Hm1 & Hd1 & Hpr1 & _).
  cbn [Order.fields Order.loaded].
  unfold paidOnline. rewrite <- Hp1, <- Hm1, <- Hd1, <- Hpr1.
  destruct (OrderRoutes.isCompleted (Order.paymentStatus o1)
            && Order.PaymentMethod_eqb (Order.paymentMethod o1)
                                       Order.razorpay).
  2:{ exists o1. cbn. repeat split; try assumption.
      apply find_replace; assumption. }
  destruct refunded.
  2:{ exists o1. cbn. repeat split; try assumption.
      apply find_replace; assumption. }
  saved_as o2 H2.
  destruct H2 as (Hid2 & _ & _ & Hs2 & Hp2 & _).
  exists o2. cbn. repeat split.
  - unfold stored. cbn. rewrite <- Hid1. apply find_replace.
    + apply (replace_keeps o); assumption.
    + exact Hid2.
  - congruence.
  - exact Hp2.
Qed.

Lemma cancellation_refund_witness :
  exists o',
    stored "65a000000000000000000000"%string
      (world (OrderRoutes.cancel sample_env false "u1"%string
                "PZ210000123"%string None
                (sample_world
                   (sample_order Order.confirmed Order.razorpay
                                 Order.payment_completed))))
    = Some o'
    /\ Order.orderStatus o' = Order.cancelled
    /\ filter isRefund
         (effects (OrderRoutes.cancel sample_env false "u1"%string
                     "PZ210000123"%string None
                     (sample_world
                        (sample_order Order.confirmed Order.razorpay
                                      Order.payment_completed))))
       = [GatewayRefund None (Some 76200%Q)
            "Order cancelled by user"%string]
    /\ Order.paymentStatus o' = Order.payment_completed.
Proof.
  exact (cancellation_refund sample_env false "u1"%string
           "PZ210000123"%string None
           (sample_world
              (sample_order Order.confirmed Order.razorpay
                            Order.payment_completed))
           (sample_order Order.confirmed Order.razorpay
                         Order.payment_completed)
           eq_refl eq_refl).
Defined.

(** ** What order creation leaves *)

(** X8.  Order creation stores nothing.  Whatever the request, the store
    is as it was, nothing is sent to the payment gateway or to anyone, and
    the answer is a refusal: the early return of the handler when it has
    one, and otherwise 400 with the message of the schema validation for
    the missing order id.  The handler builds its document without an order
    id, which only a [pre('save')] hook would generate, and [save] validates
    the document before it runs that hook. *)
Theorem create_stores_nothing :
  forall (rt : Runtime) (e : Order.Env) (gateway : option string)
         (userId : string) (r : OrderRoutes.CreateRequest) (w : World),
    let out := OrderRoutes.create rt e gateway userId r w in
    world out = w
    /\ effects out = []
    /\ Http.success (response out) = false
    /\ match OrderRoutes.build rt e userId r w with
       | inl early => response out = early
       | inr d =>
           response out = orderIdRequired
           /\ Order.orderId (Order.fields d) = EmptyString
           /\ Order.isNew d = true
           /\ JS.truthy
                (Order.orderId
                   (Order.fields (Order.preSave_orderId e d))) = true
       end.
Proof.
  intros rt e gateway userId r w out. subst out. rewrite create_refused.
  destruct (OrderRoutes.build rt e userId r w) as [early|d] eqn:B;
    cbn [world effects response].
  - destruct (build_early _ _ _ _ _ _ B) as [H _]. auto.
  - destruct (built_without_id _ _ _ _ _ _ B) as [Hnew Hid].
    repeat split; try assumption.
    unfold Order.preSave_orderId. rewrite Hid. reflexivity.
Qed.

(** The scenario of the specification, run: the document is built and
    refused, with the cash-on-delivery and with the gateway payment. *)
Example scenario_order_is_not_stored :
  OrderRoutes.create sample_runtime sample_env (Some "order_1"%string)
    "u1"%string (sample_request None Order.razorpay) catalog_world
  = mkOutcome orderIdRequired catalog_world []
  /\ OrderRoutes.create sample_runtime sample_env None "u1"%string
       (sample_request None Order.cod) catalog_world
     = mkOutcome orderIdRequired catalog_world [].
Proof. split; reflexivity. Qed.

(** *** Reachable stores *)

Lemma map_orderId_core (coll coll' : list Order.T) :
  map core coll' = map core coll ->
  map Order.orderId coll' = map Order.orderId coll.
Proof.
  intro H.
  replace (map Order.orderId coll')
    with (map (fun c => snd (fst (fst (fst (fst (fst (fst (fst (fst c)))))))))
              (map core coll'))
    by (rewrite map_map; reflexivity).
  rewrite H, map_map. reflexivity.
Qed.

(** X30.  Start from a store whose orders have distinct object ids and
    distinct, non-empty order ids, and whose status histories end with the
    current status of their order.  Every store reached from it by order
    creations, status updates, cancellations, payment verifications and
    cash-on-delivery confirmations, in any number and order, is such a
    store again, and it holds the same orders: none is added, none is
    removed, and each keeps its ids, owner, items, address, payment method
    and pricing. *)
Theorem reachable_stores_are_well_formed :
  forall (rt : Runtime) (start w : World),
    NoDup (map Order._id (orders start)) ->
    NoDup (map Order.orderId (orders start)) ->
    Forall (fun o => JS.truthy (Order.orderId o) = true) (orders start) ->
    Forall historyAgrees (orders start) ->
    Reachable rt start w ->
    NoDup (map Order._id (orders w))
    /\ NoDup (map Order.orderId (orders w))
    /\ Forall (fun o => JS.truthy (Order.orderId o) = true) (orders w)
    /\ Forall historyAgrees (orders w)
    /\ map core (orders w) = map core (orders start).
Proof.
  intros rt start w Sid Soid Sk Sa H.
  induction H as [| e gateway userId r w _ IH | e q w _ IH].
  - auto.
  - rewrite create_refused.
    destruct (OrderRoutes.build rt e userId r w); exact IH.
  - destruct IH as (Hid & Hoid & Hk & Ha & Hsame).
    pose proof (handle_evolves rt e q w (conj Hid Hk)) as He.
    pose proof (Evolves_core _ _ He) as Hc.
    destruct (wellKeyed_core _ _ Hc (conj Hid Hk)) as (Hid' & Hk').
    split; [exact Hid'|].
    split; [rewrite (map_orderId_core _ _ Hc); exact Hoid|].
    split; [exact Hk'|].
    split; [|rewrite Hc; exact Hsame].
    clear Hc Hid' Hk' Hid Hoid Hk Hsame. revert Ha.
    induction He as [|o o' l l' (_ & _ & Hp) _ IHe]; intro Ha;
      [constructor|].
    inversion Ha; subst. constructor; auto.
Qed.

Lemma reachable_stores_are_well_formed_witness :
  let w :=
    world
      (OrderRoutes.create sample_runtime sample_env None "u1"
         (sample_request None Order.cod)
         (world (handle sample_runtime sample_env
                   (ConfirmCod true "u1" "PZ210000123") sample_store))) in
  NoDup (map Order._id (orders w))
  /\ NoDup (map Order.orderId (orders w))
  /\ Forall (fun o => JS.truthy (Order.orderId o) = true) (orders w)
  /\ Forall historyAgrees (orders w)
  /\ map core (orders w) = map core (orders sample_store).
Proof.
  apply (reachable_stores_are_well_formed sample_runtime sample_store).
  - repeat constructor. intros [].
  - repeat constructor. intros [].
  - repeat constructor.
  - repeat constructor.
  - apply reach_create. apply reach_request. apply reach_start.
Defined.

(** *** The generated order id *)

Lemma string_length_app (s1 s2 : string) :
  String.length (s1 ++ s2) = (String.length s1 + String.length s2)%nat.
Proof. induction s1; cbn; auto. Qed.

Lemma length_substring (n m : nat) (s : string) :
  String.length (substring n m s) = Nat.min m (String.length s - n).
Proof.
  revert n m. induction s as [|c s IH]; intros n m.
  - destruct n, m; reflexivity.
  - destruct n as [|n].
    + destruct m as [|m]; [reflexivity|]. cbn [substring String.length].
      rewrite IH. cbn. rewrite Nat.sub_0_r. reflexivity.
    + cbn [substring String.length]. rewrite IH. reflexivity.
Qed.

Lemma length_slice_last (k : nat) (s : string) :
  String.length (Order.slice_last k s) = Nat.min k (String.length s).
Proof. unfold Order.slice_last. rewrite length_substring. lia. Qed.

Lemma length_zeros (n : nat) : String.length (Order.zeros n) = n.
Proof. induction n; cbn; auto. Qed.

Lemma allDigits_app (s1 s2 : string) :
  JS.allDigits s1 = true -> JS.allDigits s2 = true ->
  JS.allDigits (s1 ++ s2) = true.
Proof.
  intros H1 H2. induction s1 as [|c s IH]; [exact H2|].
  cbn [JS.allDigits append] in *. apply andb_prop in H1.
  destruct H1 as (Hc & Hs). rewrite Hc. cbn. auto.
Qed.

Lemma allDigits_substring (n m : nat) (s : string) :
  JS.allDigits s = true -> JS.allDigits (substring n m s) = true.
Proof.
  revert n m. induction s as [|c s IH]; intros n m H.
  - destruct n, m; reflexivity.
  - cbn [JS.allDigits] in H. apply andb_prop in H. destruct H as (Hc & Hs).
    destruct n as [|n].
    + destruct m as [|m]; [reflexivity|]. cbn [substring JS.allDigits].
      rewrite Hc. cbn. auto.
    + cbn [substring]. auto.
Qed.

Lemma allDigits_zeros (n : nat) : JS.allDigits (Order.zeros n) = true.
Proof. induction n; cbn; auto. Qed.

Lemma allDigits_uint (d : Decimal.uint) :
  JS.allDigits (NilEmpty.string_of_uint d) = true.
Proof. induction d; cbn; auto. Qed.

Lemma allDigits_toString (n : Z) :
  (0 <= n)%Z -> JS.allDigits (Order.toString n) = true.
Proof.
  intro H. unfold Order.toString. destruct n as [|p|p]; [reflexivity| |lia].
  cbn [Z.to_int NilZero.string_of_int].
  unfold NilZero.string_of_uint.
  destruct (Pos.to_uint p) eqn:E; try reflexivity;
    rewrite <- E; apply allDigits_uint.
Qed.

Lemma padded_three (n : Z) :
  (0 <= n < 1000)%Z ->
  String.length (Order.padStart0 3 (Order.toString n)) = 3%nat.
Proof.
  intro H.
  assert (T :
    forallb (fun k => Nat.eqb (String.length
                                 (Order.padStart0 3
                                    (Order.toString (Z.of_nat k)))) 3)
            (seq 0 1000) = true) by (vm_compute; reflexivity).
  rewrite forallb_forall in T.
  specialize (T (Z.to_nat n)). rewrite Z2Nat.id in T by lia.
  apply Nat.eqb_eq. apply T. apply in_seq. lia.
Qed.

Lemma random_thousandth (x : Q) :
  0 <= x -> x < 1 -> (0 <= Qfloor (x * 1000) < 1000)%Z.
Proof.
  intros H0 H1. split.
  - change 0%Z with (Qfloor 0). apply Qfloor_resp_le. lra.
  - pose proof (Qfloor_le (x * 1000)) as Hf.
    assert (Hlt : inject_Z (Qfloor (x * 1000)) < inject_Z 1000).
    { eapply Qle_lt_trans; [exact Hf|]. change (inject_Z 1000) with 1000%Q.
      lra. }
    rewrite <- Zlt_Qlt in Hlt. exact Hlt.
Qed.

(** X9.  The first [pre('save')] hook keeps an order id that is present.
    For a document without one, at a clock reading that is not negative and
    a random number in [0, 1), it generates "PZ" followed by digits only:
    the last six digits of the clock reading (all of them when there are
    fewer) and three digits for the random number. *)
Theorem generated_order_id_format :
  forall (e : Order.Env) (d : Order.Doc),
    (0 <= Order.now e)%Z ->
    0 <= Order.random e -> Order.random e < 1 ->
    let id := Order.orderId (Order.fields (Order.preSave_orderId e d)) in
    (JS.truthy (Order.orderId (Order.fields d)) = true ->
     id = Order.orderId (Order.fields d))
    /\ (Order.orderId (Order.fields d) = ""%string ->
        exists suffix,
          id = ("PZ" ++ suffix)%string
          /\ JS.allDigits suffix = true
          /\ String.length suffix
             = (Nat.min 6 (String.length (Order.toString (Order.now e)))
                + 3)%nat).
Proof.
  intros e d Hnow Hr0 Hr1 id. unfold id, Order.preSave_orderId. split.
  - intros ->. reflexivity.
  - intros ->. cbn [JS.truthy String.eqb negb Order.update Order.fields
                    Order.set_updatedAt Order.set_orderId Order.orderId].
    eexists. split; [reflexivity|]. split.
    + apply allDigits_app.
      * apply allDigits_substring, allDigits_toString, Hnow.
      * apply allDigits_app; [apply allDigits_zeros|].
        apply allDigits_toString. apply random_thousandth; assumption.
    + rewrite string_length_app, length_slice_last.
      rewrite padded_three by (apply random_thousandth; assumption).
      reflexivity.
Qed.

Lemma generated_order_id_format_witness :
  exists suffix,
    Order.orderId
      (Order.fields
         (Order.preSave_orderId sample_env
            (OrderRoutes.newOrder sample_env "u1"%string
               (sample_request None Order.cod) []
               (OrderRoutes.calculatePricing 0))))
    = ("PZ" ++ suffix)%string
    /\ JS.allDigits suffix = true
    /\ String.length suffix
       = (Nat.min 6 (String.length (Order.toString (Order.now sample_env)))
          + 3)%nat.
Proof.
  apply (generated_order_id_format sample_env
           (OrderRoutes.newOrder sample_env "u1"%string
              (sample_request None Order.cod) []
              (OrderRoutes.calculatePricing 0))).
  - vm_compute. discriminate.
  - vm_compute. discriminate.
  - reflexivity.
  - reflexivity.
Defined.

(** *** The delivery estimate and the amounts *)

Lemma Forall2_length' {A B} (R : A -> B -> Prop) l l' :
  Forall2 R l l' -> List.length l = List.length l'.
Proof. induction 1; cbn; auto. Qed.

Lemma fold_thirty {A} (l : list A) (z : Z) :
  fold_left (fun total (_ : A) => (total + 30)%Z) l z
  = (z + 30 * Z.of_nat (List.length l))%Z.
Proof.
  revert z. induction l as [|x l IH]; intro z; [cbn; lia|].
  cbn [fold_left List.length]. rewrite IH. lia.
Qed.

Lemma processItem_quantity w options item oi :
  OrderRoutes.processItem w options item = inr oi ->
  Order.quantity oi = OrderRoutes.quantity item.
Proof.
  unfold OrderRoutes.processItem.
  destruct (find _ (pizzas w)) as [pz|]; [|discriminate].
  destruct (negb _); [discriminate|].
  destruct (find _ (Pizza.sizes pz)); [|discriminate].
  destruct (OrderRoutes.processCustomizations _ _).
  intros [= <-]. reflexivity.
Qed.

(** What is known of the document the handler builds. *)
Lemma built_order rt e userId r w d :
  OrderRoutes.build rt e userId r w = inr d ->
  exists options subtotal,
    OrderRoutes.validCreate rt r = true
    /\ hd_error (pizzaOptions w) = Some options
    /\ Forall2 (fun req oi => OrderRoutes.processItem w options req = inr oi)
               (OrderRoutes.items r) (Order.items (Order.fields d))
    /\ subtotal == sumTotals (Order.items (Order.fields d))
    /\ Order.pricing (Order.fields d) = OrderRoutes.calculatePricing subtotal
    /\ Order.estimatedDeliveryTime (Order.fields d)
       = (Order.now e
          + (Z.max (fold_left (fun total (_ : Order.Item) => total + 30)
                              (Order.items (Order.fields d)) 0) 30 + 30)
            * 60000)%Z.
Proof.
  intro H.
  destruct (built_items _ _ _ _ _ _ H) as (options & sub & P & Hf & Hs & Hp).
  destruct (build_spec _ _ _ _ _ _ H) as (o' & i' & s' & V & _ & _ & ->).
  exists options, sub. repeat split; assumption.
Qed.

Lemma validCreate_items rt r :
  OrderRoutes.validCreate rt r = true ->
  (1 <= List.length (OrderRoutes.items r))%nat
  /\ Forall (fun i => (1 <= OrderRoutes.quantity i <= 10)%Z)
            (OrderRoutes.items r).
Proof.
  unfold OrderRoutes.validCreate. intro V.
  do 5 (apply andb_prop in V; destruct V as (V & _)).
  apply andb_prop in V. destruct V as (Hn & Hall). split.
  - destruct (OrderRoutes.items r); [discriminate|cbn; lia].
  - apply Forall_forall. intros i Hi.
    rewrite forallb_forall in Hall. specialize (Hall i Hi).
    unfold OrderRoutes.validItem in Hall.
    apply andb_prop in Hall. destruct Hall as (Hall & _).
    apply andb_prop in Hall. destruct Hall as (Hall & H10).
    apply andb_prop in Hall. destruct Hall as (_ & H1).
    lia.
Qed.

(** X10.  The delivery estimate of the order the creation handler builds
    is the time of the request plus 30 minutes for every line of the
    request plus 30 minutes for the delivery, whatever the preparation
    times of the pizzas: at least one hour after the request. *)
Theorem built_order_delivery_estimate :
  forall (rt : Runtime) (e : Order.Env) (userId : string)
         (r : OrderRoutes.CreateRequest) (w : World) (d : Order.Doc),
    OrderRoutes.build rt e userId r w = inr d ->
    let o := Order.fields d in
    Order.estimatedDeliveryTime o
    = (Order.now e
       + (30 * Z.of_nat (List.length (OrderRoutes.items r)) + 30) * 60000)%Z
    /\ (Order.now e + 60 * 60000 <= Order.estimatedDeliveryTime o)%Z.
Proof.
  intros rt e userId r w d Hd o. subst o.
  destruct (built_order rt e userId r w d Hd)
    as (options & sub & V & _ & Hf & _ & _ & Ht).
  apply Forall2_length' in Hf.
  destruct (validCreate_items rt r V) as (Hn & _).
  rewrite Ht, fold_thirty, <- Hf. lia.
Qed.

Lemma built_order_delivery_estimate_witness :
  Order.estimatedDeliveryTime scenario_order
  = (Order.now sample_env
     + (30 * Z.of_nat (List.length
                         (OrderRoutes.items (sample_request None Order.cod)))
        + 30) * 60000)%Z
  /\ (Order.now sample_env + 60 * 60000
      <= Order.estimatedDeliveryTime scenario_order)%Z.
Proof.
  apply (built_order_delivery_estimate sample_runtime sample_env "u1"
           (sample_request None Order.cod) catalog_world
           (Order.mkDoc scenario_order true false)).
  reflexivity.
Defined.

Section BuiltAmounts.

Local Open Scope Q_scope.

Lemma round_bounds (x : Q) :
  x - (1 # 2) < JS.round x /\ JS.round x <= x + (1 # 2).
Proof.
  unfold JS.round. split.
  - pose proof (Qlt_floor (x + (1 # 2))) as H.
    rewrite inject_Z_plus in H. change (inject_Z 1) with 1 in H. lra.
  - apply Qfloor_le.
Qed.

Lemma round_nonneg (x : Q) : 0 <= x -> 0 <= JS.round x.
Proof.
  intro H. unfold JS.round. change 0 with (inject_Z 0).
  rewrite <- Zle_Qle. change 0%Z with (Qfloor 0).
  apply Qfloor_resp_le. lra.
Qed.

(** X11.  The tax of the order the creation handler builds is a whole
    number within one half of 5 % of the subtotal, so the total is within
    one half of 105 % of the subtotal plus the delivery fee of 50. *)
Theorem built_order_tax_rounding :
  forall (rt : Runtime) (e : Order.Env) (userId : string)
         (r : OrderRoutes.CreateRequest) (w : World) (d : Order.Doc),
    OrderRoutes.build rt e userId r w = inr d ->
    let p := Order.pricing (Order.fields d) in
    (exists n : Z, Order.tax p = inject_Z n)
    /\ Order.subtotal p * (5 # 100) - (1 # 2) < Order.tax p
    /\ Order.tax p <= Order.subtotal p * (5 # 100) + (1 # 2)
    /\ Order.subtotal p * (105 # 100) + 50 - (1 # 2) < Order.total p
    /\ Order.total p <= Order.subtotal p * (105 # 100) + 50 + (1 # 2).
Proof.
  intros rt e userId r w d Hd p.
  destruct (built_order rt e userId r w d Hd)
    as (options & sub & _ & _ & _ & _ & Hp & _).
  unfold p. rewrite Hp.
  cbn [OrderRoutes.calculatePricing Order.tax Order.subtotal Order.total].
  destruct (round_bounds (sub * (5 # 100))) as (H1 & H2).
  split; [eexists; reflexivity|]. repeat split; lra.
Qed.

Lemma built_order_tax_rounding_witness :
  let p := Order.pricing scenario_order in
  (exists n : Z, Order.tax p = inject_Z n)
  /\ Order.subtotal p * (5 # 100) - (1 # 2) < Order.tax p
  /\ Order.tax p <= Order.subtotal p * (5 # 100) + (1 # 2)
  /\ Order.subtotal p * (105 # 100) + 50 - (1 # 2) < Order.total p
  /\ Order.total p <= Order.subtotal p * (105 # 100) + 50 + (1 # 2).
Proof.
  apply (built_order_tax_rounding sample_runtime sample_env "u1"
           (sample_request None Order.cod) catalog_world
           (Order.mkDoc scenario_order true false)).
  reflexivity.
Defined.

Lemma sumPrices_nonneg (choices : list PizzaOptions.Choice)
      (l : list Order.Priced) :
  Forall (fun c => 0 <= PizzaOptions.price c) choices ->
  Forall (backed choices) l -> 0 <= sumPrices l.
Proof.
  intros Hc Hl. induction Hl as [|p l (c & Hin & _ & _ & Hp) _ IH];
    [cbn; lra|].
  cbn [sumPrices fold_right]. fold (sumPrices l).
  pose proof (proj1 (Forall_forall _ _) Hc c Hin) as H. cbn beta in H.
  rewrite <- Hp. lra.
Qed.

Lemma processOne_nonneg (wanted : option string)
      (choices : list PizzaOptions.Choice) (cost : Q) :
  Forall (fun c => 0 <= PizzaOptions.price c) choices ->
  cost <= snd (OrderRoutes.processOne wanted choices cost).
Proof.
  intro Hc. unfold OrderRoutes.processOne.
  destruct wanted as [n|]; [|cbn; lra].
  destruct (JS.truthy n); [|cbn; lra].
  destruct (OrderRoutes.findAvailable n choices) as [c|] eqn:F; [|cbn; lra].
  apply find_some in F. destruct F as (Hin & _).
  pose proof (proj1 (Forall_forall _ _) Hc c Hin) as H. cbn beta in H.
  cbn [snd]. lra.
Qed.

Lemma processMany_nonneg (wanted : list string)
      (choices : list PizzaOptions.Choice) (cost : Q) :
  Forall (fun c => 0 <= PizzaOptions.price c) choices ->
  cost <= snd (OrderRoutes.processMany wanted choices cost).
Proof.
  intro Hc.
  destruct (processMany_spec choices wanted cost) as (_ & Hb & Hs).
  rewrite Hs. pose proof (sumPrices_nonneg choices _ Hc Hb). lra.
Qed.

Lemma processCustomizations_nonneg (options : PizzaOptions.T)
      (sel : option OrderRoutes.Selection) :
  Forall (fun c => 0 <= PizzaOptions.price c)
         (PizzaOptions.bases options ++ PizzaOptions.sauces options
            ++ PizzaOptions.cheeses options
            ++ PizzaOptions.vegetables options
            ++ PizzaOptions.meats options) ->
  0 <= snd (OrderRoutes.processCustomizations options sel).
Proof.
  intro H.
  apply Forall_app in H; destruct H as (Cb & H).
  apply Forall_app in H; destruct H as (Cs & H).
  apply Forall_app in H; destruct H as (Cc & H).
  apply Forall_app in H; destruct H as (Cv & Cm).
  unfold OrderRoutes.processCustomizations.
  destruct sel as [s|]; [|cbn; lra].
  pose proof (processOne_nonneg (OrderRoutes.base s)
                (PizzaOptions.bases options) 0 Cb) as H1.
  destruct (OrderRoutes.processOne (OrderRoutes.base s) _ 0) as [b c1].
  pose proof (processOne_nonneg (OrderRoutes.sauce s)
                (PizzaOptions.sauces options) c1 Cs) as H2.
  destruct (OrderRoutes.processOne (OrderRoutes.sauce s) _ c1) as [sc c2].
  pose proof (processMany_nonneg (OrderRoutes.cheese s)
                (PizzaOptions.cheeses options) c2 Cc) as H3.
  destruct (OrderRoutes.processMany (OrderRoutes.cheese s) _ c2) as [ch c3].
  pose proof (processMany_nonneg (OrderRoutes.vegetables s)
                (PizzaOptions.vegetables options) c3 Cv)
    as H4.
  destruct (OrderRoutes.processMany (OrderRoutes.vegetables s) _ c3)
    as [vg c4].
  pose proof (processMany_nonneg (OrderRoutes.meats s)
                (PizzaOptions.meats options) c4 Cm) as H5.
  destruct (OrderRoutes.processMany (OrderRoutes.meats s) _ c4) as [mt c5].
  cbn [snd] in *. lra.
Qed.

Lemma processItem_nonneg w options item oi :
  sanePrices w options ->
  (0 <= OrderRoutes.quantity item)%Z ->
  OrderRoutes.processItem w options item = inr oi ->
  0 <= Order.itemPrice oi /\ 0 <= Order.totalItemPrice oi.
Proof.
  intros (Hp & Hc) Hq. unfold OrderRoutes.processItem.
  destruct (find _ (pizzas w)) as [pz|] eqn:Fp; [|discriminate].
  destruct (negb _); [discriminate|].
  destruct (find _ (Pizza.sizes pz)) as [so|] eqn:Fs; [|discriminate].
  pose proof (processCustomizations_nonneg options
                (OrderRoutes.customizations item) Hc) as Hcost.
  destruct (OrderRoutes.processCustomizations _ _) as [pc cost].
  cbn [snd] in Hcost. intros [= <-].
  cbn [Order.itemPrice Order.totalItemPrice].
  apply find_some in Fp. destruct Fp as (Hin & _).
  pose proof (proj1 (Forall_forall _ _) Hp pz Hin) as (Hb & Hs).
  apply find_some in Fs. destruct Fs as (Hin' & _).
  pose proof (proj1 (Forall_forall _ _) Hs so Hin') as Hm. cbn beta in Hm.
  assert (H1 : 0 <= Pizza.basePrice pz * Pizza.priceMultiplier so)
    by (apply Qmult_le_0_compat; assumption).
  assert (H2 : 0 <= Pizza.basePrice pz * Pizza.priceMultiplier so + cost)
    by lra.
  split; [exact H2|].
  apply Qmult_le_0_compat; [exact H2|].
  change 0 with (inject_Z 0). rewrite <- Zle_Qle. exact Hq.
Qed.

Lemma sumTotals_nonneg (l : list Order.Item) :
  Forall (fun i => 0 <= Order.totalItemPrice i) l -> 0 <= sumTotals l.
Proof.
  induction 1 as [|i l Hi _ IH]; [cbn; lra|].
  cbn [sumTotals fold_right]. fold (sumTotals l). lra.
Qed.

(** X12.  When no price of the catalog is negative (base prices, size
    multipliers, customization prices), no amount of the order the creation
    handler builds is: every unit price and line total, the subtotal and
    the tax are at least 0 and the total is at least the delivery fee of
    50. *)
Theorem built_order_amounts_are_not_negative :
  forall (rt : Runtime) (e : Order.Env) (userId : string)
         (r : OrderRoutes.CreateRequest) (w : World) (d : Order.Doc),
    (forall options,
        hd_error (pizzaOptions w) = Some options -> sanePrices w options) ->
    OrderRoutes.build rt e userId r w = inr d ->
    let o := Order.fields d in
    Forall (fun i => 0 <= Order.itemPrice i /\ 0 <= Order.totalItemPrice i)
           (Order.items o)
    /\ 0 <= Order.subtotal (Order.pricing o)
    /\ 0 <= Order.tax (Order.pricing o)
    /\ 50 <= Order.total (Order.pricing o).
Proof.
  intros rt e userId r w d Hsane Hd o. subst o.
  destruct (built_order rt e userId r w d Hd)
    as (options & sub & V & P & Hf & Hs & Hp & _).
  specialize (Hsane options P).
  destruct (validCreate_items rt r V) as (_ & Hq).
  assert (Hitems :
    Forall (fun i => 0 <= Order.itemPrice i /\ 0 <= Order.totalItemPrice i)
           (Order.items (Order.fields d))).
  { clear Hs. induction Hf as [|req oi reqs ois H1 _ IH]; [constructor|].
    inversion Hq; subst. constructor; [|apply IH; assumption].
    apply (processItem_nonneg w options req); [assumption|lia|assumption]. }
  split; [exact Hitems|].
  assert (H0 : 0 <= sub).
  { rewrite Hs. apply sumTotals_nonneg.
    eapply Forall_impl; [|exact Hitems]. intros i (_ & H). exact H. }
  rewrite Hp.
  cbn [OrderRoutes.calculatePricing Order.tax Order.subtotal Order.total].
  pose proof (round_nonneg (sub * (5 # 100)) ltac:(lra)).
  repeat split; lra.
Qed.

Lemma built_order_amounts_are_not_negative_witness :
  Forall (fun i => 0 <= Order.itemPrice i /\ 0 <= Order.totalItemPrice i)
         (Order.items scenario_order)
  /\ 0 <= Order.subtotal (Order.pricing scenario_order)
  /\ 0 <= Order.tax (Order.pricing scenario_order)
  /\ 50 <= Order.total (Order.pricing scenario_order).
Proof.
  apply (built_order_amounts_are_not_negative sample_runtime sample_env
           "u1" (sample_request None Order.cod) catalog_world
           (Order.mkDoc scenario_order true false)).
  - intros options [= <-]. split; repeat constructor; vm_compute;
      discriminate.
  - reflexivity.
Defined.

(** X14.  For a request item without customizations of an available
    pizza, the unit price the order route captures is the price the pizza
    model's [calculatePrice] gives for that size, and the line total is
    that price times the quantity; when the pizza does not offer the size
    the route answers 400, where [calculatePrice] would fall back to the
    base price. *)
Theorem plain_item_price_is_the_model_price :
  forall (w : World) (options : PizzaOptions.T)
         (item : OrderRoutes.ItemRequest) (pz : Pizza.T),
    find (fun p => String.eqb (Pizza._id p) (OrderRoutes.pizza item))
         (pizzas w) = Some pz ->
    Pizza.isAvailable pz = true ->
    OrderRoutes.customizations item = None ->
    match OrderRoutes.processItem w options item with
    | inr oi =>
        Order.itemPrice oi
        == Pizza.calculatePrice (Some (OrderRoutes.size item)) pz
        /\ Order.totalItemPrice oi
           == Pizza.calculatePrice (Some (OrderRoutes.size item)) pz
              * inject_Z (OrderRoutes.quantity item)
    | inl early =>
        Http.code early = 400%Z
        /\ Pizza.calculatePrice (Some (OrderRoutes.size item)) pz
           = Pizza.basePrice pz
    end.
Proof.
  intros w options item pz F Ha Hc.
  unfold OrderRoutes.processItem, Pizza.calculatePrice.
  rewrite F, Ha, Hc. cbn [negb].
  destruct (find _ (Pizza.sizes pz)) as [so|]; [|split; reflexivity].
  cbn [OrderRoutes.processCustomizations Order.itemPrice
       Order.totalItemPrice].
  unfold ok. cbn [Order.itemPrice Order.totalItemPrice]. split; ring.
Qed.

Lemma plain_item_price_is_the_model_price_witness :
  match OrderRoutes.processItem catalog_world sample_options
          (OrderRoutes.mkItemRequest "64a000000000000000000001" 2 "large"
                                     None) with
  | inr oi =>
      Order.itemPrice oi
      == Pizza.calculatePrice (Some "large"%string) sample_pizza
      /\ Order.totalItemPrice oi
         == Pizza.calculatePrice (Some "large"%string) sample_pizza
            * inject_Z 2
  | inl early =>
      Http.code early = 400%Z
      /\ Pizza.calculatePrice (Some "large"%string) sample_pizza
         = Pizza.basePrice sample_pizza
  end.
Proof.
  exact (plain_item_price_is_the_model_price catalog_world sample_options
           (OrderRoutes.mkItemRequest "64a000000000000000000001" 2 "large"
                                      None)
           sample_pizza eq_refl eq_refl eq_refl).
Defined.

Lemma fold_quantities (l : list Order.Item) (z : Z) :
  fold_left (fun total item => (total + Order.quantity item)%Z) l z
  = (z + fold_right (fun item acc => Order.quantity item + acc) 0 l)%Z.
Proof.
  revert z. induction l as [|i l IH]; intro z; [cbn; lia|].
  cbn [fold_left fold_right]. rewrite IH. lia.
Qed.

(** X13.  The summary of the order the creation handler builds counts
    the pizzas: its item count is the sum of the requested quantities,
    which lies between the number of lines and ten times that number, and
    its total is the total of the pricing. *)
Theorem built_order_item_count :
  forall (rt : Runtime) (e : Order.Env) (userId : string)
         (r : OrderRoutes.CreateRequest) (w : World) (d : Order.Doc),
    OrderRoutes.build rt e userId r w = inr d ->
    let o := Order.fields d in
    let n := Z.of_nat (List.length (OrderRoutes.items r)) in
    Order.itemCount (Order.getOrderSummary o)
    = fold_right (fun i acc => (OrderRoutes.quantity i + acc)%Z) 0%Z
                 (OrderRoutes.items r)
    /\ (n <= Order.itemCount (Order.getOrderSummary o) <= 10 * n)%Z
    /\ Order.summaryTotal (Order.getOrderSummary o)
       = Order.total (Order.pricing o).
Proof.
  intros rt e userId r w d Hd o n. subst o.
  destruct (built_order rt e userId r w d Hd)
    as (options & sub & V & _ & Hf & _).
  destruct (validCreate_items rt r V) as (_ & Hq).
  unfold Order.getOrderSummary. cbn [Order.itemCount Order.summaryTotal].
  rewrite fold_quantities, Z.add_0_l.
  assert (Hsum :
    fold_right (fun item acc => (Order.quantity item + acc)%Z) 0%Z
               (Order.items (Order.fields d))
    = fold_right (fun i acc => (OrderRoutes.quantity i + acc)%Z) 0%Z
                 (OrderRoutes.items r)).
  { clear Hq. induction Hf as [|req oi reqs ois H1 _ IH]; [reflexivity|].
    cbn [fold_right]. rewrite IH, (processItem_quantity _ _ _ _ H1).
    reflexivity. }
  rewrite Hsum. split; [reflexivity|]. split; [|reflexivity].
  unfold n. clear Hf Hsum.
  induction Hq as [|i l Hi _ IH]; [cbn; lia|].
  cbn [fold_right List.length]. cbn beta in Hi. cbv zeta in IH. lia.
Qed.

Lemma built_order_item_count_witness :
  let n :=
    Z.of_nat (List.length
                (OrderRoutes.items (sample_request None Order.cod))) in
  Order.itemCount (Order.getOrderSummary scenario_order)
  = fold_right (fun i acc => (OrderRoutes.quantity i + acc)%Z) 0%Z
               (OrderRoutes.items (sample_request None Order.cod))
  /\ (n <= Order.itemCount (Order.getOrderSummary scenario_order)
      <= 10 * n)%Z
  /\ Order.summaryTotal (Order.getOrderSummary scenario_order)
     = Order.total (Order.pricing scenario_order).
Proof.
  apply (built_order_item_count sample_runtime sample_env "u1"
           (sample_request None Order.cod) catalog_world
           (Order.mkDoc scenario_order true false)).
  reflexivity.
Defined.

End BuiltAmounts.

(** ** Tracking and listing *)

Lemma trackingSteps_timestamp (o : Order.T) (s : OrderQueries.TrackingStep) :
  In s (OrderQueries.trackingSteps o) ->
  OrderQueries.timestamp s
  = option_map Order.timestamp
      (find (fun h => Order.Status_eqb (Order.status h) (OrderQueries.key s))
            (Order.statusHistory o)).
Proof.
  unfold OrderQueries.trackingSteps. intro Hs. cbn in Hs.
  repeat (destruct Hs as [<- | Hs]; [reflexivity|]). contradiction.
Qed.

Lemma trackingSteps_current (o : Order.T) (s : OrderQueries.TrackingStep) :
  In s (OrderQueries.trackingSteps o) ->
  OrderQueries.isCurrent s = true ->
  OrderQueries.key s = Order.orderStatus o.
Proof.
  unfold OrderQueries.trackingSteps. intros Hs Hc.
  destruct (Order.orderStatus o); cbn in Hs;
    repeat (destruct Hs as [<- | Hs];
            [cbn in Hc; try discriminate; reflexivity|]);
    contradiction.
Qed.

(** X15.  The tracking page lists the six steps from pending to delivered,
    each with the time of the first history record of its status, if any.
    For a cancelled order no step is completed or current; otherwise the
    current step is the one of the order's status and the completed steps
    are those up to and including it. *)
Theorem tracking_steps_follow_the_status :
  forall (o : Order.T),
    let steps := OrderQueries.trackingSteps o in
    map OrderQueries.key steps = OrderQueries.statusSteps
    /\ (forall s,
           In s steps ->
           OrderQueries.timestamp s
           = option_map Order.timestamp
               (find (fun h => Order.Status_eqb (Order.status h)
                                                (OrderQueries.key s))
                     (Order.statusHistory o)))
    /\ (Order.orderStatus o = Order.cancelled ->
        forall s,
          In s steps ->
          OrderQueries.isCompleted s = false
          /\ OrderQueries.isCurrent s = false)
    /\ (Order.orderStatus o <> Order.cancelled ->
        forall s,
          In s steps ->
          (OrderQueries.isCurrent s = true
           <-> OrderQueries.key s = Order.orderStatus o)
          /\ (OrderQueries.isCompleted s = true
              <-> (progress (OrderQueries.key s)
                   <= progress (Order.orderStatus o))%nat)).
Proof.
  intro o. cbv zeta. unfold OrderQueries.trackingSteps.
  split; [reflexivity|]. split.
  { intros s Hs. cbn in Hs.
    repeat (destruct Hs as [<- | Hs]; [reflexivity|]). contradiction. }
  split.
  - intros -> s Hs. cbn in Hs.
    repeat (destruct Hs as [<- | Hs]; [split; reflexivity|]). contradiction.
  - intros Hne s Hs.
    destruct (Order.orderStatus o); try contradiction; cbn in Hs;
      repeat (destruct Hs as [<- | Hs];
              [cbn; split; split; intro; try reflexivity; try discriminate;
               try lia|]);
      contradiction.
Qed.

Lemma find_last_status (o : Order.T) :
  historyAgrees o ->
  Order.orderStatus o <> Order.pending ->
  exists c,
    find (fun h => Order.Status_eqb (Order.status h) (Order.orderStatus o))
         (Order.statusHistory o) = Some c.
Proof.
  unfold historyAgrees, lastStatus. intros Ha Hne.
  destruct (rev (Order.statusHistory o)) as [|c l] eqn:R;
    [congruence|].
  destruct (find _ (Order.statusHistory o)) as [x|] eqn:F;
    [exists x; reflexivity|].
  exfalso.
  assert (Hin : In c (Order.statusHistory o))
    by (apply in_rev; rewrite R; left; reflexivity).
  pose proof (find_none _ _ F c Hin) as H. cbn beta in H.
  rewrite Ha in H.
  assert (Order.Status_eqb (Order.orderStatus o) (Order.orderStatus o)
          = true) by (apply Status_eqb_eq; reflexivity).
  congruence.
Qed.

(** X16.  When the status history of an order ends with its current
    status and the order is no longer pending, the current step of the
    tracking page carries a time. *)
Theorem current_tracking_step_has_a_time :
  forall (o : Order.T) (s : OrderQueries.TrackingStep),
    historyAgrees o ->
    Order.orderStatus o <> Order.pending ->
    In s (OrderQueries.trackingSteps o) ->
    OrderQueries.isCurrent s = true ->
    exists t, OrderQueries.timestamp s = Some t.
Proof.
  intros o s Ha Hne Hs Hc.
  destruct (find_last_status o Ha Hne) as (c & F).
  rewrite (trackingSteps_timestamp o s Hs).
  rewrite (trackingSteps_current o s Hs Hc), F.
  eexists. reflexivity.
Qed.

Lemma current_tracking_step_has_a_time_witness :
  exists t,
    OrderQueries.timestamp
      (OrderQueries.mkStep Order.confirmed true true (Some 1730543210123%Z))
    = Some t.
Proof.
  apply (current_tracking_step_has_a_time confirmed_order
           (OrderQueries.mkStep Order.confirmed true true
                                (Some 1730543210123%Z))).
  - reflexivity.
  - discriminate.
  - right. left. reflexivity.
  - reflexivity.
Defined.

Section Listing.

Local Open Scope Z_scope.

Lemma ceil_pages (count limit : Z) :
  1 <= limit ->
  let pages := JS.ceil (inject_Z count / inject_Z limit) in
  (pages - 1) * limit < count <= pages * limit.
Proof.
  intro Hl. cbv zeta. unfold JS.ceil.
  set (x := (inject_Z count / inject_Z limit)%Q).
  pose proof (Qle_ceiling x) as H1.
  pose proof (Qceiling_lt x) as H2.
  assert (Hpos : (0 < inject_Z limit)%Q)
    by (change 0%Q with (inject_Z 0); rewrite <- Zlt_Qlt; lia).
  assert (Hx : (x * inject_Z limit == inject_Z count)%Q)
    by (unfold x; field; lra).
  split.
  - rewrite Zlt_Qlt, inject_Z_mult, <- Hx.
    apply Qmult_lt_r; [exact Hpos|exact H2].
  - rewrite Zle_Qle, inject_Z_mult, <- Hx.
    apply Qmult_le_r; [exact Hpos|exact H1].
Qed.

Lemma pagination_spec (page limit count : Z) :
  1 <= limit ->
  let p := OrderQueries.pagination page limit count in
  (OrderQueries.total p - 1) * limit < count <= OrderQueries.total p * limit
  /\ (OrderQueries.hasNext p = true <-> page * limit < count)
  /\ (OrderQueries.hasPrev p = true <-> 1 < page).
Proof.
  intro Hl. cbv zeta. unfold OrderQueries.pagination. cbv zeta.
  cbn [OrderQueries.total OrderQueries.hasNext OrderQueries.hasPrev].
  pose proof (ceil_pages count limit Hl) as H. cbv zeta in H.
  set (pages := JS.ceil (inject_Z count / inject_Z limit)) in *.
  split; [exact H|]. rewrite !Z.ltb_lt. split; [|reflexivity].
  split; intro; nia.
Qed.

Lemma window_length {A} (skip limit : Z) (l : list A) :
  0 <= skip -> 0 <= limit ->
  Z.of_nat (List.length (OrderQueries.window skip limit l))
  = Z.min limit (Z.max 0 (Z.of_nat (List.length l) - skip)).
Proof.
  intros Hs Hl. unfold OrderQueries.window.
  rewrite length_firstn, length_skipn. lia.
Qed.

(** X17.  For a page number and a limit of at least 1, a listing route
    answers with the documents of that page, at most [limit] of them; it
    announces a next page exactly when the next page is not empty and a
    previous page exactly when the page is not the first; the page is empty
    exactly when its number exceeds the number of pages; and the item count
    is the number of matching documents. *)
Theorem listing_pages_are_consistent :
  forall (A : Type) (page limit defaultLimit : Z) (sorted : list A),
    1 <= page -> 1 <= limit ->
    let answer :=
      OrderQueries.listing (Some page) (Some limit) defaultLimit sorted in
    let next :=
      OrderQueries.listing (Some (page + 1)) (Some limit) defaultLimit
                           sorted in
    let p := snd answer in
    Z.of_nat (List.length (fst answer))
    = Z.min limit
            (Z.max 0 (Z.of_nat (List.length sorted) - (page - 1) * limit))
    /\ (OrderQueries.hasNext p = true <-> fst next <> [])
    /\ (OrderQueries.hasPrev p = true <-> 1 < page)
    /\ (fst answer = [] <-> OrderQueries.total p < page)
    /\ OrderQueries.totalItems p = Z.of_nat (List.length sorted).
Proof.
  intros A page limit defaultLimit sorted Hp Hl. cbv zeta.
  unfold OrderQueries.listing. cbv zeta. cbn [JS.int_or fst snd].
  assert ((page =? 0) = false) as -> by (apply Z.eqb_neq; lia).
  assert ((limit =? 0) = false) as -> by (apply Z.eqb_neq; lia).
  assert ((page + 1 =? 0) = false) as -> by (apply Z.eqb_neq; lia).
  destruct (pagination_spec page limit (Z.of_nat (List.length sorted)) Hl)
    as (Hpages & Hnext & Hprev).
  cbv zeta in *.
  set (p := OrderQueries.pagination page limit
                                    (Z.of_nat (List.length sorted))) in *.
  assert (Hlen : forall q, 1 <= q ->
    (OrderQueries.window ((q - 1) * limit) limit sorted = []
     <-> Z.of_nat (List.length sorted) <= (q - 1) * limit)).
  { intros q Hq.
    pose proof (window_length ((q - 1) * limit) limit sorted
                  ltac:(nia) ltac:(lia)) as W.
    destruct (OrderQueries.window ((q - 1) * limit) limit sorted) eqn:E.
    - cbn in W. split; [intros _; lia|reflexivity].
    - cbn [List.length] in W. split; [discriminate|]. intro. lia. }
  split; [apply window_length; nia|].
  split.
  { rewrite Hnext. pose proof (Hlen (page + 1) ltac:(lia)) as H.
    split.
    - intros Hlt Hnil. apply H in Hnil. nia.
    - intro Hne. destruct (Z_lt_le_dec (page * limit)
                             (Z.of_nat (List.length sorted))) as [|Hge];
        [assumption|]. exfalso. apply Hne. apply H. nia. }
  split; [exact Hprev|]. split; [|reflexivity].
  rewrite (Hlen page Hp). split; intro; nia.
Qed.

Lemma listing_pages_are_consistent_witness :
  Z.of_nat (List.length
              (fst (OrderQueries.listing (Some 2) (Some 2) 10
                      [1; 2; 3; 4; 5])))
  = Z.min 2 (Z.max 0 (Z.of_nat (List.length [1; 2; 3; 4; 5]) - (2 - 1) * 2))
  /\ (OrderQueries.hasNext
        (snd (OrderQueries.listing (Some 2) (Some 2) 10 [1; 2; 3; 4; 5]))
      = true
      <-> fst (OrderQueries.listing (Some (2 + 1)) (Some 2) 10
                 [1; 2; 3; 4; 5]) <> [])
  /\ (OrderQueries.hasPrev
        (snd (OrderQueries.listing (Some 2) (Some 2) 10 [1; 2; 3; 4; 5]))
      = true <-> 1 < 2)
  /\ (fst (OrderQueries.listing (Some 2) (Some 2) 10 [1; 2; 3; 4; 5]) = []
      <-> OrderQueries.total
            (snd (OrderQueries.listing (Some 2) (Some 2) 10
                    [1; 2; 3; 4; 5])) < 2)
  /\ OrderQueries.totalItems
       (snd (OrderQueries.listing (Some 2) (Some 2) 10 [1; 2; 3; 4; 5]))
     = Z.of_nat (List.length [1; 2; 3; 4; 5]).
Proof.
  apply (listing_pages_are_consistent Z 2 2 10 [1; 2; 3; 4; 5]); lia.
Defined.

End Listing.

(** ** Further properties of the inventory ledger *)

Section Ledger.

Local Open Scope Q_scope.

Lemma applyAction_known now act qty i :
  (exists d, Inventory.applyAction now act qty i = inr d)
  <-> In act stockActions.
Proof.
  unfold Inventory.applyAction, stockActions. split.
  - intros (d & H).
    destruct (String.eqb act "restock") eqn:E1;
      [apply String.eqb_eq in E1; subst; cbn; auto|].
    destruct (String.eqb act "consumption") eqn:E2;
      [apply String.eqb_eq in E2; subst; cbn; auto|].
    destruct (String.eqb act "wastage") eqn:E3;
      [apply String.eqb_eq in E3; subst; cbn; auto|].
    destruct (String.eqb act "adjustment") eqn:E4;
      [apply String.eqb_eq in E4; subst; cbn; auto|].
    discriminate.
  - intros [<- | [<- | [<- | [<- | []]]]]; cbn; eexists; reflexivity.
Qed.

Lemma applyAction_levels now act qty i d :
  Inventory.applyAction now act qty i = inr d ->
  Inventory.minStockLevel d = Inventory.minStockLevel i
  /\ Inventory.maxStockLevel d = Inventory.maxStockLevel i
  /\ Inventory.stockHistory d = Inventory.stockHistory i.
Proof.
  unfold Inventory.applyAction.
  destruct (String.eqb act "restock"); [intros [= <-]; repeat split|].
  destruct (_ || _); [intros [= <-]; repeat split|].
  destruct (String.eqb act "adjustment"); [intros [= <-]; repeat split|].
  discriminate.
Qed.

(** [updateStock] in one equation. *)
Lemma updateStock_unfold now act qty why who ord i :
  Inventory.updateStock now act qty why who ord i
  = match Inventory.applyAction now act qty i with
    | inl err => inl err
    | inr d =>
        let c := Inventory.clampStock d in
        Inventory.save now
          (Inventory.push_stockHistory
             (Inventory.mkMovement act (JS.abs qty)
                (Inventory.currentStock i) (Inventory.currentStock c)
                why who now ord) c)
    end.
Proof. reflexivity. Qed.

(** X18.  [updateStock] succeeds exactly when the action is one of restock,
    consumption, wastage and adjustment and the maximum level of the item
    is above its minimum level.  An unknown action fails with "Invalid
    stock action"; a known action on an item whose maximum level does not
    exceed the minimum fails with the message of the save hook. *)
Theorem updateStock_failures :
  forall (now : Z) (act : string) (qty : JS.number)
         (why who ord : option string) (i : Inventory.Item),
    let run := Inventory.updateStock now act qty why who ord i in
    (~ In act stockActions -> run = inl "Invalid stock action"%string)
    /\ (In act stockActions ->
        Inventory.maxStockLevel i <= Inventory.minStockLevel i ->
        run = inl tooNarrow)
    /\ ((exists r, run = inr r)
        <-> In act stockActions
            /\ Inventory.minStockLevel i < Inventory.maxStockLevel i).
Proof.
  intros now act qty why who ord i run. unfold run.
  rewrite updateStock_unfold.
  pose proof (applyAction_known now act qty i) as Hk.
  destruct (Inventory.applyAction now act qty i) as [err|d] eqn:A.
  - assert (Hno : ~ In act stockActions)
      by (intro H; apply Hk in H; destruct H; discriminate).
    split; [|split].
    + intros _. revert A. unfold Inventory.applyAction.
      destruct (String.eqb act "restock"); [discriminate|].
      destruct (_ || _); [discriminate|].
      destruct (String.eqb act "adjustment"); [discriminate|].
      intros [= <-]. reflexivity.
    + intros H. contradiction.
    + split; [intros (r & H); discriminate|intros (H & _); contradiction].
  - assert (Hyes : In act stockActions) by (apply Hk; eexists; reflexivity).
    destruct (applyAction_levels now act qty i d A) as (Hmin & Hmax & _).
    cbv zeta. unfold Inventory.save, Inventory.preSave.
    assert (Hlv :
      forall m c,
        Inventory.maxStockLevel
          (Inventory.push_stockHistory m (Inventory.clampStock c))
        = Inventory.maxStockLevel c
        /\ Inventory.minStockLevel
             (Inventory.push_stockHistory m (Inventory.clampStock c))
           = Inventory.minStockLevel c).
    { intros m c. unfold Inventory.clampStock.
      destruct (JS.ltb _ _); split; reflexivity. }
    destruct (Hlv (Inventory.mkMovement act (JS.abs qty)
                     (Inventory.currentStock i)
                     (Inventory.currentStock (Inventory.clampStock d))
                     why who now ord) d) as (-> & ->).
    rewrite Hmin, Hmax.
    destruct (JS.leb (Inventory.maxStockLevel i) (Inventory.minStockLevel i))
      eqn:L.
    + apply JS_leb_iff in L. split; [intro; contradiction|].
      split; [reflexivity|].
      split; [intros (r & H); discriminate|].
      intros (_ & H). exfalso. lra.
    + apply JS_leb_false_iff in L. split; [intro; contradiction|].
      split; [intros _ H; exfalso; lra|].
      split; [auto|intros _; eexists; reflexivity].
Qed.

(** Everything a successful [updateStock] changes. *)
Lemma updateStock_result now act qty why who ord i r :
  Inventory.updateStock now act qty why who ord i = inr r ->
  let after :=
    if JS.ltb (target act qty (Inventory.currentStock i)) 0 then 0
    else target act qty (Inventory.currentStock i) in
  In act stockActions
  /\ Inventory.currentStock r = after
  /\ Inventory.stockHistory r
     = (Inventory.stockHistory i
          ++ [Inventory.mkMovement act (JS.abs qty)
                (Inventory.currentStock i) after why who now ord])%list
  /\ Inventory._id r = Inventory._id i
  /\ Inventory.name r = Inventory.name i
  /\ Inventory.isActive r = Inventory.isActive i
  /\ Inventory.minStockLevel r = Inventory.minStockLevel i
  /\ Inventory.maxStockLevel r = Inventory.maxStockLevel i
  /\ Inventory.lowStockAlertSent r
     = (if String.eqb act "restock" then false
        else Inventory.lowStockAlertSent i).
Proof.
  rewrite updateStock_unfold. cbv zeta.
  destruct (Inventory.applyAction now act qty i) as [err|d] eqn:A;
    [discriminate|].
  assert (Hk : In act stockActions)
    by (apply (applyAction_known now act qty i); eexists; exact A).
  unfold Inventory.save, Inventory.preSave.
  match goal with |- context [JS.leb ?a ?b] => destruct (JS.leb a b) end;
    [discriminate|].
  intros [= <-]. split; [exact Hk|].
  revert A. unfold Inventory.applyAction, target.
  destruct Hk as [<- | [<- | [<- | [<- | []]]]]; cbn [String.eqb Ascii.eqb
    Bool.eqb orb]; intros [= <-]; unfold Inventory.clampStock;
    cbn [Inventory.currentStock Inventory.set_currentStock
         Inventory.set_lastRestocked Inventory.set_lowStockAlertSent];
    match goal with |- context [JS.ltb ?a 0] => destruct (JS.ltb a 0) end;
    repeat split.
Qed.

Lemma clamp_cases (x : Q) :
  let c := if JS.ltb x 0 then 0 else x in
  0 <= c /\ x <= c /\ (0 <= x -> c = x).
Proof.
  cbv zeta. destruct (JS.ltb x 0) eqn:E.
  - apply JS_ltb_iff in E. repeat split; lra.
  - apply JS_ltb_false_iff in E. repeat split; try lra; reflexivity.
Qed.

Lemma chained_snoc (start : Q) (h : list Inventory.StockMovement)
      (stock : Q) (m : Inventory.StockMovement) :
  chained start h stock ->
  Inventory.previousStock m = stock ->
  chained start (h ++ [m]) (Inventory.newStock m).
Proof.
  revert start. induction h as [|x h IH]; intros start H Hm.
  - cbn in *. subst. auto.
  - cbn in *. destruct H as (H1 & H2). split; [exact H1|]. apply IH; auto.
Qed.

Lemma auditTrail_updateStock now act qty why who ord (i r : Inventory.Item) :
  auditTrail i ->
  Inventory.updateStock now act qty why who ord i = inr r ->
  auditTrail r.
Proof.
  intros ((start & Hc) & Hf) H.
  destruct (updateStock_result now act qty why who ord i r H)
    as (_ & Hs & Hh & _).
  cbv zeta in Hs, Hh. split.
  - exists start. rewrite Hh, Hs.
    match goal with
    | |- chained _ (_ ++ [?m]) ?x => change x with (Inventory.newStock m)
    end.
    apply (chained_snoc start _ (Inventory.currentStock i)); auto.
  - rewrite Hh. apply Forall_app. split; [exact Hf|].
    constructor; [|constructor].
    cbn [Inventory.quantity Inventory.newStock]. split.
    + apply Qabs_nonneg.
    + apply clamp_cases.
Qed.

(** X19.  When the history of an item is an audit trail of its stock (each
    movement starts from the stock the one before left, the last one left
    the current stock, no quantity and no resulting stock is negative), it
    still is after a successful [updateStock], whose one new record leads
    from the stock before to the stock stored. *)
Theorem updateStock_keeps_the_audit_trail :
  forall (now : Z) (act : string) (qty : JS.number)
         (why who ord : option string) (i r : Inventory.Item),
    auditTrail i ->
    Inventory.updateStock now act qty why who ord i = inr r ->
    auditTrail r
    /\ exists m,
         Inventory.stockHistory r = Inventory.stockHistory i ++ [m]
         /\ Inventory.previousStock m = Inventory.currentStock i
         /\ Inventory.newStock m = Inventory.currentStock r.
Proof.
  intros now act qty why who ord i r Ha H. split.
  - apply (auditTrail_updateStock now act qty why who ord i r Ha H).
  - destruct (updateStock_result now act qty why who ord i r H)
      as (_ & Hs & Hh & _).
    cbv zeta in Hs, Hh. eexists. split; [exact Hh|].
    split; [reflexivity|]. cbn [Inventory.newStock]. symmetry. exact Hs.
Qed.

Lemma updateStock_keeps_the_audit_trail_witness :
  auditTrail sample_item
  /\ exists r,
       Inventory.updateStock 1000 "consumption" 5 None None None sample_item
       = inr r
       /\ auditTrail r.
Proof.
  assert (H : auditTrail sample_item).
  { split; [exists 8; reflexivity|constructor]. }
  split; [exact H|].
  eexists. split; [reflexivity|].
  apply (updateStock_keeps_the_audit_trail 1000 "consumption" 5 None None
           None sample_item _ H eq_refl).
Defined.

Lemma status_monotone (a b : Inventory.Item) :
  Inventory.minStockLevel a = Inventory.minStockLevel b ->
  Inventory.maxStockLevel a = Inventory.maxStockLevel b ->
  Inventory.currentStock a <= Inventory.currentStock b ->
  (statusRank (Inventory.getStockStatus a)
   <= statusRank (Inventory.getStockStatus b))%nat.
Proof.
  intros Hmin Hmax Hle.
  destruct (Inventory.getStockStatus b) eqn:B.
  - apply status_critical_iff in B.
    assert (A : Inventory.getStockStatus a = Inventory.critical)
      by (apply status_critical_iff; rewrite Hmin; lra).
    rewrite A. cbn. lia.
  - apply status_low_iff in B. destruct B as (B1 & B2).
    destruct (Inventory.getStockStatus a) eqn:A; cbn; try lia.
    + apply status_overstocked_iff in A. rewrite Hmin in A. exfalso. lra.
    + apply status_normal_iff in A. rewrite Hmin in A. exfalso. lra.
  - destruct (Inventory.getStockStatus a); cbn; lia.
  - apply status_normal_iff in B. destruct B as (B1 & B2 & B3).
    destruct (Inventory.getStockStatus a) eqn:A; cbn; try lia.
    apply status_overstocked_iff in A. rewrite Hmax in A. exfalso. lra.
Qed.

(** X20.  For a quantity and a stock that are not negative, a consumption
    or a wastage never moves the stock status of an item towards the fuller
    end of critical, low, normal, overstocked, and a restock never moves it
    towards the emptier end. *)
Theorem stock_status_follows_the_stock :
  forall (now : Z) (act : string) (qty : JS.number)
         (why who ord : option string) (i r : Inventory.Item),
    0 <= qty ->
    0 <= Inventory.currentStock i ->
    Inventory.updateStock now act qty why who ord i = inr r ->
    (act = "consumption"%string \/ act = "wastage"%string ->
     (statusRank (Inventory.getStockStatus r)
      <= statusRank (Inventory.getStockStatus i))%nat)
    /\ (act = "restock"%string ->
        (statusRank (Inventory.getStockStatus i)
         <= statusRank (Inventory.getStockStatus r))%nat).
Proof.
  intros now act qty why who ord i r Hq Hs H.
  destruct (updateStock_result now act qty why who ord i r H)
    as (_ & Hr & _ & _ & _ & _ & Hmin & Hmax & _).
  cbv zeta in Hr.
  destruct (clamp_cases (target act qty (Inventory.currentStock i)))
    as (C0 & C1 & C2).
  cbv zeta in C0, C1, C2.
  split.
  - intro Ha. apply status_monotone; [exact Hmin|exact Hmax|].
    rewrite Hr.
    assert (T : target act qty (Inventory.currentStock i)
                = Inventory.currentStock i - qty)
      by (destruct Ha as [-> | ->]; reflexivity).
    rewrite T in *.
    destruct (JS.ltb (Inventory.currentStock i - qty) 0); lra.
  - intros ->. apply status_monotone; [auto|auto|].
    rewrite Hr. change (target "restock" qty (Inventory.currentStock i))
      with (Inventory.currentStock i + qty) in *. lra.
Qed.

Lemma stock_status_follows_the_stock_witness :
  exists r,
    Inventory.updateStock 1000 "consumption" 5 None None None sample_item
    = inr r
    /\ (statusRank (Inventory.getStockStatus r)
        <= statusRank (Inventory.getStockStatus sample_item))%nat.
Proof.
  eexists. split; [reflexivity|].
  refine (proj1 (stock_status_follows_the_stock 1000 "consumption" 5 None
                   None None sample_item _ _ _ eq_refl)
                (or_introl eq_refl));
    vm_compute; discriminate.
Defined.

Lemma fold_quantity (l : list Inventory.StockMovement) (z : Q) :
  fold_left (fun total entry => total + Inventory.quantity entry) l z
  == z + fold_left (fun total entry => total + Inventory.quantity entry) l 0.
Proof.
  revert z. induction l as [|m l IH]; intro z; [cbn; lra|].
  cbn [fold_left]. rewrite IH, (IH (0 + Inventory.quantity m)). lra.
Qed.

Lemma rate_snoc now (i r : Inventory.Item) (m : Inventory.StockMovement) :
  Inventory.stockHistory r = (Inventory.stockHistory i ++ [m])%list ->
  Inventory.getConsumptionRate now r
  == Inventory.getConsumptionRate now i
     + (if String.eqb (Inventory.action m) "consumption"
           && (now - 30 * 24 * 60 * 60 * 1000 <=? Inventory.timestamp m)%Z
        then Inventory.quantity m / 30 else 0).
Proof.
  intro H. unfold Inventory.getConsumptionRate. cbv zeta.
  rewrite H, filter_app, fold_left_app. cbn [filter].
  destruct (_ && _); cbn [fold_left]; field.
Qed.

(** X21.  Measured at the time of the movement, a successful consumption
    raises the consumption rate of the item by one thirtieth of the
    absolute value of the requested quantity, whether or not the stock
    covered it; a restock, a wastage and an adjustment leave the rate as it
    was. *)
Theorem consumption_rate_after_a_movement :
  forall (now : Z) (act : string) (qty : JS.number)
         (why who ord : option string) (i r : Inventory.Item),
    Inventory.updateStock now act qty why who ord i = inr r ->
    Inventory.getConsumptionRate now r
    == Inventory.getConsumptionRate now i
       + (if String.eqb act "consumption" then Qabs qty / 30 else 0).
Proof.
  intros now act qty why who ord i r H.
  destruct (updateStock_result now act qty why who ord i r H)
    as (_ & _ & Hh & _).
  cbv zeta in Hh. rewrite (rate_snoc now i r _ Hh).
  cbn [Inventory.action Inventory.timestamp Inventory.quantity].
  assert ((now - 30 * 24 * 60 * 60 * 1000 <=? now)%Z = true) as ->
    by (apply Z.leb_le; lia).
  rewrite andb_true_r. reflexivity.
Qed.

Lemma consumption_rate_after_a_movement_witness :
  exists r,
    Inventory.updateStock 1000 "consumption" 60 None None None sample_item
    = inr r
    /\ Inventory.getConsumptionRate 1000 r
       == Inventory.getConsumptionRate 1000 sample_item + Qabs 60 / 30.
Proof.
  eexists. split; [reflexivity|].
  apply (consumption_rate_after_a_movement 1000 "consumption" 60 None None
           None sample_item _ eq_refl).
Defined.

Lemma rate_nonneg now (i : Inventory.Item) :
  Forall (fun m => 0 <= Inventory.quantity m) (Inventory.stockHistory i) ->
  0 <= Inventory.getConsumptionRate now i.
Proof.
  intro H. unfold Inventory.getConsumptionRate. cbv zeta.
  assert (H' : 0 <= fold_left
                      (fun total entry => total + Inventory.quantity entry)
                      (filter
                         (fun entry =>
                            String.eqb (Inventory.action entry) "consumption"
                            && (now - 30 * 24 * 60 * 60 * 1000
                                <=? Inventory.timestamp entry)%Z)
                         (Inventory.stockHistory i)) 0).
  { induction H as [|m l Hm _ IH]; [cbn; lra|].
    cbn [filter]. destruct (_ && _); [|exact IH].
    cbn [fold_left]. rewrite fold_quantity. lra. }
  apply Qle_shift_div_l; lra.
Qed.

Lemma integerPart_ge (n : Z) (x : Q) :
  inject_Z n <= x -> (n <= (if Qle_bool 0 x then Qfloor x else Qceiling x))%Z.
Proof.
  intro H. destruct (Qle_bool 0 x).
  - rewrite <- (Qfloor_Z n). apply Qfloor_resp_le. exact H.
  - rewrite Zle_Qle. eapply Qle_trans; [exact H|]. apply Qle_ceiling.
Qed.

(** X22.  For an item whose stock is not negative and whose history is an
    audit trail: [predictStockOutDate] answers [null] exactly when nothing
    was consumed in the last 30 days.  Otherwise it answers the date, to the
    millisecond below, that lies the stock divided by the daily rate in days
    after the present, when that is a time value a date can have, and an
    Invalid Date when it is beyond the largest one.  The date is not before
    the present, and it is the present when the stock is 0. *)
Theorem stock_out_prediction :
  forall (now : Z) (i : Inventory.Item),
    auditTrail i ->
    0 <= Inventory.currentStock i ->
    (0 <= now)%Z ->
    let rate := Inventory.getConsumptionRate now i in
    let due :=
      inject_Z now + Inventory.currentStock i / rate * 24 * 60 * 60 * 1000 in
    match Inventory.predictStockOutDate now i with
    | None => rate == 0
    | Some JS.InvalidDate => 0 < rate /\ inject_Z JS.maxTime < due
    | Some (JS.Time d) =>
        0 < rate
        /\ due <= inject_Z JS.maxTime
        /\ (now <= d)%Z
        /\ inject_Z d <= due < inject_Z d + 1
        /\ (Inventory.currentStock i == 0 -> d = now)
    end.
Proof.
  intros now i (_ & Hf) Hs Hnow rate due.
  assert (Hr : 0 <= rate).
  { apply rate_nonneg. eapply Forall_impl; [|exact Hf].
    intros m (H & _). exact H. }
  unfold Inventory.predictStockOutDate. cbv zeta. fold rate.
  destruct (JS.leb rate 0) eqn:L.
  - apply JS_leb_iff in L. lra.
  - apply JS_leb_false_iff in L. fold due.
    assert (Hd : 0 <= Inventory.currentStock i / rate)
      by (apply Qle_shift_div_l; lra).
    assert (Hd' : 0 <= Inventory.currentStock i / rate * 24 * 60 * 60 * 1000).
    { do 4 (apply Qmult_le_0_compat; [|unfold Qle; cbn; lia]). exact Hd. }
    assert (Hn0 : 0 <= inject_Z now)
      by (change 0 with (inject_Z 0); rewrite <- Zle_Qle; exact Hnow).
    assert (Hdue : inject_Z now <= due) by (unfold due; lra).
    assert (Hpos : 0 <= due) by lra.
    assert (Habs : Qabs due == due) by (apply Qabs_pos; exact Hpos).
    unfold JS.newDate.
    destruct (Qle_bool (Qabs due) (inject_Z JS.maxTime)) eqn:R.
    + apply Qle_bool_iff in R. rewrite Habs in R.
      split; [exact L|]. split; [exact R|].
      split; [apply integerPart_ge; exact Hdue|].
      assert (Hb : Qle_bool 0 due = true) by (apply Qle_bool_iff; exact Hpos).
      rewrite Hb.
      split.
      { split; [apply Qfloor_le|].
        pose proof (Qlt_floor due) as H.
        rewrite inject_Z_plus in H. exact H. }
      intro Hz.
      assert (E : due == inject_Z now).
      { unfold due. rewrite Hz. field. lra. }
      rewrite E. apply Qfloor_Z.
    + split; [exact L|].
      apply Qnot_le_lt. intro H.
      assert (Qle_bool (Qabs due) (inject_Z JS.maxTime) = true)
        by (apply Qle_bool_iff; rewrite Habs; exact H).
      congruence.
Qed.

Lemma stock_out_prediction_witness :
  let now := 1730543210123%Z in
  let rate := Inventory.getConsumptionRate now drained_item in
  let due :=
    inject_Z now
    + Inventory.currentStock drained_item / rate * 24 * 60 * 60 * 1000 in
  match Inventory.predictStockOutDate now drained_item with
  | None => rate == 0
  | Some JS.InvalidDate => 0 < rate /\ inject_Z JS.maxTime < due
  | Some (JS.Time d) =>
      0 < rate
      /\ due <= inject_Z JS.maxTime
      /\ (now <= d)%Z
      /\ inject_Z d <= due < inject_Z d + 1
      /\ (Inventory.currentStock drained_item == 0 -> d = now)
  end.
Proof.
  apply (stock_out_prediction 1730543210123 drained_item).
  - split; [exists 8; split; reflexivity|].
    repeat constructor; vm_compute; discriminate.
  - vm_compute. discriminate.
  - vm_compute. discriminate.
Defined.

(** A stock of 5000 of which one thousandth of a unit was consumed in the
    last 30 days runs out in 150 million days, beyond the days a date can
    count: the prediction is an Invalid Date. *)
Example distant_stock_out_is_no_date :
  Inventory.predictStockOutDate 1730543210123
    (Inventory.mkItem "64b000000000000000000002" "Flour" "base"
       5000 20 10000 0 true false
       [Inventory.mkMovement "consumption" (1 # 1000) (5000 + (1 # 1000))
                             5000 None None 1730543210000 None]
       1730543210000)
  = Some JS.InvalidDate.
Proof. reflexivity. Qed.

Lemma filter_nil {A} (p : A -> bool) (l : list A) :
  (forall x, In x l -> p x = false) -> filter p l = [].
Proof.
  induction l as [|x l IH]; intro H; [reflexivity|].
  cbn [filter]. rewrite (H x (or_introl eq_refl)). apply IH.
  intros y Hy. apply H. right. exact Hy.
Qed.

Lemma flagged_needs_none (i : Inventory.Item) :
  OrderRoutes.needsAlert (Inventory.set_lowStockAlertSent true i) = false.
Proof.
  unfold OrderRoutes.needsAlert. cbn. apply andb_false_r.
Qed.

(** X24.  After [checkAndSendLowStockAlerts] has sent its mail no item
    needs an alert any more, so a second call sends nothing and changes
    nothing.  The mail names exactly the active items at or below their
    minimum level that are not flagged yet, and none is sent when there is
    no such item; when the mail fails the inventory is left as it was. *)
Theorem low_stock_alerts_are_sent_once :
  forall (coll : list Inventory.Item),
    let alerted := fst (OrderRoutes.checkAndSendLowStockAlerts true coll) in
    filter OrderRoutes.needsAlert alerted = []
    /\ (forall mailSent,
           OrderRoutes.checkAndSendLowStockAlerts mailSent alerted
           = (alerted, []))
    /\ snd (OrderRoutes.checkAndSendLowStockAlerts true coll)
       = (match filter OrderRoutes.needsAlert coll with
          | [] => []
          | items => [MailLowStockAlert (map Inventory.name items)]
          end)
    /\ OrderRoutes.checkAndSendLowStockAlerts false coll
       = (coll, snd (OrderRoutes.checkAndSendLowStockAlerts true coll)).
Proof.
  intro coll. cbv zeta.
  assert (H1 : filter OrderRoutes.needsAlert
                 (fst (OrderRoutes.checkAndSendLowStockAlerts true coll))
               = []).
  { unfold OrderRoutes.checkAndSendLowStockAlerts. cbv zeta.
    destruct (filter OrderRoutes.needsAlert coll) as [|l ls] eqn:F;
      [exact F|].
    cbn [fst]. apply filter_nil. intros x Hx.
    apply in_map_iff in Hx. destruct Hx as (i & <- & Hi).
    destruct (existsb _ (l :: ls)) eqn:E; [apply flagged_needs_none|].
    destruct (OrderRoutes.needsAlert i) eqn:N; [|reflexivity].
    assert (Hin : In i (l :: ls))
      by (rewrite <- F; apply filter_In; split; assumption).
    assert (existsb (fun l0 => String.eqb (Inventory._id l0)
                                          (Inventory._id i)) (l :: ls)
            = true)
      by (apply existsb_exists; exists i; split;
          [exact Hin|apply String.eqb_refl]).
    congruence. }
  split; [exact H1|]. split.
  - intro mailSent. unfold OrderRoutes.checkAndSendLowStockAlerts at 1.
    cbv zeta. rewrite H1. reflexivity.
  - unfold OrderRoutes.checkAndSendLowStockAlerts. cbv zeta.
    destruct (filter OrderRoutes.needsAlert coll); split; reflexivity.
Qed.

(** X23.  For an item whose minimum level is not negative,
    [getLowStockItems] returns it exactly when it is stored, active and of
    status critical or low; the items needing an alert are the low stock
    items whose alert flag is not set. *)
Theorem low_stock_items_by_status :
  forall (coll : list Inventory.Item) (i : Inventory.Item),
    0 <= Inventory.minStockLevel i ->
    (In i (Inventory.getLowStockItems coll)
     <-> In i coll
         /\ Inventory.isActive i = true
         /\ (Inventory.getStockStatus i = Inventory.critical
             \/ Inventory.getStockStatus i = Inventory.low))
    /\ (In i (filter OrderRoutes.needsAlert coll)
        <-> In i (Inventory.getLowStockItems coll)
            /\ Inventory.lowStockAlertSent i = false).
Proof.
  intros coll i Hmin. unfold Inventory.getLowStockItems. split.
  - rewrite filter_In. split.
    + intros (Hin & H). apply andb_prop in H. destruct H as (H & Ha).
      apply JS_leb_iff in H. split; [exact Hin|]. split; [exact Ha|].
      destruct (Inventory.getStockStatus i) eqn:S; auto.
      * apply status_overstocked_iff in S. exfalso. lra.
      * apply status_normal_iff in S. exfalso. lra.
    + intros (Hin & Ha & S). split; [exact Hin|]. rewrite Ha, andb_true_r.
      apply JS_leb_iff. destruct S as [S | S].
      * apply status_critical_iff in S.
        assert (Inventory.minStockLevel i / 2 <= Inventory.minStockLevel i)
          by (apply Qle_shift_div_r; lra).
        lra.
      * apply status_low_iff in S. lra.
  - rewrite !filter_In. unfold OrderRoutes.needsAlert. split.
    + intros (Hin & H). apply andb_prop in H. destruct H as (H & Hf).
      apply negb_true_iff in Hf. auto.
    + intros ((Hin & H) & Hf). rewrite H, Hf. auto.
Qed.

Lemma low_stock_items_by_status_witness :
  (In sample_item (Inventory.getLowStockItems [sample_item])
   <-> In sample_item [sample_item]
       /\ Inventory.isActive sample_item = true
       /\ (Inventory.getStockStatus sample_item = Inventory.critical
           \/ Inventory.getStockStatus sample_item = Inventory.low))
  /\ (In sample_item (filter OrderRoutes.needsAlert [sample_item])
      <-> In sample_item (Inventory.getLowStockItems [sample_item])
          /\ Inventory.lowStockAlertSent sample_item = false).
Proof.
  apply (low_stock_items_by_status [sample_item] sample_item).
  vm_compute. discriminate.
Defined.

End Ledger.

(** ** The stock routes *)

Section StockRoutes.

Local Open Scope Q_scope.

Lemma findById_id id coll item :
  InventoryRoutes.findById id coll = Some item -> Inventory._id item = id.
Proof.
  intro F. apply find_some in F. destruct F as (_ & F).
  apply String.eqb_eq in F. exact F.
Qed.

Lemma store_map {B} (g : Inventory.Item -> B) id coll item i' :
  InventoryRoutes.findById id coll = Some item ->
  Inventory._id i' = Inventory._id item ->
  g i' = g item ->
  map g (InventoryRoutes.store i' coll) = map g coll.
Proof.
  intros F Hid Hg. pose proof (findById_id _ _ _ F) as Hi.
  unfold InventoryRoutes.findById in F.
  induction coll as [|x rest IH]; [reflexivity|].
  cbn [InventoryRoutes.store find map] in *. rewrite Hid, Hi.
  destruct (String.eqb (Inventory._id x) id).
  - injection F as ->. cbn [map]. rewrite Hg. reflexivity.
  - cbn [map]. f_equal. apply IH. exact F.
Qed.

Lemma store_keeps i' coll x :
  In x coll -> Inventory._id x <> Inventory._id i' ->
  In x (InventoryRoutes.store i' coll).
Proof.
  intros Hin Hne. induction coll as [|y rest IH]; [contradiction|].
  cbn [InventoryRoutes.store].
  destruct (String.eqb (Inventory._id y) (Inventory._id i')) eqn:E.
  - destruct Hin as [-> | Hin]; [|right; exact Hin].
    apply String.eqb_eq in E. contradiction.
  - destruct Hin as [-> | Hin]; [left; reflexivity|right; auto].
Qed.

(** What the loop of the bulk update maintains. *)
Lemma bulk_loop now adminId updates coll results errors :
  let '(coll', results', errors') :=
    fold_left (InventoryRoutes.bulkStep now adminId) updates
              (coll, results, errors) in
  (List.length results' + List.length errors'
   = List.length results + List.length errors + List.length updates)%nat
  /\ map (fun i => (Inventory._id i, shape i)) coll'
     = map (fun i => (Inventory._id i, shape i)) coll
  /\ (forall x,
         In x coll ->
         ~ In (Inventory._id x) (map InventoryRoutes.Bulk.itemId updates) ->
         In x coll').
Proof.
  revert coll results errors.
  induction updates as [|u rest IH]; intros coll results errors.
  - cbn. repeat split; auto.
  - cbn [fold_left]. unfold InventoryRoutes.bulkStep at 2.
    destruct (InventoryRoutes.findById _ coll) as [item|] eqn:F.
    + destruct (Inventory.updateStock _ _ _ _ _ _ item) as [err|item'] eqn:U.
      * specialize (IH coll results
                       (errors
                          ++ [InventoryRoutes.Bulk.mkFailure
                                (InventoryRoutes.Bulk.itemId u) err])%list).
        destruct (fold_left _ rest _) as [[c' r'] e'].
        destruct IH as (H1 & H2 & H3). rewrite length_app in H1.
        cbn [List.length map] in *. split; [lia|]. split; [exact H2|].
        intros x Hx Hn. apply H3; [exact Hx|]. intro. apply Hn. right.
        assumption.
      * destruct (updateStock_result _ _ _ _ _ _ _ _ U)
          as (_ & _ & _ & Hid & _).
        pose proof (updateStock_shape _ _ _ _ _ _ _ _ U) as Hsh.
        specialize (IH (InventoryRoutes.store item' coll)
                       (results
                          ++ [InventoryRoutes.Bulk.mkSuccess
                                (Inventory._id item') (Inventory.name item')
                                (InventoryRoutes.Bulk.action u)
                                (InventoryRoutes.Bulk.quantity u)
                                (Inventory.currentStock item)
                                (Inventory.currentStock item')])%list
                       errors).
        destruct (fold_left _ rest _) as [[c' r'] e'].
        destruct IH as (H1 & H2 & H3). rewrite length_app in H1.
        cbn [List.length map] in *. split; [lia|]. split.
        { rewrite H2.
          apply (store_map _ (InventoryRoutes.Bulk.itemId u) coll item);
            [exact F|exact Hid|]. rewrite Hid, Hsh. reflexivity. }
        intros x Hx Hn. apply H3.
        -- apply store_keeps; [exact Hx|]. rewrite Hid.
           rewrite (findById_id _ _ _ F). intro E. apply Hn. left.
           symmetry. exact E.
        -- intro. apply Hn. right. assumption.
    + specialize (IH coll results
                     (errors ++ [InventoryRoutes.Bulk.mkFailure
                                   (InventoryRoutes.Bulk.itemId u)
                                   "Item not found"])%list).
      destruct (fold_left _ rest _) as [[c' r'] e'].
      destruct IH as (H1 & H2 & H3). rewrite length_app in H1.
      cbn [List.length map] in *. split; [lia|]. split; [exact H2|].
      intros x Hx Hn. apply H3; [exact Hx|]. intro. apply Hn. right.
      assumption.
Qed.



Section Preservation.

Variable P : Inventory.Item -> Prop.

Hypothesis P_updateStock :
  forall now act qty why who ord i r,
    P i -> Inventory.updateStock now act qty why who ord i = inr r -> P r.
Hypothesis P_flag :
  forall i, P i -> P (Inventory.set_lowStockAlertSent true i).

Lemma updateFirst_Forall test now act qty why who ord coll :
  Forall P coll ->
  Forall P (OrderRoutes.updateFirst test
              (Inventory.updateStock now act qty why who ord) coll).
Proof.
  induction 1 as [|x rest Hx Hrest IH]; [constructor|].
  cbn [OrderRoutes.updateFirst]. destruct (test x).
  - destruct (Inventory.updateStock now act qty why who ord x) as [err|x']
      eqn:U.
    + constructor; assumption.
    + constructor; [|assumption].
      apply (P_updateStock _ _ _ _ _ _ _ _ Hx U).
  - constructor; assumption.
Qed.

Lemma updateInventoryItem_Forall rt e n q oid coll :
  Forall P coll -> Forall P (OrderRoutes.updateInventoryItem rt e n q oid coll).
Proof.
  intro H. unfold OrderRoutes.updateInventoryItem.
  destruct (OrderRoutes.nameTest rt n); [|exact H].
  apply updateFirst_Forall. exact H.
Qed.

Lemma consumeForOrder_Forall rt e o coll :
  Forall P coll -> Forall P (OrderRoutes.consumeForOrder rt e o coll).
Proof.
  unfold OrderRoutes.consumeForOrder. generalize (Order.orderId o).
  intros oid. revert coll.
  induction (Order.items o) as [|item items IH]; intros coll H; [exact H|].
  cbn [fold_left]. apply IH. unfold OrderRoutes.consumeForItem.
  revert coll H.
  induction (OrderRoutes.ingredientNames (Order.customizations item))
    as [|n ns IHn]; intros coll H; [exact H|].
  cbn [fold_left]. apply IHn. apply updateInventoryItem_Forall. exact H.
Qed.

Lemma alerts_Forall mailSent coll :
  Forall P coll ->
  Forall P (fst (OrderRoutes.checkAndSendLowStockAlerts mailSent coll)).
Proof.
  intro H. unfold OrderRoutes.checkAndSendLowStockAlerts. cbv zeta.
  destruct (filter OrderRoutes.needsAlert coll) as [|l ls]; [exact H|].
  destruct mailSent; [|exact H]. cbn [fst].
  apply Forall_forall. intros x Hx. apply in_map_iff in Hx.
  destruct Hx as (i & <- & Hi).
  pose proof (proj1 (Forall_forall _ _) H i Hi).
  destruct (existsb _ _); auto.
Qed.

Lemma updateInventoryForOrder_Forall rt e mailSent o coll :
  Forall P coll ->
  Forall P (fst (OrderRoutes.updateInventoryForOrder rt e mailSent o coll)).
Proof.
  intro H. unfold OrderRoutes.updateInventoryForOrder.
  apply alerts_Forall, consumeForOrder_Forall, H.
Qed.

End Preservation.

Lemma handle_inventory rt e q w :
  inventory (world (handle rt e q w)) = inventory w
  \/ exists mailSent o,
       inventory (world (handle rt e q w))
       = fst (OrderRoutes.updateInventoryForOrder rt e mailSent o
                                                  (inventory w)).
Proof.
  destruct q; cbn [handle].
  - left. unfold AdminRoutes.updateOrderStatus.
    destruct (AdminRoutes.validStatusRequest _); [|reflexivity].
    cbn [negb]. destruct (find _ _); [|reflexivity].
    destruct (negb _); [reflexivity|].
    destruct (Order.save _ _ _) as [err|[s st]];
      [rewrite errorHandler_world|]; reflexivity.
  - left. unfold OrderRoutes.cancel.
    destruct (OrderRoutes.findOrder _ _ _ _); [|reflexivity].
    destruct (Order.orderStatus _); try reflexivity;
      (destruct (Order.save _ _ _) as [err|[s st]];
       [rewrite errorHandler_world; reflexivity|]);
      (destruct (_ && _); [|reflexivity]);
      (destruct refunded; [|reflexivity]);
      destruct (Order.save _ _ _) as [err2|[s2 st2]]; reflexivity.
  - unfold OrderRoutes.verifyPayment.
    destruct (negb _); [left; reflexivity|].
    destruct (OrderRoutes.findOrder _ _ _ _); [|left; reflexivity].
    destruct (OrderRoutes.isCompleted _); [left; reflexivity|].
    destruct (negb _); [left; reflexivity|].
    destruct (Order.save _ _ _) as [err|[s st]];
      [left; rewrite errorHandler_world; reflexivity|].
    right. exists mailSent, (Order.fields s).
    match goal with
    | |- context [OrderRoutes.afterConfirmation ?a ?b ?c ?d ?m ?x ?y] =>
        destruct (afterConfirmation_world a b c d m x y) as (_ & Hinv & _)
    end.
    exact Hinv.
  - unfold OrderRoutes.confirmCod.
    destruct (OrderRoutes.findOrder _ _ _ _); [|left; reflexivity].
    destruct (negb _); [left; reflexivity|].
    destruct (Order.save _ _ _) as [err|[s st]];
      [left; rewrite errorHandler_world; reflexivity|].
    right. exists mailSent, (Order.fields s).
    match goal with
    | |- context [OrderRoutes.afterConfirmation ?a ?b ?c ?d ?m ?x ?y] =>
        destruct (afterConfirmation_world a b c d m x y) as (_ & Hinv & _)
    end.
    exact Hinv.
Qed.

Lemma soundItem_updateStock now act qty why who ord i r :
  soundItem i ->
  Inventory.updateStock now act qty why who ord i = inr r ->
  soundItem r.
Proof.
  intros (H0 & Ha) U. split.
  - destruct (updateStock_result _ _ _ _ _ _ _ _ U) as (_ & Hs & _).
    cbv zeta in Hs. rewrite Hs. apply clamp_cases.
  - apply (auditTrail_updateStock now act qty why who ord i r Ha U).
Qed.

Lemma soundItem_flag i :
  soundItem i -> soundItem (Inventory.set_lowStockAlertSent true i).
Proof. intro H. exact H. Qed.

(** X27.  When every inventory item has a stock that is not negative and
    a history that is an audit trail of it, this is still so after any
    sequence of status updates, cancellations, payment verifications and
    cash-on-delivery confirmations. *)
Theorem requests_keep_the_ledger_sound :
  forall (rt : Runtime) (qs : list (Order.Env * Request)) (w : World),
    Forall soundItem (inventory w) ->
    Forall soundItem (inventory (serve rt qs w)).
Proof.
  intros rt qs. induction qs as [|[e q] qs IH]; intros w H; [exact H|].
  cbn [serve fold_left fst snd]. apply IH.
  destruct (handle_inventory rt e q w) as [-> | (m & o & ->)]; [exact H|].
  apply (updateInventoryForOrder_Forall soundItem
           soundItem_updateStock soundItem_flag). exact H.
Qed.

Lemma requests_keep_the_ledger_sound_witness :
  Forall soundItem
         (inventory (serve sample_runtime sample_requests sample_store)).
Proof.
  apply (requests_keep_the_ledger_sound sample_runtime sample_requests
           sample_store).
  constructor; [|constructor].
  split; [vm_compute; discriminate|].
  split; [exists 8; reflexivity|constructor].
Defined.

End StockRoutes.

(** ** The limiter of sensitive operations *)

Section Limiter.

Local Open Scope Z_scope.

Lemma set_same key v s : Auth.set key v s key = Some v.
Proof. unfold Auth.set. rewrite String.eqb_refl. reflexivity. Qed.

Lemma answers_in_window maxAttempts windowMinutes key times :
  forall (s : Auth.Store) (a r : Z),
    s key = Some (Auth.mkLimit a r) ->
    Forall (fun t => t <= r) times ->
    answers maxAttempts windowMinutes key times s
    = map (fun k => a + Z.of_nat k <? maxAttempts)
          (seq 0 (List.length times)).
Proof.
  induction times as [|t rest IH]; intros s a r Hs Ht; [reflexivity|].
  inversion Ht as [|? ? H1 H2]; subst.
  cbn [answers List.length seq map]. unfold Auth.rateLimit. rewrite Hs.
  cbn [Auth.resetTime Auth.attempts].
  assert ((r <? t) = false) as -> by (apply Z.ltb_ge; lia).
  rewrite <- seq_shift, map_map.
  destruct (maxAttempts <=? a) eqn:M.
  - apply Z.leb_le in M. cbn [fst snd].
    assert ((a + Z.of_nat 0 <? maxAttempts) = false) as ->
      by (apply Z.ltb_ge; lia).
    f_equal. rewrite (IH s a r Hs H2). apply map_ext.
    intro k. 
    assert ((a + Z.of_nat k <? maxAttempts) = false) as ->
      by (apply Z.ltb_ge; lia).
    symmetry. apply Z.ltb_ge. lia.
  - apply Z.leb_gt in M. cbn [fst snd].
    assert ((a + Z.of_nat 0 <? maxAttempts) = true) as ->
      by (apply Z.ltb_lt; lia).
    f_equal. rewrite (IH _ (a + 1) r (set_same _ _ _) H2). apply map_ext.
    intro k. f_equal. lia.
Qed.

(** X28.  For a key without a running window, the limiter lets through
    the first [maxAttempts] requests made before the window closes and
    refuses every further one. *)
Theorem limiter_admits_the_first_attempts :
  forall (maxAttempts windowMinutes : Z) (key : string) (first : Z)
         (later : list Z) (s : Auth.Store),
    1 <= maxAttempts ->
    idle key first s ->
    Forall (fun t => t <= first + windowMinutes * 60 * 1000) later ->
    answers maxAttempts windowMinutes key (first :: later) s
    = map (fun k => Z.of_nat k <? maxAttempts)
          (seq 0 (S (List.length later))).
Proof.
  intros maxAttempts windowMinutes key first later s Hmax Hidle Hw.
  cbn [answers seq map].
  assert (Hstep :
    Auth.rateLimit maxAttempts windowMinutes key first s
    = (true,
       Auth.set key (Auth.mkLimit 1 (first + windowMinutes * 60 * 1000)) s)).
  { unfold Auth.rateLimit, idle in *. destruct (s key) as [l|]; [|reflexivity].
    assert ((Auth.resetTime l <? first) = true) as ->
      by (apply Z.ltb_lt; exact Hidle).
    reflexivity. }
  rewrite Hstep. cbn [fst snd].
  assert ((Z.of_nat 0 <? maxAttempts) = true) as ->
    by (apply Z.ltb_lt; cbn; lia).
  f_equal.
  rewrite (answers_in_window maxAttempts windowMinutes key later _ 1
             (first + windowMinutes * 60 * 1000) (set_same _ _ _) Hw).
  rewrite <- seq_shift, map_map. apply map_ext. intro k. f_equal. lia.
Qed.

Lemma limiter_admits_the_first_attempts_witness :
  answers 5 15 "10.0.0.1_anonymous"%string [0; 1; 2; 3; 4; 5; 900000]
          Auth.empty
  = map (fun k => Z.of_nat k <? 5) (seq 0 7).
Proof.
  apply (limiter_admits_the_first_attempts 5 15
           "10.0.0.1_anonymous"%string 0
           [1; 2; 3; 4; 5; 900000] Auth.empty).
  - lia.
  - exact I.
  - repeat constructor; cbn; lia.
Defined.

(** X29.  The periodic clean-up of the limiter's store cannot be
    observed: a request made at or after the clean-up gets the same answer
    and leaves the same entry for its key as it would without it. *)
Theorem limiter_clean_up_is_transparent :
  forall (maxAttempts windowMinutes : Z) (key : string) (cleaned now : Z)
         (s : Auth.Store),
    cleaned <= now ->
    let before := Auth.rateLimit maxAttempts windowMinutes key now s in
    let after :=
      Auth.rateLimit maxAttempts windowMinutes key now
                     (Auth.cleanUp cleaned s) in
    fst after = fst before /\ snd after key = snd before key.
Proof.
  intros maxAttempts windowMinutes key cleaned now s Hle. cbv zeta.
  unfold Auth.rateLimit, Auth.cleanUp.
  destruct (s key) as [l|] eqn:E.
  - destruct (Auth.resetTime l <? cleaned) eqn:C.
    + apply Z.ltb_lt in C.
      assert ((Auth.resetTime l <? now) = true) as ->
        by (apply Z.ltb_lt; lia).
      cbn [fst snd]. rewrite !set_same. auto.
    + destruct (Auth.resetTime l <? now); cbn [fst snd];
        [rewrite !set_same; auto|].
      destruct (maxAttempts <=? Auth.attempts l); cbn [fst snd];
        [rewrite E, C; auto|rewrite !set_same; auto].
  - cbn [fst snd]. rewrite !set_same. auto.
Qed.

Lemma limiter_clean_up_is_transparent_witness :
  fst (Auth.rateLimit 5 15 "k" 2000000
         (Auth.cleanUp 1000000
            (Auth.set "k" (Auth.mkLimit 5 900000) Auth.empty)))
  = fst (Auth.rateLimit 5 15 "k" 2000000
           (Auth.set "k" (Auth.mkLimit 5 900000) Auth.empty))
  /\ snd (Auth.rateLimit 5 15 "k" 2000000
            (Auth.cleanUp 1000000
               (Auth.set "k" (Auth.mkLimit 5 900000) Auth.empty))) "k"%string
     = snd (Auth.rateLimit 5 15 "k" 2000000
              (Auth.set "k" (Auth.mkLimit 5 900000) Auth.empty)) "k"%string.
Proof.
  apply (limiter_clean_up_is_transparent 5 15 "k" 1000000 2000000
           (Auth.set "k" (Auth.mkLimit 5 900000) Auth.empty)).
  lia.
Defined.

End Limiter.
